(** * Data-cleaning and statistics engine of the analytics dashboard

    A shallow embedding of the core functions of [src/app.py]:
    [analyze_column_types], [clean_data], [detect_outliers] and
    [suggest_chart_type], together with the pandas operations they call.

    Modelling conventions.
    - A [DataFrame] is a list of column descriptors (label and storage
      type) and a list of rows; every row carries its index label and one
      cell per column.  Column labels are strings; the loops of the
      program over column labels are loops over column positions, which
      is the same on a frame with distinct labels.  Frames with other
      labels are outside the model: with a label that is not a string
      (a number in a spreadsheet header) the [', '.join] of the warning
      of [fill_mean] and [fill_median] raises a [TypeError], and with a
      duplicated label [df[col]] is a frame and the loops of
      [clean_data] raise.  On the frames of the model [clean_data]
      returns.
    - Floating-point numbers are idealised as exact rationals ([Q]); a
      missing cell (NaN, None, NaT) is the constructor [Missing]; a NaN
      that is the result of a computation is [None] in [option Q].
      [Num q] stands for the finite float of value [q]: infinities and
      the negative zero are outside the model.  Where the exact result
      of an operation is not a float64 number the program rounds it and
      the model does not; the properties that depend on exact values
      are stated for inputs on which no rounding occurs ([binary64]).
    - Frames are objects in a store ([heap]); [clean_data] receives and
      returns references, so that in-place updates and copies are
      visible.  The pandas calls are modelled as they behave in pandas
      1.x/2.x without copy-on-write: [fillna(..., inplace=True)] on a
      column updates the frame that holds the column.
    - Python exceptions are the [Raise] case of [result]. *)

From Stdlib Require Import ZArith QArith Qround Qabs String Ascii List Bool Lia.
From Stdlib Require Import DecimalString Sorted Lqa.
From stdpp Require Import base list strings.
Close Scope Q_scope.
Local Open Scope Z_scope.
Local Open Scope string_scope.
Local Open Scope list_scope.

(** ** Data model *)

(** Storage types of a pandas column.  Only the first five are named by
    the program; the others stand for the storage types it never names. *)
Inductive dtype :=
| Int64 | Float64 | Object | Category | Datetime64
| BoolDtype | Int32 | Float32 | Timedelta64.

Definition dtype_eqb (a b : dtype) : bool :=
  match a, b with
  | Int64, Int64 | Float64, Float64 | Object, Object
  | Category, Category | Datetime64, Datetime64 | BoolDtype, BoolDtype
  | Int32, Int32 | Float32, Float32 | Timedelta64, Timedelta64 => true
  | _, _ => false
  end.

Definition dtype_in (t : dtype) (include : list dtype) : bool :=
  existsb (dtype_eqb t) include.

Inductive cell :=
| Missing
| Num (q : Q)
| Str (s : string)
| Flag (b : bool)
| Stamp (t : Z).

Record row := Row { label : Z; cells : list cell }.

Record DataFrame := Frame {
  columns : list (string * dtype);
  rows : list row
}.

Definition isnull (c : cell) : bool :=
  match c with Missing => true | _ => false end.

Definition notna (c : cell) : bool := negb (isnull c).

(** [len(df)] and [len(df.columns)] *)
Definition len (df : DataFrame) : Z := Z.of_nat (length (rows df)).
Definition ncols (df : DataFrame) : Z := Z.of_nat (length (columns df)).

(** The cell of row [r] in the column at position [j]. *)
Definition cell_at (j : nat) (r : row) : cell :=
  default Missing (cells r !! j).

(** [df[col]] as the list of its values, for the column at position [j]. *)
Definition col_values (j : nat) (df : DataFrame) : list cell :=
  map (cell_at j) (rows df).

Definition col_dtype (j : nat) (df : DataFrame) : option dtype :=
  snd <$> columns df !! j.

(** Position of the column labelled [name] ([name in df.columns]). *)
Fixpoint index_of (name : string) (cs : list (string * dtype)) : option nat :=
  match cs with
  | [] => None
  | (n, _) :: cs' =>
      if String.eqb name n then Some O else S <$> index_of name cs'
  end.

(** [df.select_dtypes(include=...).columns.tolist()] *)
Definition select_dtypes (include : list dtype) (df : DataFrame) : list string :=
  map fst (List.filter (fun c => dtype_in (snd c) include) (columns df)).

(** Positions of the columns selected by [select_dtypes]. *)
Definition select_positions (include : list dtype) (df : DataFrame) : list nat :=
  List.filter (fun j => match col_dtype j df with
                        | Some t => dtype_in t include
                        | None => false
                        end)
              (seq 0 (length (columns df))).

(** ** ColumnClassifier: [analyze_column_types] *)

Record column_types := ColumnTypes {
  numeric : list string;
  categorical : list string;
  datetime : list string
}.

Definition analyze_column_types (df : DataFrame) : column_types :=
  let numeric_cols := select_dtypes [Int64; Float64] df in
  let categorical_cols := select_dtypes [Object; Category] df in
  let datetime_cols := select_dtypes [Datetime64] df in
  {| numeric := numeric_cols;
     categorical := categorical_cols;
     datetime := datetime_cols |}.

(** ** ChartAdvisor: [suggest_chart_type] *)

(** Python's [name in names] on a list of strings. *)
Definition str_in (name : string) (names : list string) : bool :=
  existsb (String.eqb name) names.

(** Truth value of an optional string: [None] and the empty string are
    false. *)
Definition truthy (y : option string) : bool :=
  match y with
  | None => false
  | Some s => negb (String.eqb s "")
  end.

Definition suggest_chart_type (x_col : string) (y_col : option string)
    (df : DataFrame) : string :=
  let col_types := analyze_column_types df in
  let x_is_numeric := str_in x_col (numeric col_types) in
  let y_is_numeric :=
    if truthy y_col
    then match y_col with
         | Some y => str_in y (numeric col_types)
         | None => false
         end
    else false in
  match y_col with
  | None => if x_is_numeric then "histogram" else "bar"
  | Some _ =>
      if x_is_numeric && y_is_numeric then "scatter"
      else if negb x_is_numeric && y_is_numeric then "box"
      else if x_is_numeric && negb y_is_numeric then "box"
      else "bar"
  end.

(** ** Series operations used by the cleaner and the outlier detector *)

Section Sorting.
Context {A : Type} (leb : A -> A -> bool).

Fixpoint insert_sorted (x : A) (l : list A) : list A :=
  match l with
  | [] => [x]
  | y :: l' => if leb x y then x :: l else y :: insert_sorted x l'
  end.

Definition sort_by (l : list A) : list A := foldr insert_sorted [] l.
End Sorting.

(** The numbers held by a list of cells ([dropna] of a numeric column). *)
Definition numbers (vs : list cell) : list Q :=
  omap (fun c => match c with Num q => Some q | _ => None end) vs.

Definition Qsum (xs : list Q) : Q := foldr Qplus 0%Q xs.

(** A float result as a cell: NaN is the missing marker. *)
Definition float_cell (x : option Q) : cell :=
  match x with Some q => Num q | None => Missing end.

(** [Series.mean()]: NaN on a series without present values. *)
Definition series_mean (vs : list cell) : option Q :=
  match numbers vs with
  | [] => None
  | xs => Some (Qsum xs / inject_Z (Z.of_nat (length xs)))%Q
  end.

(** [Series.median()] *)
Definition series_median (vs : list cell) : option Q :=
  let xs := sort_by Qle_bool (numbers vs) in
  let n := length xs in
  match n with
  | O => None
  | _ =>
      if Nat.even n
      then Some ((nth (n / 2 - 1) xs 0%Q + nth (n / 2) xs 0%Q) / 2)%Q
      else Some (nth (n / 2) xs 0%Q)
  end.

(** [Series.quantile(q)] with pandas' default linear interpolation. *)
Definition quantile (xs : list Q) (q : Q) : option Q :=
  let s := sort_by Qle_bool xs in
  match s with
  | [] => None
  | _ =>
      let n := length s in
      let pos := (inject_Z (Z.of_nat (n - 1)) * q)%Q in
      let lo := Z.to_nat (Qfloor pos) in
      let frac := (pos - inject_Z (Z.of_nat lo))%Q in
      let a := nth lo s 0%Q in
      let b := nth (Nat.min (S lo) (n - 1)) s 0%Q in
      Some (a + (b - a) * frac)%Q
  end.

(** Equality of cell values as pandas hashes them: two missing markers
    are equal. *)
Definition cell_eqb (a b : cell) : bool :=
  match a, b with
  | Missing, Missing => true
  | Num p, Num q => Qeq_bool p q
  | Str s, Str t => String.eqb s t
  | Flag x, Flag y => Bool.eqb x y
  | Stamp s, Stamp t => Z.eqb s t
  | _, _ => false
  end.

Definition cell_rank (c : cell) : nat :=
  match c with
  | Missing => 0 | Flag _ => 1 | Num _ => 2 | Stamp _ => 3 | Str _ => 4
  end%nat.

(** Sort order of present values inside one column. *)
Definition cell_leb (a b : cell) : bool :=
  match a, b with
  | Num p, Num q => Qle_bool p q
  | Str s, Str t => String.leb s t
  | Flag x, Flag y => implb x y
  | Stamp s, Stamp t => Z.leb s t
  | _, _ => Nat.leb (cell_rank a) (cell_rank b)
  end.

Definition count_cell (v : cell) (vs : list cell) : nat :=
  length (List.filter (cell_eqb v) vs).

Fixpoint unique_cells (vs : list cell) : list cell :=
  match vs with
  | [] => []
  | v :: vs' =>
      v :: List.filter (fun w => negb (cell_eqb v w)) (unique_cells vs')
  end.

(** [Series.mode()]: the most frequent present values, sorted. *)
Definition series_mode (vs : list cell) : list cell :=
  let present := List.filter notna vs in
  let best := foldr Nat.max O (map (fun v => count_cell v present) present) in
  sort_by cell_leb
    (List.filter (fun v => Nat.eqb (count_cell v present) best)
                 (unique_cells present)).

(** ** Frame operations *)

Definition cells_eqb (a b : list cell) : bool :=
  Nat.eqb (length a) (length b) &&
  forallb (fun p => cell_eqb (fst p) (snd p)) (combine a b).

(** [drop_duplicates()]: keep the first occurrence of every row;
    [seen] holds the rows met so far. *)
Fixpoint drop_duplicate_rows (seen : list (list cell)) (rs : list row)
    : list row :=
  match rs with
  | [] => []
  | r :: rs' =>
      if existsb (cells_eqb (cells r)) seen
      then drop_duplicate_rows seen rs'
      else r :: drop_duplicate_rows (cells r :: seen) rs'
  end.

Definition drop_duplicates_frame (df : DataFrame) : DataFrame :=
  {| columns := columns df; rows := drop_duplicate_rows [] (rows df) |}.

(** [dropna()]: remove every row with a missing cell. *)
Definition complete_row (r : row) : bool := forallb notna (cells r).

Definition dropna_frame (df : DataFrame) : DataFrame :=
  {| columns := columns df; rows := List.filter complete_row (rows df) |}.

(** [df[col].fillna(value, inplace=True)] for the column at position [j]. *)
Definition fillna (j : nat) (value : cell) (df : DataFrame) : DataFrame :=
  {| columns := columns df;
     rows := map (fun r => if isnull (cell_at j r)
                           then Row (label r) (<[j := value]> (cells r))
                           else r) (rows df) |}.

(** [df[col].isnull().any()] *)
Definition any_null (j : nat) (df : DataFrame) : bool :=
  existsb isnull (col_values j df).

Definition col_name (j : nat) (df : DataFrame) : string :=
  default "" (fst <$> columns df !! j).

(** [df[col] = values] for an existing column at position [j], which
    takes the storage type [t]. *)
Definition set_column (j : nat) (t : dtype) (values : list cell)
    (df : DataFrame) : DataFrame :=
  {| columns := <[j := (col_name j df, t)]> (columns df);
     rows := map (fun p => Row (label (fst p)) (<[j := snd p]> (cells (fst p))))
                 (combine (rows df) values) |}.

(** ** The store of frames *)

Inductive exn := ZeroDivisionError | InvalidReference.

Inductive result (A : Type) :=
| Ok (a : A)
| Raise (e : exn).
Arguments Ok {A} a.
Arguments Raise {A} e.

Definition ref := nat.
Definition heap := list DataFrame.

Definition M (A : Type) : Type := heap -> result (A * heap).

Definition ret {A} (a : A) : M A := fun h => Ok (a, h).

Definition bind {A B} (m : M A) (k : A -> M B) : M B :=
  fun h => match m h with
           | Ok (a, h') => k a h'
           | Raise e => Raise e
           end.

Notation "'do' x <- m ; k" := (bind m (fun x => k))
  (at level 10, x pattern, m at level 100, k at level 200,
   format "'[v' 'do'  x  <-  m ; '/' k ']'").

(** The frame a reference points to. *)
Definition deref (l : ref) : M DataFrame :=
  fun h => match h !! l with
           | Some d => Ok (d, h)
           | None => Raise InvalidReference
           end.

(** A new frame object. *)
Definition new_frame (d : DataFrame) : M ref :=
  fun h => Ok (length h, h ++ [d]).

(** A loop that updates in place the object [l] points to and yields
    the counters it keeps. *)
Definition update {A} (l : ref) (f : DataFrame -> DataFrame * A) : M A :=
  fun h => match h !! l with
           | Some d => Ok (snd (f d), <[l := fst (f d)]> h)
           | None => Raise InvalidReference
           end.

(** [df.copy()], [df.drop_duplicates()], [df.dropna()]: each returns a
    new object and leaves its receiver as it is. *)
Definition copy (l : ref) : M ref :=
  do d <- deref l; new_frame d.

Definition drop_duplicates (l : ref) : M ref :=
  do d <- deref l; new_frame (drop_duplicates_frame d).

Definition dropna (l : ref) : M ref :=
  do d <- deref l; new_frame (dropna_frame d).

Definition len_of (l : ref) : M Z :=
  do d <- deref l; ret (len d).

(** ** DataCleaner: [clean_data] *)

Record cleaning_stats := Stats {
  original_rows : Z;
  original_cols : Z;
  duplicates_removed : Z;
  missing_handled : Z;
  types_converted : Z;
  warnings : list string;
  final_rows : Z;
  final_cols : Z
}.

Definition set_duplicates_removed (n : Z) (s : cleaning_stats) :=
  Stats (original_rows s) (original_cols s) n (missing_handled s)
        (types_converted s) (warnings s) (final_rows s) (final_cols s).

Definition set_missing_handled (n : Z) (s : cleaning_stats) :=
  Stats (original_rows s) (original_cols s) (duplicates_removed s) n
        (types_converted s) (warnings s) (final_rows s) (final_cols s).

Definition set_types_converted (n : Z) (s : cleaning_stats) :=
  Stats (original_rows s) (original_cols s) (duplicates_removed s)
        (missing_handled s) n (warnings s) (final_rows s) (final_cols s).

Definition append_warning (w : string) (s : cleaning_stats) :=
  Stats (original_rows s) (original_cols s) (duplicates_removed s)
        (missing_handled s) (types_converted s) (warnings s ++ [w])
        (final_rows s) (final_cols s).

Definition set_final (r c : Z) (s : cleaning_stats) :=
  Stats (original_rows s) (original_cols s) (duplicates_removed s)
        (missing_handled s) (types_converted s) (warnings s) r c.

Definition string_of_Z (z : Z) : string := NilZero.string_of_int (Z.to_int z).

(** The warning of the mean and median policies; [method] is ['Mean'] or
    ['Median']. *)
Definition not_applicable_warning (method : string) (names : list string)
    : string :=
  "⚠️ Phương pháp '" +:+ method +:+ "' không áp dụng cho cột dạng chữ: "
  +:+ String.concat ", " names
  +:+ ". Các cột này vẫn còn giá trị thiếu.".

Definition mode_note (categorical_filled numeric_filled : Z) : string :=
  "ℹ️ Đã điền " +:+ string_of_Z categorical_filled
  +:+ " cột dạng chữ và " +:+ string_of_Z numeric_filled
  +:+ " cột số bằng giá trị phổ biến nhất (Mode).".

(** Object and category columns that hold a missing cell. *)
Definition categorical_cols_with_nulls (df : DataFrame) : list string :=
  map (fun j => col_name j df)
      (List.filter (fun j => any_null j df)
                   (select_positions [Object; Category] df)).

(** The loop of the mean and median policies over the numeric columns;
    [agg] is [series_mean] or [series_median].  The state is the frame
    and [stats['missing_handled']]. *)
Definition fill_numeric_step (agg : list cell -> option Q)
    (st : DataFrame * Z) (j : nat) : DataFrame * Z :=
  let '(d, handled) := st in
  if any_null j d
  then (fillna j (float_cell (agg (col_values j d))) d, handled + 1)
  else (d, handled).

Definition fill_numeric (agg : list cell -> option Q) (df : DataFrame)
    (handled : Z) : DataFrame * Z :=
  foldl (fill_numeric_step agg) (df, handled)
        (select_positions [Int64; Float64] df).

(** The loop of the mode policy over every column. *)
Record mode_state := ModeState {
  mode_frame : DataFrame;
  mode_handled : Z;
  numeric_filled : Z;
  categorical_filled : Z
}.

Definition fill_mode_step (st : mode_state) (j : nat) : mode_state :=
  let d := mode_frame st in
  if any_null j d
  then match series_mode (col_values j d) with
       | [] => st
       | mode_val :: _ =>
           let d' := fillna j mode_val d in
           match col_dtype j d' with
           | Some t =>
               if dtype_in t [Int64; Float64]
               then ModeState d' (mode_handled st + 1)
                              (numeric_filled st + 1) (categorical_filled st)
               else ModeState d' (mode_handled st + 1)
                              (numeric_filled st) (categorical_filled st + 1)
           | None => st
           end
       end
  else st.

Definition fill_mode (df : DataFrame) (handled : Z) : mode_state :=
  foldl fill_mode_step (ModeState df handled 0 0)
        (seq 0 (length (columns df))).

(** Stage 1 of [clean_data]: remove duplicates. *)
Definition remove_duplicates_stage (remove_duplicates : bool)
    (df_cleaned : ref) (stats : cleaning_stats) : M (ref * cleaning_stats) :=
  if remove_duplicates
  then do before <- len_of df_cleaned;
       do df_cleaned <- drop_duplicates df_cleaned;
       do after <- len_of df_cleaned;
       ret (df_cleaned, set_duplicates_removed (before - after) stats)
  else ret (df_cleaned, stats).

(** Stage 2 of [clean_data]: handle missing values.  The chain of
    comparisons has no final [else]: under any other policy string the
    stage does nothing. *)
Definition handle_missing_stage (handle_missing : string)
    (df_cleaned : ref) (stats : cleaning_stats) : M (ref * cleaning_stats) :=
  if String.eqb handle_missing "drop"
  then do before <- len_of df_cleaned;
       do df_cleaned <- dropna df_cleaned;
       do after <- len_of df_cleaned;
       ret (df_cleaned, set_missing_handled (before - after) stats)
  else if String.eqb handle_missing "fill_mean"
  then do d <- deref df_cleaned;
       let names := categorical_cols_with_nulls d in
       do handled <- update df_cleaned
            (fun d => fill_numeric series_mean d (missing_handled stats));
       let stats := set_missing_handled handled stats in
       ret (df_cleaned,
            match names with
            | [] => stats
            | _ => append_warning (not_applicable_warning "Mean" names) stats
            end)
  else if String.eqb handle_missing "fill_median"
  then do d <- deref df_cleaned;
       let names := categorical_cols_with_nulls d in
       do handled <- update df_cleaned
            (fun d => fill_numeric series_median d (missing_handled stats));
       let stats := set_missing_handled handled stats in
       ret (df_cleaned,
            match names with
            | [] => stats
            | _ => append_warning (not_applicable_warning "Median" names) stats
            end)
  else if String.eqb handle_missing "fill_mode"
  then do filled <- update df_cleaned
            (fun d => let st := fill_mode d (missing_handled stats) in
                      (mode_frame st, st));
       let stats := set_missing_handled (mode_handled filled) stats in
       ret (df_cleaned,
            if (0 <? categorical_filled filled)%Z
            then append_warning
                   (mode_note (categorical_filled filled)
                              (numeric_filled filled)) stats
            else stats)
  else ret (df_cleaned, stats).

(** [pd.to_numeric(..., errors='coerce')] reads a string with the
    number parser of pandas, which is not part of the program: the
    cleaner is parametrised by it. *)
Section Cleaner.
Variable parse_number : string -> option Q.

Definition to_numeric (c : cell) : option Q :=
  match c with
  | Missing => None
  | Num q => Some q
  | Str s => parse_number s
  | Flag b => Some (if b then 1%Q else 0%Q)
  | Stamp _ => None
  end.

(** Storage type of a converted column.  [pd.to_numeric] chooses it
    from the text of the values (int64, uint64, float64 or bool), which
    the parsed numbers do not show; it is approximated here by int64
    when nothing is missing and every value is whole, and float64
    otherwise.  The general properties below leave the choice open;
    the sample columns hold whole numbers written without a decimal
    point, which pandas stores as int64. *)
Definition converted_dtype (vs : list (option Q)) : dtype :=
  if forallb (fun v => match v with
                       | Some q => Pos.eqb (Qden (Qred q)) 1
                       | None => false
                       end) vs
  then Int64 else Float64.

(** [converted.notna().sum()] *)
Definition parsed_count (vs : list (option Q)) : Z :=
  Z.of_nat (length (List.filter (fun v : option Q => bool_decide (is_Some v)) vs)).

(** One turn of the conversion loop.  The test
    [parsed / len(df_cleaned) > 0.8] is the comparison of the exact
    quotient: [5 * parsed > 4 * len(df_cleaned)].  With
    [errors='coerce'] the conversion raises nothing, so the handler of
    the [try] around it never runs. *)
Definition convert_step (st : DataFrame * Z) (j : nat) : DataFrame * Z :=
  let '(d, n) := st in
  let converted := map to_numeric (col_values j d) in
  if (4 * len d <? 5 * parsed_count converted)%Z
  then (set_column j (converted_dtype converted)
                   (map float_cell converted) d, n + 1)
  else (d, n).

Definition auto_convert (df : DataFrame) (n : Z) : DataFrame * Z :=
  foldl convert_step (df, n) (select_positions [Object] df).

(** Stage 3 of [clean_data]: auto convert data types. *)
Definition convert_types_stage (convert_types : bool) (df_cleaned : ref)
    (stats : cleaning_stats) : M cleaning_stats :=
  if convert_types
  then do converted <- update df_cleaned
            (fun d => auto_convert d (types_converted stats));
       ret (set_types_converted converted stats)
  else ret stats.

Definition clean_data (df : ref) (remove_duplicates : bool)
    (handle_missing : string) (convert_types : bool)
    : M (ref * cleaning_stats) :=
  do df_cleaned <- copy df;
  do d <- deref df;
  let stats := Stats (len d) (ncols d) 0 0 0 [] 0 0 in
  do (df_cleaned, stats) <-
    remove_duplicates_stage remove_duplicates df_cleaned stats;
  do (df_cleaned, stats) <-
    handle_missing_stage handle_missing df_cleaned stats;
  do stats <- convert_types_stage convert_types df_cleaned stats;
  do d <- deref df_cleaned;
  ret (df_cleaned, set_final (len d) (ncols d) stats).

End Cleaner.

(** A parser for plain decimal literals (an optional sign, digits, an
    optional fraction), used to run the cleaner on concrete columns.
    The parser of pandas accepts these literals with the same values. *)
Definition digit_of (a : ascii) : option Z :=
  let n := Z.of_nat (nat_of_ascii a) in
  if ((48 <=? n) && (n <=? 57))%Z then Some (n - 48) else None.

Fixpoint parse_fraction (s : string) (num : Z) (den : positive) : option Q :=
  match s with
  | EmptyString => Some (num # den)%Q
  | String a rest =>
      match digit_of a with
      | Some d => parse_fraction rest (10 * num + d) (10 * den)
      | None => None
      end
  end.

Fixpoint parse_unsigned (s : string) (acc : Z) (seen : bool) : option Q :=
  match s with
  | EmptyString => if seen then Some (inject_Z acc) else None
  | String a rest =>
      if Ascii.eqb a "."%char
      then (if seen then parse_fraction rest acc 1 else None)
      else match digit_of a with
           | Some d => parse_unsigned rest (10 * acc + d) true
           | None => None
           end
  end.

Definition parse_decimal (s : string) : option Q :=
  match s with
  | String a rest =>
      if Ascii.eqb a "-"%char then Qopp <$> parse_unsigned rest 0 false
      else if Ascii.eqb a "+"%char then parse_unsigned rest 0 false
      else parse_unsigned s 0 false
  | EmptyString => None
  end.

(** ** OutlierDetector: [detect_outliers] *)

(** Float arithmetic with NaN as [None]. *)
Definition fsub (a b : option Q) : option Q :=
  match a, b with Some x, Some y => Some (x - y)%Q | _, _ => None end.

Definition fadd (a b : option Q) : option Q :=
  match a, b with Some x, Some y => Some (x + y)%Q | _, _ => None end.

Definition fscale (k : Q) (a : option Q) : option Q :=
  match a with Some x => Some (k * x)%Q | None => None end.

Definition Qlt_bool (x y : Q) : bool := negb (Qle_bool y x).

(** [x < bound] and [x > bound] on a cell of a numeric column; a
    comparison with a missing value or with NaN is false. *)
Definition cell_lt (c : cell) (bound : option Q) : bool :=
  match c, bound with
  | Num x, Some b => Qlt_bool x b
  | _, _ => false
  end.

Definition cell_gt (c : cell) (bound : option Q) : bool :=
  match c, bound with
  | Num x, Some b => Qlt_bool b x
  | _, _ => false
  end.

(** Rounding to the nearest integer, ties to even. *)
Definition round_half_even (q : Q) : Z :=
  let f := Qfloor q in
  match Qcompare (q - inject_Z f) (1 # 2) with
  | Lt => f
  | Gt => f + 1
  | Eq => if Z.even f then f else f + 1
  end.

(** The format [:.2f] *)
Definition format_2f (x : option Q) : string :=
  match x with
  | None => "nan"
  | Some q =>
      let n := round_half_even (Qabs q * 100) in
      let frac := n mod 100 in
      (if Qlt_bool q 0 then "-" else "")
      +:+ string_of_Z (n / 100) +:+ "."
      +:+ (if (frac <? 10)%Z then "0" else "") +:+ string_of_Z frac
  end.

Record outlier_stats := OutlierStats {
  total_values : Z;
  outliers_count : Z;
  outliers_percentage : Q;
  lower_bound : option Q;
  upper_bound : option Q;
  Q1 : option Q;
  Q3 : option Q;
  IQR : option Q
}.

(** [df[name] = values] on a frame: an existing column of that name is
    replaced, otherwise the column is added last. *)
Definition assign_column (name : string) (t : dtype) (values : list cell)
    (df : DataFrame) : DataFrame :=
  match index_of name (columns df) with
  | Some j => set_column j t values df
  | None =>
      {| columns := columns df ++ [(name, t)];
         rows := map (fun p => Row (label (fst p)) (cells (fst p) ++ [snd p]))
                     (combine (rows df) values) |}
  end.

(** The frame argument is only read (the mask selection and [copy]
    build new objects), so the detector is a function of its value. *)
Definition detect_outliers (df : DataFrame) (column : string)
    (method : string) : result (option (DataFrame * outlier_stats)) :=
  match index_of column (columns df) with
  | None => Ok None
  | Some j =>
      match col_dtype j df with
      | None => Ok None
      | Some t =>
          if negb (dtype_in t [Int64; Float64]) then Ok None
          else
            let data := List.filter notna (col_values j df) in
            if String.eqb method "iqr"
            then
              let Q1 := quantile (numbers data) (1 # 4) in
              let Q3 := quantile (numbers data) (3 # 4) in
              let IQR := fsub Q3 Q1 in
              let lower_bound := fsub Q1 (fscale (3 # 2) IQR) in
              let upper_bound := fadd Q3 (fscale (3 # 2) IQR) in
              let outliers_mask :=
                fun r => cell_lt (cell_at j r) lower_bound
                         || cell_gt (cell_at j r) upper_bound in
              let outliers_df :=
                {| columns := columns df;
                   rows := List.filter outliers_mask (rows df) |} in
              let reasons :=
                map (fun x => Str (if cell_lt x lower_bound
                                   then "Below " +:+ format_2f lower_bound
                                   else "Above " +:+ format_2f upper_bound))
                    (col_values j outliers_df) in
              (* [apply] on an empty column keeps its storage type *)
              let reason_dtype :=
                match rows outliers_df with [] => t | _ => Object end in
              let outliers_df :=
                assign_column "outlier_reason" reason_dtype reasons
                              outliers_df in
              match length data with
              | O => Raise ZeroDivisionError
              | _ =>
                  Ok (Some (outliers_df,
                    {| total_values := Z.of_nat (length data);
                       outliers_count := len outliers_df;
                       outliers_percentage :=
                         (inject_Z (len outliers_df)
                          / inject_Z (Z.of_nat (length data)) * 100)%Q;
                       lower_bound := lower_bound;
                       upper_bound := upper_bound;
                       Q1 := Q1;
                       Q3 := Q3;
                       IQR := IQR |}))
              end
            else Ok None
      end
  end.


(** ** The values the stages of [clean_data] compute

    The frame and the report that [clean_data] leaves in the store, as
    functions of the value of the input frame ([clean_data_run] below
    proves that the store operations compute them). *)

Definition deduplicated (remove_duplicates : bool) (d : DataFrame)
    : DataFrame :=
  if remove_duplicates then drop_duplicates_frame d else d.

Definition missing_frame (handle_missing : string) (d : DataFrame)
    : DataFrame :=
  if String.eqb handle_missing "drop" then dropna_frame d
  else if String.eqb handle_missing "fill_mean"
  then fst (fill_numeric series_mean d 0)
  else if String.eqb handle_missing "fill_median"
  then fst (fill_numeric series_median d 0)
  else if String.eqb handle_missing "fill_mode"
  then mode_frame (fill_mode d 0)
  else d.

Definition missing_count (handle_missing : string) (d : DataFrame) : Z :=
  if String.eqb handle_missing "drop" then len d - len (dropna_frame d)
  else if String.eqb handle_missing "fill_mean"
  then snd (fill_numeric series_mean d 0)
  else if String.eqb handle_missing "fill_median"
  then snd (fill_numeric series_median d 0)
  else if String.eqb handle_missing "fill_mode"
  then mode_handled (fill_mode d 0)
  else 0.

Definition warning_for (method : string) (names : list string)
    : list string :=
  match names with
  | [] => []
  | _ => [not_applicable_warning method names]
  end.

Definition missing_warnings (handle_missing : string) (d : DataFrame)
    : list string :=
  if String.eqb handle_missing "drop" then []
  else if String.eqb handle_missing "fill_mean"
  then warning_for "Mean" (categorical_cols_with_nulls d)
  else if String.eqb handle_missing "fill_median"
  then warning_for "Median" (categorical_cols_with_nulls d)
  else if String.eqb handle_missing "fill_mode"
  then let filled := fill_mode d 0 in
       if (0 <? categorical_filled filled)%Z
       then [mode_note (categorical_filled filled) (numeric_filled filled)]
       else []
  else [].

Definition recognized_policy (p : string) : Prop :=
  p = "drop" \/ p = "fill_mean" \/ p = "fill_median" \/ p = "fill_mode".

Section CleanedValues.
Variable parse_number : string -> option Q.

Definition converted (convert_types : bool) (d : DataFrame) : DataFrame :=
  if convert_types then fst (auto_convert parse_number d 0) else d.

Definition converted_count (convert_types : bool) (d : DataFrame) : Z :=
  if convert_types then snd (auto_convert parse_number d 0) else 0.

Definition cleaned_frame (remove_duplicates : bool)
    (handle_missing : string) (convert_types : bool) (d : DataFrame)
    : DataFrame :=
  converted convert_types
    (missing_frame handle_missing (deduplicated remove_duplicates d)).

Definition cleaned_stats (remove_duplicates : bool)
    (handle_missing : string) (convert_types : bool) (d : DataFrame)
    : cleaning_stats :=
  let d1 := deduplicated remove_duplicates d in
  let d2 := missing_frame handle_missing d1 in
  let d3 := converted convert_types d2 in
  {| original_rows := len d;
     original_cols := ncols d;
     duplicates_removed := len d - len d1;
     missing_handled := missing_count handle_missing d1;
     types_converted := converted_count convert_types d2;
     warnings := missing_warnings handle_missing d1;
     final_rows := len d3;
     final_cols := ncols d3 |}.
End CleanedValues.

(** ** Sample frames *)

Definition mk_rows (rs : list (list cell)) : list row :=
  imap (fun i cs => Row (Z.of_nat i) cs) rs.

(** Two columns, one duplicated row, missing cells in both columns. *)
Definition survey : DataFrame :=
  Frame [("city", Object); ("income", Float64)]
        (mk_rows [[Str "Hue"; Num 10]; [Str "Hue"; Num 10];
                  [Missing; Num 30]; [Str "Vinh"; Missing]]).

(** A frame with a boolean column and a 32-bit integer column. *)
Definition accounts : DataFrame :=
  Frame [("id", Int64); ("active", BoolDtype); ("level", Int32);
         ("owner", Object); ("opened", Datetime64)]
        (mk_rows [[Num 1; Flag true; Num 3; Str "an"; Stamp 0]]).

(** Two numeric columns, the second with the empty string as label. *)
Definition sheet : DataFrame :=
  Frame [("height", Float64); ("", Float64)]
        (mk_rows [[Num 150; Num 40]; [Num 160; Num 50]]).

(** A float column without any present value. *)
Definition empty_scores : DataFrame :=
  Frame [("name", Object); ("score", Float64)]
        (mk_rows [[Str "an"; Missing]; [Str "binh"; Missing]]).

(** A text column in which five of six values are numbers. *)
Definition readings : DataFrame :=
  Frame [("value", Object)]
        (mk_rows [[Str "1"]; [Str "2"]; [Str "3"]; [Str "4"]; [Str "5"];
                  [Str "x"]]).

(** No row of [rs] equals a row of [seen] or an earlier row of [rs]. *)
Fixpoint distinct_rows (seen : list (list cell)) (rs : list row) : Prop :=
  match rs with
  | [] => True
  | r :: rs' =>
      existsb (cells_eqb (cells r)) seen = false
      /\ distinct_rows (cells r :: seen) rs'
  end.

(** A datetime column with a missing cell next to a complete text
    column. *)
Definition visits : DataFrame :=
  Frame [("visitor", Object); ("seen_at", Datetime64)]
        (mk_rows [[Str "an"; Stamp 100]; [Str "binh"; Missing]]).

(** The text columns of the conversion examples. *)
Definition three_of_four : DataFrame :=
  Frame [("n", Object)]
        (mk_rows [[Str "1"]; [Str "2"]; [Str "3"]; [Str "x"]]).

Definition four_of_four : DataFrame :=
  Frame [("n", Object)]
        (mk_rows [[Str "1"]; [Str "2"]; [Str "3"]; [Str "4"]]).

Definition four_and_gap : DataFrame :=
  Frame [("n", Object)]
        (mk_rows [[Str "1"]; [Str "2"]; [Str "3"]; [Str "4"]; [Missing]]).

(** A cell after [pd.to_numeric]: the number read, or the missing
    marker. *)
Definition numeric_cell (parse : string -> option Q) (c : cell) : cell :=
  float_cell (to_numeric parse c).

(** The test of [convert_step] on the column at position [j]: its
    parsed values are more than 80% of the rows of the frame. *)
Definition above_threshold (parse : string -> option Q) (d : DataFrame)
    (j : nat) : bool :=
  (4 * len d <? 5 * parsed_count (map (to_numeric parse) (col_values j d)))%Z.

(** The columns the conversion loop replaces: the object columns that
    pass the test. *)
Definition column_converts (parse : string -> option Q) (d : DataFrame)
    (j : nat) : bool :=
  match col_dtype j d with
  | Some Object => above_threshold parse d j
  | _ => false
  end.

(** The values 1, 2, 3, 4, 5, 100 in one integer column. *)
Definition six_values : DataFrame :=
  Frame [("v", Int64)]
        (mk_rows [[Num 1]; [Num 2]; [Num 3]; [Num 4]; [Num 5]; [Num 100]]).

(** A float column with one far value and one missing value. *)
Definition gauge : DataFrame :=
  Frame [("site", Object); ("level", Float64)]
        (mk_rows [[Str "a"; Num 1]; [Str "b"; Missing]; [Str "c"; Num 2];
                  [Str "d"; Num 3]; [Str "e"; Num 4]; [Str "f"; Num 90]]).

(** The mask of [detect_outliers] on a row, for the column at position
    [j] and the bounds [lo] and [hi]. *)
Definition flagged (j : nat) (lo hi : option Q) (r : row) : bool :=
  cell_lt (cell_at j r) lo || cell_gt (cell_at j r) hi.

(** The reason [detect_outliers] attaches to a flagged value. *)
Definition outlier_reason (lo hi : option Q) (x : cell) : string :=
  if cell_lt x lo
  then "Below " +:+ format_2f lo
  else "Above " +:+ format_2f hi.

(** A float result that is a number equal to [q]. *)
Definition float_is (a : option Q) (q : Q) : Prop :=
  match a with
  | Some x => (x == q)%Q
  | None => False
  end.

(** What one column holds after the loop of the mode policy. *)
Definition mode_filled (vs : list cell) : list cell :=
  match series_mode vs with
  | [] => vs
  | mode_val :: _ => map (fun c => if isnull c then mode_val else c) vs
  end.

(** The columns the mode policy fills: a missing cell to fill and a
    present value to fill it with. *)
Definition mode_fills (d : DataFrame) (j : nat) : bool :=
  any_null j d && negb (forallb isnull (col_values j d)).

(** The test [df[col].dtype in ['int64', 'float64']] by position. *)
Definition numeric_position (d : DataFrame) (j : nat) : bool :=
  match col_dtype j d with
  | Some t => dtype_in t [Int64; Float64]
  | None => false
  end.

(** The value [Series.quantile] reads off a sorted list at the
    fractional position [pos]: the body of [quantile]. *)
Definition interpolate (s : list Q) (pos : Q) : Q :=
  let n := length s in
  let lo := Z.to_nat (Qfloor pos) in
  let frac := (pos - inject_Z (Z.of_nat lo))%Q in
  let a := nth lo s 0%Q in
  let b := nth (Nat.min (S lo) (n - 1)) s 0%Q in
  (a + (b - a) * frac)%Q.

(** ** Loading: [load_data] *)

(** [s.endswith(suffix)] *)
Definition endswith (s suffix : string) : bool :=
  let n := String.length s in
  let m := String.length suffix in
  if (m <=? n)%nat
  then String.eqb (substring (n - m) m s) suffix
  else false.

(** An uploaded file: its name and its bytes. *)
Record upload := Upload { file_name : string; file_bytes : string }.

(** An exception of a reader: whether it is a [UnicodeDecodeError],
    and its text [str(e)]. *)
Record py_error := PyError { is_unicode_decode_error : bool;
                             error_text : string }.

Definition unsupported_format_message : string :=
  "❌ Định dạng file không được hỗ trợ. Vui lòng upload file CSV hoặc Excel.".

Definition read_error_message (e : py_error) : string :=
  "❌ Lỗi khi đọc file: " +:+ error_text e.

(** The readers of pandas are not part of the program: [load_data] is
    parametrised by [pd.read_csv] with the UTF-8 encoding, by
    [pd.read_csv] with the Latin-1 encoding on the file as a failed
    first read leaves it, and by [pd.read_excel].  The result is the
    frame read, if any, and the messages shown with [st.error]. *)
Section Loader.
Variable read_csv_utf8 : upload -> DataFrame + py_error.
Variable read_csv_latin1 : upload -> DataFrame + py_error.
Variable read_excel : upload -> DataFrame + py_error.

Definition load_data (file : upload) : option DataFrame * list string :=
  let attempt : option (DataFrame + py_error) :=
    if endswith (file_name file) ".csv"
    then Some match read_csv_utf8 file with
              | inl df => inl df
              | inr e =>
                  if is_unicode_decode_error e
                  then read_csv_latin1 file
                  else inr e
              end
    else if endswith (file_name file) ".xlsx"
            || endswith (file_name file) ".xls"
    then Some (read_excel file)
    else None in
  match attempt with
  | None => (None, [unsupported_format_message])
  | Some (inl df) => (Some df, [])
  | Some (inr e) => (None, [read_error_message e])
  end.
End Loader.

(** ** The session: the sidebar of [main] *)

(** The four entries of the selectbox of missing-value methods. *)
Inductive policy := Drop | FillMean | FillMedian | FillMode.

Definition policy_name (p : policy) : string :=
  match p with
  | Drop => "drop"
  | FillMean => "fill_mean"
  | FillMedian => "fill_median"
  | FillMode => "fill_mode"
  end.

(** [st.session_state]: the four keys the program keeps; a frame is
    kept as a reference into the store. *)
Record session := Session {
  df_original : option ref;
  df_cleaned : option ref;
  session_cleaning_stats : option cleaning_stats;
  last_uploaded_file : option string
}.

(** The values the widgets of the sidebar return in one run of the
    script. *)
Record widgets := Widgets {
  uploaded_file : option upload;
  remove_dupes : bool;
  missing_method : policy;
  auto_convert_box : bool;
  clean_btn : bool;
  reset_btn : bool
}.

(** The session before the first run: every key is [None]. *)
Definition initial_session : session := Session None None None None.

Definition same_name (last : option string) (name : string) : bool :=
  match last with
  | Some n => String.eqb n name
  | None => false
  end.

(** The working frame of the main area:
    [df_cleaned if df_cleaned is not None else df_original]. *)
Definition df_work (s : session) : option ref :=
  match df_cleaned s with
  | Some c => Some c
  | None => df_original s
  end.

Section Sidebar.
Variable read_csv_utf8 : upload -> DataFrame + py_error.
Variable read_csv_latin1 : upload -> DataFrame + py_error.
Variable read_excel : upload -> DataFrame + py_error.
Variable parse_number : string -> option Q.

(** [df = load_data(uploaded_file)] followed by
    [if df is not None: st.session_state.df_original = df]; the frame
    read is a new object. *)
Definition load_into (file : upload) (s : session) : M session :=
  match fst (load_data read_csv_utf8 read_csv_latin1 read_excel file) with
  | Some d =>
      do df <- new_frame d;
      ret (Session (Some df) (df_cleaned s) (session_cleaning_stats s)
                   (last_uploaded_file s))
  | None => ret s
  end.

(** The upload block of the sidebar: a file with a new name discards
    the cleaned data and is loaded; a file with the name of the last
    one is loaded only while no original is held. *)
Definition upload_block (s : session) (uploaded : option upload)
    : M session :=
  match uploaded with
  | Some file =>
      let current_file_name := file_name file in
      if negb (same_name (last_uploaded_file s) current_file_name)
      then load_into file
             (Session (df_original s) None None (Some current_file_name))
      else match df_original s with
           | None => load_into file s
           | Some _ => ret s
           end
  | None => ret s
  end.

(** The cleaning block of the sidebar, shown once data are loaded: the
    clean button cleans the original, the reset button drops the
    cleaned data.  A click on the reset button ends with [st.rerun()],
    which runs the script again on the session it leaves, with no
    button pressed. *)
Definition cleaning_block (s : session) (w : widgets) : M session :=
  match df_original s with
  | Some original =>
      do s <-
        (if clean_btn w
         then do (cleaned, stats) <-
                clean_data parse_number original (remove_dupes w)
                           (policy_name (missing_method w))
                           (auto_convert_box w);
              ret (Session (df_original s) (Some cleaned) (Some stats)
                           (last_uploaded_file s))
         else ret s);
      if reset_btn w
      then ret (Session (df_original s) None None (last_uploaded_file s))
      else ret s
  | None => ret s
  end.

(** One run of the sidebar on the session [s]. *)
Definition sidebar (s : session) (w : widgets) : M session :=
  do s <- upload_block s (uploaded_file w);
  cleaning_block s w.
End Sidebar.

(** The session is consistent with the store [h]: its references name
    frames of the store, cleaned data come with their report and with
    the original they were made from, and they are another object than
    the original. *)
Definition consistent (h : heap) (s : session) : Prop :=
  (forall o, df_original s = Some o -> is_Some (h !! o))
  /\ (forall c, df_cleaned s = Some c ->
        is_Some (h !! c) /\ df_original s <> None
        /\ df_original s <> Some c)
  /\ (df_cleaned s = None <-> session_cleaning_stats s = None).

(** Sample readers: one reads every file as a given frame, the other
    fails on every file. *)
Definition read_as (d : DataFrame) (file : upload) : DataFrame + py_error :=
  inl d.

Definition read_fails (unicode : bool) (file : upload)
    : DataFrame + py_error :=
  inr (PyError unicode "cannot read").

(** Sample inputs of a run of the script. *)
Definition survey_upload : upload := Upload "survey.csv" "".

Definition press_clean (p : policy) : widgets :=
  Widgets (Some survey_upload) true p true true false.

Definition press_nothing : widgets :=
  Widgets (Some survey_upload) true Drop true false false.

Definition loaded_session : session :=
  Session (Some 0%nat) None None (Some "survey.csv").

(** No file is offered, or the file offered has the name of the last
    one. *)
Definition same_file (s : session) (w : widgets) : bool :=
  match uploaded_file w with
  | None => true
  | Some file => same_name (last_uploaded_file s) (file_name file)
  end.

(** A session that holds cleaned data. *)
Definition cleaned_session : session :=
  Session (Some 0%nat) (Some 1%nat)
          (Some (Stats 4 2 1 2 0 [] 1 2)) (Some "survey.csv").

Definition other_upload : upload := Upload "notes.txt" "".

(** ** Correlation ranking: the table of pairs in [main] *)

(** One row of [corr_pairs]; the coefficient is NaN ([None]) for a
    column without variance. *)
Record corr_pair := CorrPair {
  column_1 : string;
  column_2 : string;
  correlation : option Q
}.

(** The two nested loops over [corr_matrix.columns]: one row for every
    [i] and every [j] in [range(i + 1, n)].  The matrix of pandas is
    not part of the program: [corr i j] stands for
    [corr_matrix.iloc[i, j]]. *)
Definition corr_pairs (cols : list string) (corr : nat -> nat -> option Q)
    : list corr_pair :=
  flat_map
    (fun i =>
       map (fun j => CorrPair (nth i cols "") (nth j cols "") (corr i j))
           (seq (S i) (length cols - S i)))
    (seq 0 (length cols)).

(** The order of [sort_values('Correlation', ascending=False, key=abs)]:
    larger absolute values first, NaN last. *)
Definition abs_desc (p q : corr_pair) : bool :=
  match correlation p, correlation q with
  | Some x, Some y => Qle_bool (Qabs y) (Qabs x)
  | Some _, None => true
  | None, Some _ => false
  | None, None => true
  end.

(** The sorted table; rows with equal keys are kept in the order of
    the loops (pandas leaves their order open). *)
Definition corr_df (cols : list string) (corr : nat -> nat -> option Q)
    : list corr_pair :=
  sort_by abs_desc (corr_pairs cols corr).

(** [corr_df.head(5)] and [corr_df.tail(5)], shown as the top positive
    and the top negative correlations. *)
Definition head5 (t : list corr_pair) : list corr_pair := firstn 5 t.
Definition tail5 (t : list corr_pair) : list corr_pair :=
  skipn (length t - 5) t.

(** A sample matrix on three columns. *)
Definition sample_corr (i j : nat) : option Q :=
  match i, j with
  | O, S O => Some (- (9 # 10))%Q
  | O, S (S O) => Some (1 # 2)%Q
  | S O, S (S O) => None
  | _, _ => Some 1%Q
  end.

(** ** Where the float arithmetic of the detector is exact *)

(** The finite numbers of the float64 format: [m * 2^e] with
    [|m| < 2^53] and [-1074 <= e <= 971].  A float64 sum, difference or
    product whose exact value is such a number is computed without
    rounding, and a comparison of two such numbers is exact. *)
Definition binary64 (x : Q) : Prop :=
  exists m e : Z,
    (x == inject_Z m * 2 ^ e)%Q /\ Z.abs m < 2 ^ 53 /\ -1074 <= e <= 971.

Definition exact_float (a : option Q) : Prop :=
  match a with Some x => binary64 x | None => False end.

(** A whole number of magnitude at most [2^47]. *)
Definition small_whole (x : Q) : Prop :=
  exists m : Z, (x == inject_Z m)%Q /\ Z.abs m <= 2 ^ 47.

(** * Properties *)

(** ** The store *)

Lemma lookup_snoc (H : heap) (d : DataFrame) :
  (H ++ [d]) !! length H = Some d.
Proof. by apply list_lookup_middle. Qed.

Lemma insert_snoc (H : heap) (d x : DataFrame) :
  <[length H := x]> (H ++ [d]) = H ++ [x].
Proof.
  rewrite insert_app_r_alt by lia.
  by rewrite Nat.sub_diag.
Qed.

Lemma deref_last (H : heap) (d : DataFrame) :
  deref (length H) (H ++ [d]) = Ok (d, H ++ [d]).
Proof. unfold deref. by rewrite lookup_snoc. Qed.

Lemma len_of_last (H : heap) (d : DataFrame) :
  len_of (length H) (H ++ [d]) = Ok (len d, H ++ [d]).
Proof. unfold len_of, bind. by rewrite deref_last. Qed.

Lemma update_last {A} (H : heap) (d : DataFrame)
    (f : DataFrame -> DataFrame * A) :
  update (length H) f (H ++ [d]) = Ok (snd (f d), H ++ [fst (f d)]).
Proof. unfold update. by rewrite lookup_snoc, insert_snoc. Qed.

Lemma new_after_last (H : heap) (d x : DataFrame) :
  new_frame x (H ++ [d]) = Ok (length (H ++ [d]), (H ++ [d]) ++ [x]).
Proof. reflexivity. Qed.

(** Every stage starts with the working frame last in the store and
    ends in the same way, after zero or more frames it no longer uses. *)
Lemma remove_duplicates_stage_run (rd : bool) (H : heap) (d : DataFrame)
    (stats : cleaning_stats) :
  exists k,
    remove_duplicates_stage rd (length H) stats (H ++ [d])
    = Ok ((length (H ++ k),
           if rd
           then set_duplicates_removed
                  (len d - len (drop_duplicates_frame d)) stats
           else stats),
          (H ++ k) ++ [deduplicated rd d]).
Proof.
  destruct rd; simpl.
  - exists [d]. unfold remove_duplicates_stage, bind, drop_duplicates.
    rewrite len_of_last. unfold bind. rewrite deref_last.
    rewrite new_after_last, len_of_last. reflexivity.
  - exists []. unfold remove_duplicates_stage, ret.
    by rewrite app_nil_r.
Qed.

Lemma handle_missing_stage_run (hm : string) (H : heap) (d : DataFrame)
    (stats : cleaning_stats) :
  missing_handled stats = 0 ->
  warnings stats = [] ->
  exists k,
    handle_missing_stage hm (length H) stats (H ++ [d])
    = Ok ((length (H ++ k),
           Stats (original_rows stats) (original_cols stats)
                 (duplicates_removed stats) (missing_count hm d)
                 (types_converted stats) (missing_warnings hm d)
                 (final_rows stats) (final_cols stats)),
          (H ++ k) ++ [missing_frame hm d]).
Proof.
  intros Hm Hw.
  unfold handle_missing_stage, missing_frame, missing_count, missing_warnings.
  destruct (String.eqb hm "drop").
  { exists [d]. unfold bind, dropna.
    rewrite len_of_last. unfold bind. rewrite deref_last.
    rewrite new_after_last, len_of_last. unfold ret, set_missing_handled.
    by rewrite Hw. }
  destruct (String.eqb hm "fill_mean").
  { exists []. rewrite app_nil_r. unfold bind.
    rewrite deref_last, update_last, Hm. unfold ret, warning_for.
    destruct (categorical_cols_with_nulls d);
      unfold append_warning, set_missing_handled; simpl; by rewrite Hw. }
  destruct (String.eqb hm "fill_median").
  { exists []. rewrite app_nil_r. unfold bind.
    rewrite deref_last, update_last, Hm. unfold ret, warning_for.
    destruct (categorical_cols_with_nulls d);
      unfold append_warning, set_missing_handled; simpl; by rewrite Hw. }
  destruct (String.eqb hm "fill_mode").
  { exists []. rewrite app_nil_r. unfold bind.
    rewrite update_last, Hm. unfold ret. simpl.
    destruct (0 <? categorical_filled (fill_mode d 0))%Z;
      unfold append_warning, set_missing_handled; simpl; by rewrite Hw. }
  exists []. rewrite app_nil_r. unfold ret.
  destruct stats; simpl in *. by subst.
Qed.

Lemma convert_types_stage_run (parse : string -> option Q) (ct : bool)
    (H : heap) (d : DataFrame) (stats : cleaning_stats) :
  types_converted stats = 0 ->
  convert_types_stage parse ct (length H) stats (H ++ [d])
  = Ok (Stats (original_rows stats) (original_cols stats)
              (duplicates_removed stats) (missing_handled stats)
              (converted_count parse ct d) (warnings stats)
              (final_rows stats) (final_cols stats),
        H ++ [converted parse ct d]).
Proof.
  intros Hc. unfold convert_types_stage, converted, converted_count.
  destruct ct.
  - unfold bind. by rewrite update_last, Hc.
  - unfold ret. destruct stats; simpl in *. by subst.
Qed.

(** [clean_data] on a store [h] whose reference [df] holds the frame
    [d]: the store grows by the frames [k] that the call creates on the
    way and by the cleaned frame, which the returned reference names. *)
Lemma clean_data_run (parse : string -> option Q) (h : heap) (df : ref)
    (d : DataFrame) (rd : bool) (hm : string) (ct : bool) :
  h !! df = Some d ->
  exists k,
    clean_data parse df rd hm ct h
    = Ok ((length (h ++ k), cleaned_stats parse rd hm ct d),
          (h ++ k) ++ [cleaned_frame parse rd hm ct d]).
Proof.
  intros Hd. unfold clean_data, bind at 1, copy, bind at 1.
  unfold deref at 1. rewrite Hd. unfold new_frame at 1.
  unfold bind at 1, deref at 1.
  rewrite (lookup_app_l_Some _ _ _ _ Hd).
  unfold bind at 1.
  destruct (remove_duplicates_stage_run rd h d
              (Stats (len d) (ncols d) 0 0 0 [] 0 0)) as [k1 ->].
  unfold bind at 1.
  edestruct (handle_missing_stage_run hm (h ++ k1) (deduplicated rd d))
    as [k2 ->]; [| | ].
  { by destruct rd. }
  { by destruct rd. }
  unfold bind at 1.
  rewrite convert_types_stage_run by (by destruct rd).
  unfold bind. rewrite deref_last. unfold ret.
  exists (k1 ++ k2). rewrite !app_assoc.
  unfold cleaned_stats, cleaned_frame, set_final.
  destruct rd; simpl; rewrite ?Z.sub_diag; reflexivity.
Qed.

(** ** Cleaning and the store *)

(** C9. For every frame and every configuration, [clean_data] returns
    normally, the reference it returns is a new object (it names nothing
    in the store before the call and differs from the input reference),
    and every frame that was in the store before the call, the input
    frame included, has the same value after it. *)
Theorem clean_data_leaves_input_unchanged (parse : string -> option Q)
    (h : heap) (df : ref) (d : DataFrame) (rd : bool) (hm : string)
    (ct : bool) :
  h !! df = Some d ->
  exists l st h',
    clean_data parse df rd hm ct h = Ok ((l, st), h')
    /\ h' !! df = Some d
    /\ (forall i, (i < length h)%nat -> h' !! i = h !! i)
    /\ h !! l = None
    /\ l <> df
    /\ h' !! l = Some (cleaned_frame parse rd hm ct d).
Proof.
  intros Hd. destruct (clean_data_run parse h df d rd hm ct Hd) as [k Hrun].
  exists (length (h ++ k)), (cleaned_stats parse rd hm ct d),
         ((h ++ k) ++ [cleaned_frame parse rd hm ct d]).
  pose proof (lookup_lt_Some _ _ _ Hd) as Hlt.
  repeat split.
  - exact Hrun.
  - rewrite <- app_assoc. by apply lookup_app_l_Some.
  - intros i Hi. rewrite <- app_assoc. by apply lookup_app_l.
  - apply lookup_ge_None. rewrite length_app. lia.
  - rewrite length_app. lia.
  - apply lookup_snoc.
Qed.

Lemma clean_data_leaves_input_unchanged_witness :
  exists l st h',
    clean_data parse_decimal 0%nat true "fill_mode" true [survey]
    = Ok ((l, st), h')
    /\ h' !! 0%nat = Some survey
    /\ (forall i, (i < length [survey])%nat -> h' !! i = [survey] !! i)
    /\ [survey] !! l = None
    /\ l <> 0%nat
    /\ h' !! l = Some (cleaned_frame parse_decimal true "fill_mode" true survey).
Proof.
  apply (clean_data_leaves_input_unchanged parse_decimal [survey] 0%nat survey).
  reflexivity.
Defined.

Lemma recognized_policy_tests (hm : string) :
  ~ recognized_policy hm ->
  String.eqb hm "drop" = false /\ String.eqb hm "fill_mean" = false
  /\ String.eqb hm "fill_median" = false /\ String.eqb hm "fill_mode" = false.
Proof.
  intros Hn. unfold recognized_policy in Hn.
  repeat split; apply String.eqb_neq; intros ->; tauto.
Qed.

(** C1, as the code has it.  A policy string other than the four
    recognized ones is not rejected.  On a frame with distinct column
    labels the call returns, and the missing-value stage has done
    nothing: the result is the frame after duplicate removal and type
    conversion, with [missing_handled = 0] and no warning.  (Nothing is
    said here of the recognized policies.) *)
Theorem clean_data_unrecognized_policy_is_skipped
    (parse : string -> option Q) (h : heap) (df : ref) (d : DataFrame)
    (rd : bool) (hm : string) (ct : bool) :
  h !! df = Some d ->
  NoDup (map fst (columns d)) ->
  ~ recognized_policy hm ->
  exists l st h',
    clean_data parse df rd hm ct h = Ok ((l, st), h')
    /\ h' !! l = Some (converted parse ct (deduplicated rd d))
    /\ missing_handled st = 0
    /\ warnings st = [].
Proof.
  intros Hd _ Hn. destruct (clean_data_run parse h df d rd hm ct Hd) as [k Hrun].
  eexists _, _, _. split; [exact Hrun |].
  apply recognized_policy_tests in Hn as (H1 & H2 & H3 & H4).
  rewrite lookup_snoc.
  unfold cleaned_frame, cleaned_stats, missing_frame, missing_count,
    missing_warnings. simpl.
  by rewrite H1, H2, H3, H4.
Qed.

Lemma clean_data_unrecognized_policy_is_skipped_witness :
  exists l st h',
    clean_data parse_decimal 0%nat true "interpolate" false [survey]
    = Ok ((l, st), h')
    /\ h' !! l = Some (converted parse_decimal false (deduplicated true survey))
    /\ missing_handled st = 0
    /\ warnings st = [].
Proof.
  apply (clean_data_unrecognized_policy_is_skipped
           parse_decimal [survey] 0%nat survey).
  - reflexivity.
  - simpl. repeat (apply NoDup_cons_2; [rewrite list_elem_of_In; simpl; intuition discriminate |]).
    apply NoDup_nil_2.
  - unfold recognized_policy. intros [H | [H | [H | H]]]; discriminate H.
Defined.

(** C1, counterexample.  Under the policy string ["interpolate"] the
    call raises nothing: it returns the input rows, the row with a
    missing cell included, and a report without a warning. *)
Lemma clean_data_unrecognized_policy_counterexample :
  (forall e, clean_data parse_decimal 0%nat false "interpolate" false [survey]
             <> Raise e)
  /\ clean_data parse_decimal 0%nat false "interpolate" false [survey]
     = Ok ((1%nat, Stats 4 2 0 0 0 [] 4 2), [survey; survey]).
Proof.
  assert (clean_data parse_decimal 0%nat false "interpolate" false [survey]
          = Ok ((1%nat, Stats 4 2 0 0 0 [] 4 2), [survey; survey])) as E
    by reflexivity.
  split; [| exact E]. intros e. rewrite E. discriminate.
Qed.

(** ** Column classification *)

Lemma dtype_eqb_eq (a b : dtype) : dtype_eqb a b = true <-> a = b.
Proof. split; [destruct a, b; simpl; congruence | intros ->; by destruct b]. Qed.

Lemma dtype_in_In (t : dtype) (include : list dtype) :
  dtype_in t include = true <-> In t include.
Proof.
  unfold dtype_in. rewrite existsb_exists. split.
  - intros (x & Hx & He). apply dtype_eqb_eq in He. by subst.
  - intros Hx. exists t. split; [done | by apply dtype_eqb_eq].
Qed.

Lemma NoDup_names_dtype (cs : list (string * dtype)) (n : string)
    (t t' : dtype) :
  NoDup (map fst cs) -> In (n, t) cs -> In (n, t') cs -> t = t'.
Proof.
  induction cs as [| [m u] cs IH]; simpl; [tauto |].
  intros Hnd [H1 | H1] [H2 | H2].
  - congruence.
  - inversion H1; subst. apply NoDup_cons_1_1 in Hnd.
    exfalso. apply Hnd. apply list_elem_of_In.
    change n with (fst (n, t')). by apply in_map.
  - inversion H2; subst. apply NoDup_cons_1_1 in Hnd.
    exfalso. apply Hnd. apply list_elem_of_In.
    change n with (fst (n, t)). by apply in_map.
  - apply IH; [by apply NoDup_cons in Hnd as [_ ?] | done | done].
Qed.

(** A name is selected exactly when some column of that name has one
    of the listed storage types. *)
Lemma In_select_dtypes (include : list dtype) (df : DataFrame) (n : string) :
  In n (select_dtypes include df)
  <-> exists t, In (n, t) (columns df) /\ In t include.
Proof.
  unfold select_dtypes. rewrite in_map_iff. split.
  - intros ([m t] & Hn & Hin). simpl in Hn. subst m.
    apply filter_In in Hin as [Hin Ht]. exists t.
    split; [done | by apply dtype_in_In].
  - intros (t & Hin & Ht). exists (n, t). split; [done |].
    apply filter_In. split; [done | by apply dtype_in_In].
Qed.

Lemma select_dtypes_of_column (include : list dtype) (df : DataFrame)
    (n : string) (t : dtype) :
  NoDup (map fst (columns df)) -> In (n, t) (columns df) ->
  In n (select_dtypes include df) <-> In t include.
Proof.
  intros Hnd Hin. rewrite In_select_dtypes. split.
  - intros (t' & Hin' & Ht').
    by rewrite (NoDup_names_dtype _ _ _ _ Hnd Hin Hin').
  - intros Ht. by exists t.
Qed.

(** C3, as the code has it.  On a frame with distinct column labels,
    a column is listed as numeric exactly when its storage type is
    int64 or float64, as categorical exactly when it is object or
    category, and as datetime exactly when it is datetime64.  So no
    column is in two lists, a column of one of these five storage types
    is in exactly one, and a column of any other storage type is in
    none.  Every listed name is a column of the frame. *)
Theorem analyze_column_types_classifies (df : DataFrame) :
  NoDup (map fst (columns df)) ->
  let ct := analyze_column_types df in
  (forall n t, In (n, t) (columns df) ->
     (In n (numeric ct) <-> t = Int64 \/ t = Float64)
     /\ (In n (categorical ct) <-> t = Object \/ t = Category)
     /\ (In n (datetime ct) <-> t = Datetime64))
  /\ (forall n, ~ (In n (numeric ct) /\ In n (categorical ct))
               /\ ~ (In n (numeric ct) /\ In n (datetime ct))
               /\ ~ (In n (categorical ct) /\ In n (datetime ct)))
  /\ (forall n, In n (numeric ct) \/ In n (categorical ct)
                \/ In n (datetime ct) ->
                In n (map fst (columns df))).
Proof.
  intros Hnd ct. subst ct. unfold analyze_column_types. simpl.
  assert (forall n t, In (n, t) (columns df) ->
     (In n (select_dtypes [Int64; Float64] df) <-> t = Int64 \/ t = Float64)
     /\ (In n (select_dtypes [Object; Category] df)
         <-> t = Object \/ t = Category)
     /\ (In n (select_dtypes [Datetime64] df) <-> t = Datetime64)) as Hcls.
  { intros n t Hin.
    rewrite !(select_dtypes_of_column _ df n t Hnd Hin). simpl.
    repeat split; intros; intuition congruence. }
  split; [exact Hcls |]. split.
  - intros n.
    repeat split; intros [H1 H2];
      pose proof H1 as H1'; apply In_select_dtypes in H1' as (t & Hin & _);
      destruct (Hcls n t Hin) as (Hn & Hc & Hd);
      apply Hn in H1 || apply Hc in H1; apply Hc in H2 || apply Hd in H2;
      intuition congruence.
  - intros n [H | [H | H]]; apply In_select_dtypes in H as (t & Hin & _);
      change n with (fst (n, t)); by apply in_map.
Qed.

Lemma analyze_column_types_classifies_witness :
  let ct := analyze_column_types accounts in
  (forall n t, In (n, t) (columns accounts) ->
     (In n (numeric ct) <-> t = Int64 \/ t = Float64)
     /\ (In n (categorical ct) <-> t = Object \/ t = Category)
     /\ (In n (datetime ct) <-> t = Datetime64))
  /\ (forall n, ~ (In n (numeric ct) /\ In n (categorical ct))
               /\ ~ (In n (numeric ct) /\ In n (datetime ct))
               /\ ~ (In n (categorical ct) /\ In n (datetime ct)))
  /\ (forall n, In n (numeric ct) \/ In n (categorical ct)
                \/ In n (datetime ct) ->
                In n (map fst (columns accounts))).
Proof.
  apply (analyze_column_types_classifies accounts).
  simpl. repeat (apply NoDup_cons_2; [rewrite list_elem_of_In; simpl; intuition discriminate |]).
  apply NoDup_nil_2.
Defined.

(** C3, counterexample.  The boolean column and the 32-bit integer
    column of [accounts] are columns of the frame and are in none of the
    three lists. *)
Lemma analyze_column_types_omits_counterexample :
  let ct := analyze_column_types accounts in
  In "active" (map fst (columns accounts))
  /\ In "level" (map fst (columns accounts))
  /\ ~ (In "active" (numeric ct) \/ In "active" (categorical ct)
        \/ In "active" (datetime ct))
  /\ ~ (In "level" (numeric ct) \/ In "level" (categorical ct)
        \/ In "level" (datetime ct)).
Proof.
  simpl. repeat split; try tauto; intuition discriminate.
Qed.

(** ** Chart advice *)

(** The decision table, for a second column that is absent or has a
    non-empty label. *)
Lemma suggest_chart_type_table (x : string) (y : option string)
    (df : DataFrame) :
  y <> Some "" ->
  let nums := numeric (analyze_column_types df) in
  suggest_chart_type x y df =
    match y with
    | None => if str_in x nums then "histogram" else "bar"
    | Some y' =>
        match str_in x nums, str_in y' nums with
        | true, true => "scatter"
        | false, true => "box"
        | true, false => "box"
        | false, false => "bar"
        end
    end.
Proof.
  intros Hy nums. subst nums. unfold suggest_chart_type.
  destruct y as [y' |]; [| reflexivity].
  assert (truthy (Some y') = true) as ->.
  { simpl. apply negb_true_iff, String.eqb_neq. congruence. }
  by destruct (str_in x _), (str_in y' _).
Qed.

Lemma suggest_chart_type_range (x : string) (y : option string)
    (df : DataFrame) :
  In (suggest_chart_type x y df) ["histogram"; "bar"; "scatter"; "box"].
Proof.
  unfold suggest_chart_type.
  destruct y as [y' |]; [destruct (truthy (Some y')) |];
    repeat match goal with
           | |- context [str_in ?a ?b] => destruct (str_in a b)
           end; simpl; tauto.
Qed.

(** C8, the failing input.  Both columns of [sheet] are numeric; with
    the column labelled by the empty string as second column the advice
    is a box plot, where the decision table has a scatter plot. *)
Theorem suggest_chart_type_empty_label :
  str_in "height" (numeric (analyze_column_types sheet)) = true
  /\ str_in "" (numeric (analyze_column_types sheet)) = true
  /\ suggest_chart_type "height" (Some "") sheet = "box".
Proof. repeat split. Qed.

(** ** Outlier detection *)

Lemma detect_outliers_absent_column (df : DataFrame) (column method : string) :
  index_of column (columns df) = None ->
  detect_outliers df column method = Ok None.
Proof. intros H. unfold detect_outliers. by rewrite H. Qed.

Lemma detect_outliers_not_numeric (df : DataFrame) (column method : string)
    (j : nat) (t : dtype) :
  index_of column (columns df) = Some j ->
  col_dtype j df = Some t ->
  dtype_in t [Int64; Float64] = false ->
  detect_outliers df column method = Ok None.
Proof.
  intros Hj Ht Hn. unfold detect_outliers. by rewrite Hj, Ht, Hn.
Qed.

(** On a numeric column without a present value the division by
    [len(data)] raises. *)
Lemma detect_outliers_no_present_value (df : DataFrame) (column : string)
    (j : nat) (t : dtype) :
  index_of column (columns df) = Some j ->
  col_dtype j df = Some t ->
  dtype_in t [Int64; Float64] = true ->
  List.filter notna (col_values j df) = [] ->
  detect_outliers df column "iqr" = Raise ZeroDivisionError.
Proof.
  intros Hj Ht Hn He. unfold detect_outliers.
  rewrite Hj, Ht, Hn, He. reflexivity.
Qed.

(** C5, the failing input.  The column [score] of [empty_scores] is a
    float column whose values are all missing; the detector raises
    [ZeroDivisionError] on it. *)
Theorem detect_outliers_all_missing_raises :
  col_dtype 1 empty_scores = Some Float64
  /\ col_values 1 empty_scores = [Missing; Missing]
  /\ detect_outliers empty_scores "score" "iqr" = Raise ZeroDivisionError.
Proof. repeat split. Qed.

(** ** Idempotence of the drop policy *)

Lemma drop_duplicate_rows_distinct (seen : list (list cell)) (rs : list row) :
  distinct_rows seen (drop_duplicate_rows seen rs).
Proof.
  revert seen. induction rs as [| r rs IH]; intros seen; simpl; [done |].
  destruct (existsb (cells_eqb (cells r)) seen) eqn:E; simpl; [apply IH |].
  split; [exact E | apply IH].
Qed.

Lemma drop_duplicate_rows_fixed (seen : list (list cell)) (rs : list row) :
  distinct_rows seen rs -> drop_duplicate_rows seen rs = rs.
Proof.
  revert seen. induction rs as [| r rs IH]; intros seen; simpl; [done |].
  intros [E Hd]. rewrite E. f_equal. by apply IH.
Qed.

(** Fewer rows seen, fewer clashes. *)
Lemma distinct_rows_weaken (seen seen' : list (list cell)) (rs : list row) :
  (forall c, existsb (cells_eqb c) seen' = true ->
             existsb (cells_eqb c) seen = true) ->
  distinct_rows seen rs -> distinct_rows seen' rs.
Proof.
  revert seen seen'. induction rs as [| r rs IH]; intros seen seen' Hsub;
    simpl; [done |].
  intros [E Hd]. split.
  - destruct (existsb (cells_eqb (cells r)) seen') eqn:E'; [| done].
    apply Hsub in E'. congruence.
  - apply (IH (cells r :: seen)); [| done].
    intros c. simpl. rewrite !orb_true_iff. intros [? | ?]; auto.
Qed.

Lemma distinct_rows_filter (p : row -> bool) (seen : list (list cell))
    (rs : list row) :
  distinct_rows seen rs -> distinct_rows seen (List.filter p rs).
Proof.
  revert seen. induction rs as [| r rs IH]; intros seen; simpl; [done |].
  intros [E Hd]. destruct (p r); simpl.
  - split; [done | by apply IH].
  - apply IH. apply (distinct_rows_weaken (cells r :: seen)); [| done].
    intros c Hc. simpl. by rewrite Hc, orb_true_r.
Qed.

Lemma filter_twice {A} (p : A -> bool) (l : list A) :
  List.filter p (List.filter p l) = List.filter p l.
Proof.
  induction l as [| x l IH]; simpl; [done |].
  destruct (p x) eqn:E; simpl; [rewrite E; by f_equal | done].
Qed.

Lemma dropna_frame_twice (d : DataFrame) :
  dropna_frame (dropna_frame d) = dropna_frame d.
Proof. unfold dropna_frame. simpl. by rewrite filter_twice. Qed.

(** After duplicate removal and the drop policy, neither of the two
    finds anything to remove. *)
Lemma deduplicated_after_drop (rd : bool) (d : DataFrame) :
  deduplicated rd (dropna_frame (deduplicated rd d))
  = dropna_frame (deduplicated rd d).
Proof.
  destruct rd; simpl; [| done].
  unfold drop_duplicates_frame, dropna_frame. simpl. f_equal.
  apply drop_duplicate_rows_fixed, distinct_rows_filter,
    drop_duplicate_rows_distinct.
Qed.

Lemma cleaned_frame_drop (parse : string -> option Q) (rd : bool)
    (d : DataFrame) :
  cleaned_frame parse rd "drop" false d = dropna_frame (deduplicated rd d).
Proof. reflexivity. Qed.

(** C7, as the code has it.  With type conversion switched off,
    cleaning under the drop policy is idempotent: cleaning the output
    of a first call with the same configuration returns a frame with
    the same value, and the second report counts no duplicate and no
    row with a missing cell. *)
Theorem clean_data_drop_idempotent (parse : string -> option Q) (h : heap)
    (df : ref) (d : DataFrame) (rd : bool) :
  h !! df = Some d ->
  exists l1 st1 h1 l2 st2 h2,
    clean_data parse df rd "drop" false h = Ok ((l1, st1), h1)
    /\ clean_data parse l1 rd "drop" false h1 = Ok ((l2, st2), h2)
    /\ is_Some (h1 !! l1)
    /\ h2 !! l2 = h1 !! l1
    /\ duplicates_removed st2 = 0
    /\ missing_handled st2 = 0.
Proof.
  intros Hd.
  destruct (clean_data_run parse h df d rd "drop" false Hd) as [k1 Hrun1].
  set (d1 := cleaned_frame parse rd "drop" false d) in *.
  assert (((h ++ k1) ++ [d1]) !! length (h ++ k1) = Some d1) as Hd1
    by apply lookup_snoc.
  destruct (clean_data_run parse _ _ d1 rd "drop" false Hd1) as [k2 Hrun2].
  assert (cleaned_frame parse rd "drop" false d1 = d1) as Hfix.
  { subst d1. rewrite !cleaned_frame_drop.
    by rewrite deduplicated_after_drop, dropna_frame_twice. }
  eexists _, _, _, _, _, _.
  split; [exact Hrun1 |]. split; [exact Hrun2 |].
  split; [exists d1; exact Hd1 |].
  split.
  { rewrite Hfix. transitivity (Some d1); [apply lookup_snoc | by symmetry]. }
  rewrite cleaned_frame_drop in Hfix.
  unfold cleaned_stats. simpl.
  assert (deduplicated rd d1 = d1) as Hdd.
  { subst d1. rewrite cleaned_frame_drop. apply deduplicated_after_drop. }
  rewrite Hdd. split; [lia |].
  unfold missing_count. simpl.
  assert (dropna_frame d1 = d1) as Hdn.
  { subst d1. rewrite cleaned_frame_drop. apply dropna_frame_twice. }
  rewrite Hdn. lia.
Qed.

Lemma clean_data_drop_idempotent_witness :
  exists l1 st1 h1 l2 st2 h2,
    clean_data parse_decimal 0%nat true "drop" false [survey]
    = Ok ((l1, st1), h1)
    /\ clean_data parse_decimal l1 true "drop" false h1 = Ok ((l2, st2), h2)
    /\ is_Some (h1 !! l1)
    /\ h2 !! l2 = h1 !! l1
    /\ duplicates_removed st2 = 0
    /\ missing_handled st2 = 0.
Proof.
  apply (clean_data_drop_idempotent parse_decimal [survey] 0%nat survey true).
  reflexivity.
Defined.

(** C7, counterexample.  With type conversion switched on, the first
    call on [readings] turns the text column into numbers and its
    sixth value into a missing cell; the second call on that output
    drops the sixth row. *)
Lemma clean_data_drop_idempotent_counterexample :
  exists l1 st1 h1 l2 st2 h2,
    clean_data parse_decimal 0%nat true "drop" true [readings]
    = Ok ((l1, st1), h1)
    /\ clean_data parse_decimal l1 true "drop" true h1 = Ok ((l2, st2), h2)
    /\ (len <$> h1 !! l1) = Some 6
    /\ (len <$> h2 !! l2) = Some 5
    /\ h2 !! l2 <> h1 !! l1
    /\ missing_handled st2 = 1.
Proof.
  eexists _, _, _, _, _, _.
  split; [vm_compute; reflexivity |].
  split; [vm_compute; reflexivity |].
  split; [reflexivity |]. split; [reflexivity |].
  split; [| reflexivity].
  intros H. apply (f_equal (fmap len)) in H. discriminate H.
Qed.

(** ** The mean and median policies *)

Lemma In_select_positions (include : list dtype) (df : DataFrame) (j : nat) :
  In j (select_positions include df)
  <-> exists t, col_dtype j df = Some t /\ In t include.
Proof.
  unfold select_positions. rewrite filter_In, in_seq. split.
  - intros [_ H]. destruct (col_dtype j df) as [t |]; [| done].
    exists t. split; [done | by apply dtype_in_In].
  - intros (t & Ht & Hin). split.
    + unfold col_dtype in Ht. destruct (columns df !! j) eqn:E; [| done].
      apply lookup_lt_Some in E. lia.
    + rewrite Ht. by apply dtype_in_In.
Qed.

Lemma fillna_other (j j' : nat) (v : cell) (d : DataFrame) :
  j <> j' -> col_values j' (fillna j v d) = col_values j' d.
Proof.
  intros Hne. unfold col_values, fillna. simpl. rewrite map_map.
  apply map_ext. intros r. destruct (isnull (cell_at j r)); [| done].
  unfold cell_at. simpl. by rewrite list_lookup_insert_ne.
Qed.

Lemma fill_numeric_fold_other (agg : list cell -> option Q) (js : list nat)
    (d : DataFrame) (n : Z) (j' : nat) :
  ~ In j' js ->
  columns (fst (foldl (fill_numeric_step agg) (d, n) js)) = columns d
  /\ col_values j' (fst (foldl (fill_numeric_step agg) (d, n) js))
     = col_values j' d.
Proof.
  revert d n. induction js as [| j js IH]; intros d n Hni; simpl; [done |].
  assert (j <> j' /\ ~ In j' js) as [Hne Hni'] by (simpl in Hni; tauto).
  destruct (any_null j d).
  - destruct (IH (fillna j (float_cell (agg (col_values j d))) d) (n + 1) Hni')
      as [Hc Hv].
    rewrite Hc, Hv. split; [done | by apply fillna_other].
  - by apply IH.
Qed.

Lemma any_null_In (j : nat) (d : DataFrame) :
  any_null j d = true <-> In Missing (col_values j d).
Proof.
  unfold any_null. rewrite existsb_exists. split.
  - intros (c & Hin & Hc). by destruct c.
  - intros Hin. by exists Missing.
Qed.

Lemma In_categorical_cols_with_nulls (d : DataFrame) (n : string) :
  In n (categorical_cols_with_nulls d)
  <-> exists j t, columns d !! j = Some (n, t)
                  /\ (t = Object \/ t = Category)
                  /\ In Missing (col_values j d).
Proof.
  unfold categorical_cols_with_nulls. rewrite in_map_iff. split.
  - intros (j & Hn & Hin). apply filter_In in Hin as [Hin Hnull].
    apply In_select_positions in Hin as (t & Ht & Hin).
    unfold col_dtype in Ht. unfold col_name in Hn.
    destruct (columns d !! j) as [[m u] |] eqn:E; [| done].
    simpl in *. inversion Ht; subst. exists j, t.
    split; [done |]. split; [intuition congruence | by apply any_null_In].
  - intros (j & t & Hc & Ht & Hm). exists j. split.
    + unfold col_name. by rewrite Hc.
    + apply filter_In. split; [| by apply any_null_In].
      apply In_select_positions. exists t. unfold col_dtype. rewrite Hc.
      split; [done |]. simpl. intuition congruence.
Qed.

Lemma fill_numeric_other (agg : list cell -> option Q) (d : DataFrame)
    (j : nat) (t : dtype) :
  col_dtype j d = Some t -> t <> Int64 -> t <> Float64 ->
  columns (fst (fill_numeric agg d 0)) = columns d
  /\ col_values j (fst (fill_numeric agg d 0)) = col_values j d.
Proof.
  intros Ht H1 H2. apply fill_numeric_fold_other.
  intros Hin. apply In_select_positions in Hin as (t' & Ht' & Hin).
  rewrite Ht in Ht'. inversion Ht'; subst. simpl in Hin.
  intuition congruence.
Qed.

Lemma fill_numeric_columns (agg : list cell -> option Q) (d : DataFrame) :
  columns (fst (fill_numeric agg d 0)) = columns d.
Proof.
  unfold fill_numeric.
  generalize (select_positions [Int64; Float64] d). intros js.
  generalize 0. revert d.
  induction js as [| j js IH]; intros d n; simpl; [done |].
  destruct (any_null j d); [by rewrite IH | apply IH].
Qed.

(** C4, as the code has it.  Under [fill_mean] and [fill_median] the
    missing-value stage keeps the columns of the frame it receives
    (the input after duplicate removal) and leaves the values of every
    column that is not int64 or float64 as they are, datetime columns
    included.  The report has one warning when some object or category
    column holds a missing cell, and none otherwise; the warning lists
    the names of exactly those object and category columns.  Datetime
    columns with missing cells are not listed. *)
Theorem fill_mean_median_leave_non_numeric (parse : string -> option Q)
    (h : heap) (df : ref) (d : DataFrame) (rd : bool) (hm : string)
    (ct : bool) :
  h !! df = Some d ->
  hm = "fill_mean" \/ hm = "fill_median" ->
  let d1 := deduplicated rd d in
  let d2 := missing_frame hm d1 in
  exists l st h',
    clean_data parse df rd hm ct h = Ok ((l, st), h')
    /\ h' !! l = Some (converted parse ct d2)
    /\ columns d2 = columns d1
    /\ (forall j t, col_dtype j d1 = Some t -> t <> Int64 -> t <> Float64 ->
                    col_values j d2 = col_values j d1)
    /\ warnings st
       = warning_for (if String.eqb hm "fill_mean" then "Mean" else "Median")
                     (categorical_cols_with_nulls d1)
    /\ (forall n, In n (categorical_cols_with_nulls d1)
                  <-> exists j t, columns d1 !! j = Some (n, t)
                                  /\ (t = Object \/ t = Category)
                                  /\ In Missing (col_values j d1)).
Proof.
  intros Hd Hhm d1 d2.
  destruct (clean_data_run parse h df d rd hm ct Hd) as [k Hrun].
  eexists _, _, _. split; [exact Hrun |].
  split; [apply lookup_snoc |].
  split.
  { subst d2. destruct Hhm as [-> | ->]; apply fill_numeric_columns. }
  split.
  { intros j t Ht H1 H2. subst d2.
    destruct Hhm as [-> | ->];
      apply (fill_numeric_other _ d1 j t Ht H1 H2). }
  split; [by destruct Hhm as [-> | ->] |].
  apply In_categorical_cols_with_nulls.
Qed.

Lemma fill_mean_median_leave_non_numeric_witness :
  let d1 := deduplicated true survey in
  let d2 := missing_frame "fill_median" d1 in
  exists l st h',
    clean_data parse_decimal 0%nat true "fill_median" true [survey]
    = Ok ((l, st), h')
    /\ h' !! l = Some (converted parse_decimal true d2)
    /\ columns d2 = columns d1
    /\ (forall j t, col_dtype j d1 = Some t -> t <> Int64 -> t <> Float64 ->
                    col_values j d2 = col_values j d1)
    /\ warnings st
       = warning_for (if String.eqb "fill_median" "fill_mean"
                      then "Mean" else "Median")
                     (categorical_cols_with_nulls d1)
    /\ (forall n, In n (categorical_cols_with_nulls d1)
                  <-> exists j t, columns d1 !! j = Some (n, t)
                                  /\ (t = Object \/ t = Category)
                                  /\ In Missing (col_values j d1)).
Proof.
  apply (fill_mean_median_leave_non_numeric
           parse_decimal [survey] 0%nat survey true "fill_median" true).
  - reflexivity.
  - right. reflexivity.
Defined.

(** C4, counterexample.  The datetime column of [visits] holds a
    missing cell; under [fill_mean] the column is left as it is and the
    report has no warning at all. *)
Lemma fill_mean_datetime_warning_counterexample :
  col_dtype 1 visits = Some Datetime64
  /\ In Missing (col_values 1 visits)
  /\ clean_data parse_decimal 0%nat false "fill_mean" false [visits]
     = Ok ((1%nat, Stats 2 2 0 0 0 [] 2 2), [visits; visits]).
Proof.
  split; [reflexivity |]. split; [simpl; tauto | reflexivity].
Qed.

(** ** Type conversion *)

Lemma combine_map_self {A B C} (g : A -> B -> C) (f : A -> B) (l : list A) :
  map (fun p => g (fst p) (snd p)) (combine l (map f l))
  = map (fun a => g a (f a)) l.
Proof. induction l as [| a l IH]; simpl; [done | by rewrite IH]. Qed.

(** The rows after [df[col] = values] when the values are computed
    row by row from the column itself. *)
Lemma set_column_rows (j : nat) (t : dtype) (f : cell -> cell)
    (d : DataFrame) :
  rows (set_column j t (map f (col_values j d)) d)
  = map (fun r => Row (label r) (<[j := f (cell_at j r)]> (cells r)))
        (rows d).
Proof.
  unfold set_column, col_values. simpl. rewrite map_map.
  apply (combine_map_self
           (fun r v => Row (label r) (<[j := v]> (cells r)))
           (fun r => f (cell_at j r))).
Qed.

Lemma set_column_len (j : nat) (t : dtype) (f : cell -> cell)
    (d : DataFrame) :
  len (set_column j t (map f (col_values j d)) d) = len d.
Proof. unfold len. by rewrite set_column_rows, length_map. Qed.

Lemma set_column_values_other (j j' : nat) (t : dtype) (f : cell -> cell)
    (d : DataFrame) :
  j <> j' ->
  col_values j' (set_column j t (map f (col_values j d)) d) = col_values j' d.
Proof.
  intros Hne. unfold col_values at 1. rewrite set_column_rows, map_map.
  apply map_ext. intros r. unfold cell_at. simpl.
  by rewrite list_lookup_insert_ne.
Qed.

(** A missing cell stays missing, so a row too short to have the column
    reads the same before and after. *)
Lemma set_column_values_same (j : nat) (t : dtype) (f : cell -> cell)
    (d : DataFrame) :
  f Missing = Missing ->
  col_values j (set_column j t (map f (col_values j d)) d)
  = map f (col_values j d).
Proof.
  intros Hf. unfold col_values at 1. rewrite set_column_rows.
  unfold col_values. rewrite !map_map. apply map_ext. intros r.
  unfold cell_at. simpl.
  destruct (decide (j < length (cells r))%nat) as [Hlt | Hge].
  - by rewrite list_lookup_insert_eq.
  - rewrite (proj2 (list_lookup_insert_None _ _ _ _));
      rewrite lookup_ge_None_2 by lia; simpl; by rewrite ?Hf.
Qed.

Lemma set_column_dtype_other (j j' : nat) (t : dtype) (vs : list cell)
    (d : DataFrame) :
  j <> j' -> col_dtype j' (set_column j t vs d) = col_dtype j' d.
Proof.
  intros Hne. unfold col_dtype, set_column. simpl.
  by rewrite list_lookup_insert_ne.
Qed.

Lemma set_column_dtype_same (j : nat) (t : dtype) (vs : list cell)
    (d : DataFrame) :
  (j < length (columns d))%nat ->
  col_dtype j (set_column j t vs d) = Some t.
Proof.
  intros Hlt. unfold col_dtype, set_column. simpl.
  by rewrite list_lookup_insert_eq.
Qed.

Lemma NoDup_list_filter {A} (p : A -> bool) (l : list A) :
  NoDup l -> NoDup (List.filter p l).
Proof.
  induction 1 as [| x l Hx Hnd IH]; simpl; [constructor |].
  destruct (p x); [| done]. constructor; [| done].
  rewrite list_elem_of_In, filter_In. rewrite list_elem_of_In in Hx. tauto.
Qed.

Section Conversion.
Variable parse : string -> option Q.

Lemma convert_step_unfold (d : DataFrame) (n : Z) (j : nat) :
  convert_step parse (d, n) j
  = if above_threshold parse d j
    then (set_column j
            (converted_dtype (map (to_numeric parse) (col_values j d)))
            (map (numeric_cell parse) (col_values j d)) d, n + 1)
    else (d, n).
Proof.
  unfold convert_step, above_threshold, numeric_cell. by rewrite map_map.
Qed.

(** The conversion loop over distinct positions [js]: every column is
    decided on its values before the loop. *)
Lemma convert_fold (js : list nat) (d : DataFrame) (n : Z) :
  NoDup js ->
  (forall j, In j js -> (j < length (columns d))%nat) ->
  let r := fst (foldl (convert_step parse) (d, n) js) in
  len r = len d
  /\ length (columns r) = length (columns d)
  /\ forall j,
       (In j js ->
          col_values j r
          = (if above_threshold parse d j then map (numeric_cell parse) (col_values j d) else col_values j d)
          /\ col_dtype j r
             = (if above_threshold parse d j
                then Some (converted_dtype
                             (map (to_numeric parse) (col_values j d)))
                else col_dtype j d))
       /\ (~ In j js ->
             col_values j r = col_values j d
             /\ col_dtype j r = col_dtype j d).
Proof.
  revert d n. induction js as [| a js IH]; intros d n Hnd Hlt.
  { simpl. repeat split; tauto. }
  apply NoDup_cons in Hnd as [Ha Hnd]. rewrite list_elem_of_In in Ha.
  cbn [foldl]. rewrite convert_step_unfold.
  assert (a < length (columns d))%nat as Halt by (apply Hlt; simpl; tauto).
  destruct (above_threshold parse d a) eqn:Et.
  - set (d1 := set_column a _ (map (numeric_cell parse) (col_values a d)) d).
    assert (len d1 = len d) as Hlen by apply set_column_len.
    assert (length (columns d1) = length (columns d)) as Hcols
      by (unfold d1, set_column; simpl; apply length_insert).
    destruct (IH d1 (n + 1) Hnd) as (Hl & Hc & Hj).
    { intros j Hj. rewrite Hcols. apply Hlt. simpl. tauto. }
    split; [congruence |]. split; [congruence |].
    intros j. destruct (Hj j) as [Hin Hout]. split.
    + intros [<- | Hjs].
      * destruct (Hout Ha) as [-> ->]. rewrite Et. split.
        -- by apply set_column_values_same.
        -- by apply set_column_dtype_same.
      * assert (a <> j) as Hne by congruence.
        destruct (Hin Hjs) as [Hv Ht].
        assert (col_values j d1 = col_values j d) as Hvj
          by (by apply set_column_values_other).
        assert (above_threshold parse d1 j = above_threshold parse d j) as Htj
          by (unfold above_threshold; by rewrite Hlen, Hvj).
        assert (col_dtype j d1 = col_dtype j d) as Hdj
          by (by apply set_column_dtype_other).
        by rewrite Hv, Ht, Htj, Hvj, Hdj.
    + intros Hni.
      assert (a <> j /\ ~ In j js) as [Hne Hni'] by (simpl in Hni; tauto).
      destruct (Hout Hni') as [-> ->]. split.
      * by apply set_column_values_other.
      * by apply set_column_dtype_other.
  - destruct (IH d n Hnd) as (Hl & Hc & Hj).
    { intros j Hj. apply Hlt. simpl. tauto. }
    split; [done |]. split; [done |].
    intros j. destruct (Hj j) as [Hin Hout]. split.
    + intros [<- | Hjs]; [| by apply Hin].
      rewrite Et. by apply Hout.
    + intros Hni. apply Hout. simpl in Hni. tauto.
Qed.

Lemma auto_convert_column (df : DataFrame) (n : Z) (j : nat) :
  let r := fst (auto_convert parse df n) in
  let parsed := map (to_numeric parse) (col_values j df) in
  len r = len df
  /\ col_values j r
     = (if column_converts parse df j
        then map float_cell parsed else col_values j df)
  /\ col_dtype j r
     = (if column_converts parse df j
        then Some (converted_dtype parsed) else col_dtype j df).
Proof.
  simpl. unfold auto_convert.
  destruct (convert_fold (select_positions [Object] df) df n)
    as (Hl & _ & Hj).
  { apply NoDup_list_filter, NoDup_seq. }
  { intros i Hi. unfold select_positions in Hi.
    apply filter_In in Hi as [Hi _]. apply in_seq in Hi. lia. }
  split; [exact Hl |].
  destruct (Hj j) as [Hin Hout]. unfold column_converts.
  destruct (col_dtype j df) as [t |] eqn:Et.
  - destruct (dtype_eqb t Object) eqn:Eo.
    + apply dtype_eqb_eq in Eo. subst t.
      destruct Hin as [Hv Ht].
      { apply In_select_positions. exists Object. simpl. tauto. }
      rewrite Hv, Ht. unfold numeric_cell. rewrite map_map.
      by destruct (above_threshold parse df j).
    + destruct Hout as [Hv Ht].
      { intros Hi. apply In_select_positions in Hi as (t' & Ht' & Hi).
        simpl in Hi. destruct Hi as [<- | []].
        rewrite Et in Ht'. inversion Ht'; subst. discriminate Eo. }
      rewrite Hv, Ht. by destruct t.
  - destruct Hout as [Hv Ht]; [| by rewrite Hv, Ht].
    intros Hi. apply In_select_positions in Hi as (t' & Ht' & _).
    congruence.
Qed.
End Conversion.

(** C2, as the code has it.  With type conversion enabled, a column of
    the frame that reaches the conversion stage (the input after
    duplicate removal and missing-value handling) is replaced by its
    numeric parse if and only if it is an object column and its parsed
    values are more than 80% of the rows of that frame: the
    denominator is the row count, so missing cells count against the
    column.  In the replaced column the values that did not parse are
    missing; every other column keeps its values and its storage type.
    The column ["1","2","3","x"] stays as it is and the column
    ["1","2","3","4"] is converted. *)
Theorem convert_types_threshold :
  (forall (parse : string -> option Q) (h : heap) (df : ref) (d : DataFrame)
          (rd : bool) (hm : string) (j : nat),
     h !! df = Some d ->
     let d2 := missing_frame hm (deduplicated rd d) in
     let parsed := map (to_numeric parse) (col_values j d2) in
     exists l st h' r,
       clean_data parse df rd hm true h = Ok ((l, st), h')
       /\ h' !! l = Some r
       /\ len r = len d2
       /\ col_values j r
          = (if column_converts parse d2 j
             then map float_cell parsed else col_values j d2)
       /\ col_dtype j r
          = (if column_converts parse d2 j
             then Some (converted_dtype parsed) else col_dtype j d2))
  /\ (exists l st h',
        clean_data parse_decimal 0%nat true "drop" true [three_of_four]
        = Ok ((l, st), h')
        /\ h' !! l = Some three_of_four
        /\ types_converted st = 0)
  /\ (exists l st h',
        clean_data parse_decimal 0%nat true "drop" true [four_of_four]
        = Ok ((l, st), h')
        /\ h' !! l
           = Some (Frame [("n", Int64)]
                         (mk_rows [[Num 1]; [Num 2]; [Num 3]; [Num 4]]))
        /\ types_converted st = 1).
Proof.
  split; [| split].
  - intros parse h df d rd hm j Hd d2 parsed.
    destruct (clean_data_run parse h df d rd hm true Hd) as [k Hrun].
    eexists _, _, _, _. split; [exact Hrun |].
    split; [apply lookup_snoc |].
    unfold cleaned_frame, converted.
    apply (auto_convert_column parse d2 0 j).
  - eexists _, _, _. split; [vm_compute; reflexivity |].
    split; reflexivity.
  - eexists _, _, _. split; [vm_compute; reflexivity |].
    split; reflexivity.
Qed.

Lemma convert_types_threshold_witness :
  let d2 := missing_frame "fill_mode" (deduplicated true readings) in
  let parsed := map (to_numeric parse_decimal) (col_values 0 d2) in
  exists l st h' r,
    clean_data parse_decimal 0%nat true "fill_mode" true [readings]
    = Ok ((l, st), h')
    /\ h' !! l = Some r
    /\ len r = len d2
    /\ col_values 0 r
       = (if column_converts parse_decimal d2 0
          then map float_cell parsed else col_values 0 d2)
    /\ col_dtype 0 r
       = (if column_converts parse_decimal d2 0
          then Some (converted_dtype parsed) else col_dtype 0 d2).
Proof.
  apply (proj1 convert_types_threshold
           parse_decimal [readings] 0%nat readings true "fill_mode" 0%nat).
  reflexivity.
Defined.

(** C2, counterexample.  Every present value of the column of
    [four_and_gap] parses (four of four), but the four parsed values
    are not more than 80% of its five rows: under [fill_mean], which
    leaves the missing cell of a text column in place, the column is
    not converted. *)
Lemma convert_types_denominator_counterexample :
  let vs := col_values 0 four_and_gap in
  parsed_count (map (to_numeric parse_decimal) vs) = 4
  /\ Z.of_nat (length (List.filter notna vs)) = 4
  /\ exists l st h',
       clean_data parse_decimal 0%nat true "fill_mean" true [four_and_gap]
       = Ok ((l, st), h')
       /\ h' !! l = Some four_and_gap
       /\ types_converted st = 0.
Proof.
  split; [reflexivity |]. split; [reflexivity |].
  eexists _, _, _. split; [vm_compute; reflexivity |].
  split; reflexivity.
Qed.

(** ** The IQR method *)

Lemma Qlt_bool_iff (x y : Q) : Qlt_bool x y = true <-> (x < y)%Q.
Proof.
  unfold Qlt_bool. rewrite negb_true_iff. split.
  - intros H. apply Qnot_le_lt. intros Hle.
    apply Qle_bool_iff in Hle. congruence.
  - intros H. destruct (Qle_bool y x) eqn:E; [| done].
    apply Qle_bool_iff in E. exfalso. by apply (Qlt_not_le x y).
Qed.

Lemma flagged_iff (j : nat) (lo hi : option Q) (r : row) :
  flagged j lo hi r = true
  <-> exists x, cell_at j r = Num x
                /\ ((exists b, lo = Some b /\ (x < b)%Q)
                    \/ (exists b, hi = Some b /\ (b < x)%Q)).
Proof.
  unfold flagged, cell_lt, cell_gt. rewrite orb_true_iff. split.
  - intros [H | H]; destruct (cell_at j r) as [| x | | |]; try done.
    + destruct lo as [b |]; [| done]. exists x. split; [done |].
      left. exists b. split; [done | by apply Qlt_bool_iff].
    + destruct hi as [b |]; [| done]. exists x. split; [done |].
      right. exists b. split; [done | by apply Qlt_bool_iff].
  - intros (x & -> & [(b & -> & Hlt) | (b & -> & Hlt)]).
    + left. by apply Qlt_bool_iff.
    + right. by apply Qlt_bool_iff.
Qed.

Lemma flagged_missing (j : nat) (lo hi : option Q) (r : row) :
  cell_at j r = Missing -> flagged j lo hi r = false.
Proof. intros H. unfold flagged. by rewrite H. Qed.

(** The present values of a column are the values of the rows in which
    the column is present. *)
Lemma present_values_rows (j : nat) (df : DataFrame) :
  List.filter notna (col_values j df)
  = map (cell_at j) (List.filter (fun r => notna (cell_at j r)) (rows df)).
Proof.
  unfold col_values. induction (rows df) as [| r rs IH]; simpl; [done |].
  destruct (notna (cell_at j r)); simpl; by rewrite IH.
Qed.

(** The rows after [df[name] = values] when the values are computed
    row by row: every row keeps its label. *)
Lemma assign_column_rows (name : string) (t : dtype) (f : row -> cell)
    (d : DataFrame) :
  rows (assign_column name t (map f (rows d)) d)
  = map (fun r => Row (label r)
                      match index_of name (columns d) with
                      | Some i => <[i := f r]> (cells r)
                      | None => cells r ++ [f r]
                      end) (rows d).
Proof.
  unfold assign_column. destruct (index_of name (columns d)) as [i |]; simpl.
  - apply (combine_map_self
             (fun r v => Row (label r) (<[i := v]> (cells r))) f).
  - apply (combine_map_self
             (fun r v => Row (label r) (cells r ++ [v])) f).
Qed.

(** What [detect_outliers] returns on a numeric column with at least
    one present value. *)
Lemma detect_outliers_run (df : DataFrame) (column : string) (j : nat)
    (t : dtype) :
  index_of column (columns df) = Some j ->
  col_dtype j df = Some t ->
  In t [Int64; Float64] ->
  List.filter notna (col_values j df) <> [] ->
  let present := List.filter notna (col_values j df) in
  let q1 := quantile (numbers present) (1 # 4) in
  let q3 := quantile (numbers present) (3 # 4) in
  let iqr := fsub q3 q1 in
  let lo := fsub q1 (fscale (3 # 2) iqr) in
  let hi := fadd q3 (fscale (3 # 2) iqr) in
  let kept := List.filter (flagged j lo hi) (rows df) in
  exists out,
    detect_outliers df column "iqr"
    = Ok (Some (out,
            {| total_values := Z.of_nat (length present);
               outliers_count := Z.of_nat (length kept);
               outliers_percentage :=
                 (inject_Z (Z.of_nat (length kept))
                  / inject_Z (Z.of_nat (length present)) * 100)%Q;
               lower_bound := lo;
               upper_bound := hi;
               Q1 := q1;
               Q3 := q3;
               IQR := iqr |}))
    /\ rows out
       = map (fun r =>
                Row (label r)
                    match index_of "outlier_reason" (columns df) with
                    | Some i =>
                        <[i := Str (outlier_reason lo hi (cell_at j r))]>
                          (cells r)
                    | None =>
                        cells r ++ [Str (outlier_reason lo hi (cell_at j r))]
                    end) kept.
Proof.
  intros Hj Ht Hnum Hne present q1 q3 iqr lo hi kept.
  apply dtype_in_In in Hnum.
  unfold detect_outliers. rewrite Hj, Ht, Hnum. simpl negb. cbv iota.
  fold present. fold q1 q3. fold iqr. fold lo hi.
  change (List.filter
            (fun r => cell_lt (cell_at j r) lo || cell_gt (cell_at j r) hi)
            (rows df)) with kept.
  set (kept_frame := {| columns := columns df; rows := kept |}).
  set (reason_dtype := match rows kept_frame with [] => t | _ => Object end).
  change (map (fun x => Str (if cell_lt x lo
                             then "Below " +:+ format_2f lo
                             else "Above " +:+ format_2f hi))
              (col_values j kept_frame))
    with (map (fun x => Str (outlier_reason lo hi x))
              (col_values j kept_frame)).
  unfold col_values. rewrite map_map.
  pose proof (assign_column_rows "outlier_reason" reason_dtype
                (fun r => Str (outlier_reason lo hi (cell_at j r)))
                kept_frame) as Hrows.
  simpl in Hrows.
  change (String.eqb "iqr" "iqr") with true. cbv iota.
  destruct (length present) as [| n] eqn:En.
  { exfalso. apply Hne. by apply nil_length_inv. }
  eexists. split; [| exact Hrows].
  unfold len. simpl rows at 2 4. rewrite Hrows, length_map. reflexivity.
Qed.

Lemma NoDup_map_inj_In {A B} (f : A -> B) (l : list A) (a b : A) :
  NoDup (map f l) -> In a l -> In b l -> f a = f b -> a = b.
Proof.
  induction l as [| x l IH]; simpl; [tauto |].
  intros Hnd Ha Hb Hab. apply NoDup_cons in Hnd as [Hx Hnd].
  rewrite list_elem_of_In in Hx.
  destruct Ha as [-> | Ha], Hb as [-> | Hb]; [done | | | by apply IH].
  - exfalso. apply Hx. rewrite Hab. by apply in_map.
  - exfalso. apply Hx. rewrite <- Hab. by apply in_map.
Qed.

(** C10.  On a numeric column with at least one present value the
    quartiles and the bounds are computed from the values of the rows
    in which the column is present, and the returned rows are, label by
    label, the rows the mask keeps; the mask is false on every row
    whose value in the column is missing, whatever the bounds.  With
    distinct row labels, the label of such a row is not among the
    labels of the returned rows. *)
Theorem detect_outliers_skips_missing (df : DataFrame) (column : string)
    (j : nat) (t : dtype) :
  index_of column (columns df) = Some j ->
  col_dtype j df = Some t ->
  In t [Int64; Float64] ->
  List.filter notna (col_values j df) <> [] ->
  let present_rows := List.filter (fun r => notna (cell_at j r)) (rows df) in
  let data := numbers (map (cell_at j) present_rows) in
  let q1 := quantile data (1 # 4) in
  let q3 := quantile data (3 # 4) in
  let lo := fsub q1 (fscale (3 # 2) (fsub q3 q1)) in
  let hi := fadd q3 (fscale (3 # 2) (fsub q3 q1)) in
  let kept := List.filter (flagged j lo hi) (rows df) in
  exists out st,
    detect_outliers df column "iqr" = Ok (Some (out, st))
    /\ Q1 st = q1 /\ Q3 st = q3
    /\ lower_bound st = lo /\ upper_bound st = hi
    /\ total_values st = Z.of_nat (length present_rows)
    /\ map label (rows out) = map label kept
    /\ (forall r lo' hi', cell_at j r = Missing ->
                          flagged j lo' hi' r = false)
    /\ (forall r, In r kept -> In r (rows df) /\ cell_at j r <> Missing)
    /\ (NoDup (map label (rows df)) ->
        forall r, In r (rows df) -> cell_at j r = Missing ->
                  ~ In (label r) (map label (rows out))).
Proof.
  intros Hj Ht Hnum Hne present_rows data q1 q3 lo hi kept.
  destruct (detect_outliers_run df column j t Hj Ht Hnum Hne)
    as (out & Hrun & Hrows).
  rewrite present_values_rows in Hrun, Hrows.
  fold present_rows data q1 q3 lo hi kept in Hrun, Hrows.
  assert (map label (rows out) = map label kept) as Hlabels.
  { rewrite Hrows, map_map. by apply map_ext. }
  assert (forall r, In r kept -> In r (rows df) /\ cell_at j r <> Missing)
    as Hkept.
  { intros r Hr. apply filter_In in Hr as [Hin Hf]. split; [done |].
    intros Hm. by rewrite (flagged_missing j lo hi r Hm) in Hf. }
  eexists out, _. split; [exact Hrun |]. simpl.
  rewrite length_map.
  repeat split; try reflexivity; try exact Hlabels.
  - intros r lo' hi'. apply flagged_missing.
  - by apply Hkept.
  - by apply Hkept.
  - intros Hnd r Hin Hm Hl. rewrite Hlabels in Hl.
    apply in_map_iff in Hl as (r' & Hl & Hr').
    destruct (Hkept r' Hr') as [Hin' Hm'].
    assert (r' = r) as -> by (by apply (NoDup_map_inj_In label (rows df))).
    done.
Qed.

Lemma detect_outliers_skips_missing_witness :
  let present_rows :=
    List.filter (fun r => notna (cell_at 1 r)) (rows gauge) in
  let data := numbers (map (cell_at 1) present_rows) in
  let q1 := quantile data (1 # 4) in
  let q3 := quantile data (3 # 4) in
  let lo := fsub q1 (fscale (3 # 2) (fsub q3 q1)) in
  let hi := fadd q3 (fscale (3 # 2) (fsub q3 q1)) in
  let kept := List.filter (flagged 1 lo hi) (rows gauge) in
  exists out st,
    detect_outliers gauge "level" "iqr" = Ok (Some (out, st))
    /\ Q1 st = q1 /\ Q3 st = q3
    /\ lower_bound st = lo /\ upper_bound st = hi
    /\ total_values st = Z.of_nat (length present_rows)
    /\ map label (rows out) = map label kept
    /\ (forall r lo' hi', cell_at 1 r = Missing ->
                          flagged 1 lo' hi' r = false)
    /\ (forall r, In r kept -> In r (rows gauge) /\ cell_at 1 r <> Missing)
    /\ (NoDup (map label (rows gauge)) ->
        forall r, In r (rows gauge) -> cell_at 1 r = Missing ->
                  ~ In (label r) (map label (rows out))).
Proof.
  apply (detect_outliers_skips_missing gauge "level" 1%nat Float64).
  - reflexivity.
  - reflexivity.
  - simpl. tauto.
  - discriminate.
Defined.

(** * Further properties of the cleaner *)

(** The frame and the report of a call, read from the store. *)
Lemma clean_data_result (parse : string -> option Q) (h : heap) (df : ref)
    (d : DataFrame) (rd : bool) (hm : string) (ct : bool) :
  h !! df = Some d ->
  exists l h',
    clean_data parse df rd hm ct h
    = Ok ((l, cleaned_stats parse rd hm ct d), h')
    /\ h' !! l = Some (cleaned_frame parse rd hm ct d).
Proof.
  intros Hd. destruct (clean_data_run parse h df d rd hm ct Hd) as [k Hrun].
  eexists _, _. split; [exact Hrun | apply lookup_snoc].
Qed.

(** ** Shape: row labels and column labels *)

Lemma sublist_map_label_filter (p : row -> bool) (rs : list row) :
  sublist (map label (List.filter p rs)) (map label rs).
Proof.
  induction rs as [| r rs IH]; simpl; [constructor |].
  destruct (p r); simpl; by constructor.
Qed.

Lemma sublist_map_label_drop_duplicates (seen : list (list cell))
    (rs : list row) :
  sublist (map label (drop_duplicate_rows seen rs)) (map label rs).
Proof.
  revert seen. induction rs as [| r rs IH]; intros seen; simpl;
    [constructor |].
  destruct (existsb (cells_eqb (cells r)) seen); simpl; by constructor.
Qed.

Lemma fillna_labels (j : nat) (v : cell) (d : DataFrame) :
  map label (rows (fillna j v d)) = map label (rows d).
Proof.
  unfold fillna. simpl. rewrite map_map. apply map_ext.
  intros r. by destruct (isnull (cell_at j r)).
Qed.

Lemma fill_numeric_shape (agg : list cell -> option Q) (d : DataFrame) :
  map label (rows (fst (fill_numeric agg d 0))) = map label (rows d).
Proof.
  unfold fill_numeric.
  generalize (select_positions [Int64; Float64] d). intros js.
  generalize 0. revert d.
  induction js as [| j js IH]; intros d n; simpl; [done |].
  destruct (any_null j d); [| apply IH].
  rewrite IH. apply fillna_labels.
Qed.

Lemma fill_mode_step_shape (st : mode_state) (j : nat) :
  columns (mode_frame (fill_mode_step st j)) = columns (mode_frame st)
  /\ map label (rows (mode_frame (fill_mode_step st j)))
     = map label (rows (mode_frame st)).
Proof.
  unfold fill_mode_step. destruct (any_null j (mode_frame st)); [| done].
  destruct (series_mode _) as [| m ms]; [done |].
  destruct (col_dtype j _) as [t |]; [| done].
  destruct (dtype_in t _); simpl; split; try done; apply fillna_labels.
Qed.

Lemma fill_mode_fold_shape (js : list nat) (st : mode_state) :
  columns (mode_frame (foldl fill_mode_step st js)) = columns (mode_frame st)
  /\ map label (rows (mode_frame (foldl fill_mode_step st js)))
     = map label (rows (mode_frame st)).
Proof.
  revert st. induction js as [| j js IH]; intros st; simpl; [done |].
  destruct (IH (fill_mode_step st j)) as [-> ->].
  apply fill_mode_step_shape.
Qed.

Lemma fill_mode_shape (d : DataFrame) (n : Z) :
  columns (mode_frame (fill_mode d n)) = columns d
  /\ map label (rows (mode_frame (fill_mode d n))) = map label (rows d).
Proof. apply (fill_mode_fold_shape _ (ModeState d n 0 0)). Qed.

Lemma set_column_names (j : nat) (t : dtype) (vs : list cell)
    (d : DataFrame) :
  map fst (columns (set_column j t vs d)) = map fst (columns d).
Proof.
  unfold set_column, col_name. simpl.
  generalize (columns d). intros cs. revert j.
  induction cs as [| [n u] cs IH]; intros j; [by destruct j |].
  destruct j as [| j]; simpl; [done |]. f_equal. apply IH.
Qed.

Lemma set_column_labels (j : nat) (t : dtype) (f : cell -> cell)
    (d : DataFrame) :
  map label (rows (set_column j t (map f (col_values j d)) d))
  = map label (rows d).
Proof. rewrite set_column_rows, map_map. by apply map_ext. Qed.

Lemma auto_convert_shape (parse : string -> option Q) (d : DataFrame)
    (n : Z) :
  map fst (columns (fst (auto_convert parse d n))) = map fst (columns d)
  /\ map label (rows (fst (auto_convert parse d n))) = map label (rows d).
Proof.
  unfold auto_convert. generalize (select_positions [Object] d).
  intros js. revert d n.
  induction js as [| j js IH]; intros d n; [done |].
  cbn [foldl]. rewrite convert_step_unfold.
  destruct (above_threshold parse d j); [| apply IH].
  destruct (IH (set_column j
                  (converted_dtype (map (to_numeric parse) (col_values j d)))
                  (map (numeric_cell parse) (col_values j d)) d) (n + 1))
    as [-> ->].
  split; [apply set_column_names | apply set_column_labels].
Qed.

Lemma missing_frame_shape (hm : string) (d : DataFrame) :
  columns (missing_frame hm d) = columns d
  /\ sublist (map label (rows (missing_frame hm d))) (map label (rows d))
  /\ (hm <> "drop" ->
      map label (rows (missing_frame hm d)) = map label (rows d)).
Proof.
  unfold missing_frame.
  destruct (String.eqb hm "drop") eqn:E.
  { apply String.eqb_eq in E. split; [done |].
    split; [apply sublist_map_label_filter | congruence]. }
  assert (forall d', map label (rows d') = map label (rows d) ->
                     sublist (map label (rows d')) (map label (rows d)))
    as Hsub by (by intros d' ->).
  destruct (String.eqb hm "fill_mean").
  { pose proof (fill_numeric_shape series_mean d).
    split; [apply fill_numeric_columns | auto]. }
  destruct (String.eqb hm "fill_median").
  { pose proof (fill_numeric_shape series_median d).
    split; [apply fill_numeric_columns | auto]. }
  destruct (String.eqb hm "fill_mode").
  { destruct (fill_mode_shape d 0) as [? ?]. auto. }
  auto.
Qed.

Lemma cleaned_frame_shape (parse : string -> option Q) (rd : bool)
    (hm : string) (ct : bool) (d : DataFrame) :
  map fst (columns (cleaned_frame parse rd hm ct d)) = map fst (columns d)
  /\ sublist (map label (rows (cleaned_frame parse rd hm ct d)))
             (map label (rows d)).
Proof.
  unfold cleaned_frame.
  set (d1 := deduplicated rd d). set (d2 := missing_frame hm d1).
  assert (columns d1 = columns d) as Hc1 by (by destruct rd).
  assert (sublist (map label (rows d1)) (map label (rows d))) as Hl1.
  { destruct rd; simpl; [apply sublist_map_label_drop_duplicates | done]. }
  destruct (missing_frame_shape hm d1) as (Hc2 & Hl2 & _). fold d2 in Hc2, Hl2.
  assert (map fst (columns (converted parse ct d2)) = map fst (columns d2)
          /\ map label (rows (converted parse ct d2)) = map label (rows d2))
    as [Hc3 Hl3].
  { destruct ct; simpl; [apply auto_convert_shape | done]. }
  rewrite Hc3, Hl3, Hc2, Hc1. split; [done |].
  by transitivity (map label (rows d1)).
Qed.

(** X1.  Cleaning never adds, removes, renames or reorders columns: the
    column labels of the cleaned frame are those of the input, in the
    same order, and the report has [final_cols = original_cols]. *)
Theorem clean_data_keeps_column_labels (parse : string -> option Q)
    (h : heap) (df : ref) (d : DataFrame) (rd : bool) (hm : string)
    (ct : bool) :
  h !! df = Some d ->
  exists l st h' r,
    clean_data parse df rd hm ct h = Ok ((l, st), h')
    /\ h' !! l = Some r
    /\ map fst (columns r) = map fst (columns d)
    /\ original_cols st = ncols d
    /\ final_cols st = original_cols st.
Proof.
  intros Hd.
  destruct (clean_data_result parse h df d rd hm ct Hd) as (l & h' & Hrun & Hl).
  eexists l, _, h', _. split; [exact Hrun |]. split; [exact Hl |].
  destruct (cleaned_frame_shape parse rd hm ct d) as [Hc _].
  split; [exact Hc |]. split; [reflexivity |].
  simpl. unfold ncols. fold (cleaned_frame parse rd hm ct d).
  by rewrite <- (length_map fst), Hc, length_map.
Qed.

Lemma clean_data_keeps_column_labels_witness :
  exists l st h' r,
    clean_data parse_decimal 0%nat true "drop" true [readings]
    = Ok ((l, st), h')
    /\ h' !! l = Some r
    /\ map fst (columns r) = map fst (columns readings)
    /\ original_cols st = ncols readings
    /\ final_cols st = original_cols st.
Proof.
  apply (clean_data_keeps_column_labels parse_decimal [readings] 0%nat
           readings true "drop" true).
  reflexivity.
Defined.

(** X2.  Cleaning keeps the index: the row labels of the cleaned frame
    are a subsequence of the row labels of the input (rows are only
    removed, never added, relabelled or reordered), and under every
    policy string other than ["drop"] with duplicate removal off they
    are the same labels. *)
Theorem clean_data_keeps_row_labels (parse : string -> option Q)
    (h : heap) (df : ref) (d : DataFrame) (rd : bool) (hm : string)
    (ct : bool) :
  h !! df = Some d ->
  exists l st h' r,
    clean_data parse df rd hm ct h = Ok ((l, st), h')
    /\ h' !! l = Some r
    /\ sublist (map label (rows r)) (map label (rows d))
    /\ (rd = false -> hm <> "drop" ->
        map label (rows r) = map label (rows d)).
Proof.
  intros Hd.
  destruct (clean_data_result parse h df d rd hm ct Hd) as (l & h' & Hrun & Hl).
  eexists l, _, h', _. split; [exact Hrun |]. split; [exact Hl |].
  split; [apply cleaned_frame_shape |].
  intros -> Hne. unfold cleaned_frame. simpl.
  destruct (missing_frame_shape hm d) as (_ & _ & Heq).
  rewrite <- (Heq Hne).
  destruct ct; simpl; [apply auto_convert_shape | done].
Qed.

Lemma clean_data_keeps_row_labels_witness :
  exists l st h' r,
    clean_data parse_decimal 0%nat false "fill_mean" true [survey]
    = Ok ((l, st), h')
    /\ h' !! l = Some r
    /\ sublist (map label (rows r)) (map label (rows survey))
    /\ (false = false -> "fill_mean" <> "drop" ->
        map label (rows r) = map label (rows survey)).
Proof.
  apply (clean_data_keeps_row_labels parse_decimal [survey] 0%nat survey
           false "fill_mean" true).
  reflexivity.
Defined.

(** ** Row accounting *)

Lemma len_labels (d : DataFrame) :
  len d = Z.of_nat (length (map label (rows d))).
Proof. unfold len. by rewrite length_map. Qed.

Lemma len_sublist (d d' : DataFrame) :
  sublist (map label (rows d')) (map label (rows d)) -> len d' <= len d.
Proof.
  intros H. rewrite !len_labels. apply sublist_length in H. lia.
Qed.

Lemma len_same_labels (d d' : DataFrame) :
  map label (rows d') = map label (rows d) -> len d' = len d.
Proof. intros H. by rewrite !len_labels, H. Qed.

(** X3.  The report accounts for every row: [original_rows] and
    [final_rows] are the row counts of the input and of the cleaned
    frame; under the drop policy
    [final_rows = original_rows - duplicates_removed - missing_handled],
    where [missing_handled] counts rows; under every other policy
    string no row is removed by the missing-value stage and
    [final_rows = original_rows - duplicates_removed].  Both counts of
    removed rows are non-negative, and [duplicates_removed] is 0 when
    duplicate removal is off. *)
Theorem clean_data_row_accounting (parse : string -> option Q)
    (h : heap) (df : ref) (d : DataFrame) (rd : bool) (hm : string)
    (ct : bool) :
  h !! df = Some d ->
  exists l st h' r,
    clean_data parse df rd hm ct h = Ok ((l, st), h')
    /\ h' !! l = Some r
    /\ original_rows st = len d
    /\ final_rows st = len r
    /\ 0 <= duplicates_removed st
    /\ (rd = false -> duplicates_removed st = 0)
    /\ (hm = "drop" ->
        0 <= missing_handled st
        /\ final_rows st
           = original_rows st - duplicates_removed st - missing_handled st)
    /\ (hm <> "drop" ->
        final_rows st = original_rows st - duplicates_removed st).
Proof.
  intros Hd.
  destruct (clean_data_result parse h df d rd hm ct Hd) as (l & h' & Hrun & Hl).
  eexists l, _, h', _. split; [exact Hrun |]. split; [exact Hl |].
  unfold cleaned_stats, cleaned_frame. simpl.
  set (d1 := deduplicated rd d). set (d2 := missing_frame hm d1).
  assert (len d1 <= len d) as H1.
  { apply len_sublist. destruct rd; simpl;
      [apply sublist_map_label_drop_duplicates | done]. }
  assert (len (converted parse ct d2) = len d2) as H3.
  { apply len_same_labels. destruct ct; simpl;
      [apply auto_convert_shape | done]. }
  destruct (missing_frame_shape hm d1) as (_ & Hsub & Heq).
  fold d2 in Hsub, Heq.
  split; [done |]. split; [done |]. split; [lia |].
  split; [intros ->; simpl in *; subst d1; simpl; lia |].
  split.
  - intros ->. unfold missing_count. simpl.
    change (dropna_frame d1) with (missing_frame "drop" d1). fold d2.
    apply len_sublist in Hsub. lia.
  - intros Hne. rewrite H3, (len_same_labels _ _ (Heq Hne)). lia.
Qed.

Lemma clean_data_row_accounting_witness :
  exists l st h' r,
    clean_data parse_decimal 0%nat true "drop" true [survey]
    = Ok ((l, st), h')
    /\ h' !! l = Some r
    /\ original_rows st = len survey
    /\ final_rows st = len r
    /\ 0 <= duplicates_removed st
    /\ (true = false -> duplicates_removed st = 0)
    /\ ("drop" = "drop" ->
        0 <= missing_handled st
        /\ final_rows st
           = original_rows st - duplicates_removed st - missing_handled st)
    /\ ("drop" <> "drop" ->
        final_rows st = original_rows st - duplicates_removed st).
Proof.
  apply (clean_data_row_accounting parse_decimal [survey] 0%nat survey
           true "drop" true).
  reflexivity.
Defined.

(** ** The drop policy *)

Lemma cell_eqb_refl (c : cell) : cell_eqb c c = true.
Proof.
  destruct c; simpl; try done.
  - apply Qeq_bool_iff. reflexivity.
  - apply String.eqb_refl.
  - by destruct b.
  - apply Z.eqb_refl.
Qed.

Lemma cells_eqb_refl (cs : list cell) : cells_eqb cs cs = true.
Proof.
  unfold cells_eqb. rewrite Nat.eqb_refl. simpl.
  induction cs as [| c cs IH]; simpl; [done |].
  by rewrite cell_eqb_refl.
Qed.

Lemma cell_eqb_notna (a b : cell) :
  cell_eqb a b = true -> notna a = notna b.
Proof. by destruct a, b. Qed.

Lemma cells_eqb_complete (a b : list cell) :
  cells_eqb a b = true -> forallb notna a = forallb notna b.
Proof.
  unfold cells_eqb. revert b.
  induction a as [| x a IH]; intros [| y b]; simpl; try done.
  rewrite andb_true_iff. intros [Hlen Hall].
  apply andb_true_iff in Hall as [Hxy Hall].
  rewrite (cell_eqb_notna x y Hxy). f_equal.
  apply IH. by rewrite Hlen, Hall.
Qed.

(** Every row either equals a row seen before or has an equal row in
    the result. *)
Lemma drop_duplicate_rows_covers (seen : list (list cell)) (rs : list row)
    (r : row) :
  In r rs ->
  existsb (cells_eqb (cells r)) seen = true
  \/ exists r', In r' (drop_duplicate_rows seen rs)
                /\ cells_eqb (cells r) (cells r') = true.
Proof.
  revert seen. induction rs as [| r0 rs IH]; intros seen; simpl; [tauto |].
  intros [-> | Hin].
  - destruct (existsb (cells_eqb (cells r)) seen) eqn:E; [by left |].
    right. exists r. split; [by left | apply cells_eqb_refl].
  - destruct (existsb (cells_eqb (cells r0)) seen) eqn:E.
    + by apply IH.
    + destruct (IH (cells r0 :: seen) Hin) as [Hs | (r' & Hr' & He)].
      * simpl in Hs. apply orb_true_iff in Hs as [Hs | Hs]; [| by left].
        right. exists r0. split; [by left | done].
      * right. exists r'. split; [by right | done].
Qed.

Lemma drop_duplicate_rows_In (seen : list (list cell)) (rs : list row)
    (r : row) :
  In r (drop_duplicate_rows seen rs) -> In r rs.
Proof.
  revert seen. induction rs as [| r0 rs IH]; intros seen; simpl; [done |].
  destruct (existsb (cells_eqb (cells r0)) seen).
  - intros H. right. by apply (IH seen).
  - intros [-> | H]; [by left | right; by apply (IH (cells r0 :: seen))].
Qed.

(** Rows that pass [distinct_rows] are pairwise different. *)
Lemma distinct_rows_pairwise (seen : list (list cell)) (rs : list row)
    (i k : nat) (a b : row) :
  distinct_rows seen rs -> (i < k)%nat ->
  rs !! i = Some a -> rs !! k = Some b ->
  cells_eqb (cells b) (cells a) = false.
Proof.
  revert seen i k. induction rs as [| r rs IH]; intros seen i k; [done |].
  simpl. intros [_ Hd] Hik Ha Hb.
  destruct k as [| k]; [lia |]. simpl in Hb.
  destruct i as [| i]; simpl in Ha.
  - inversion Ha; subst r. clear IH Ha.
    assert (forall seen', distinct_rows seen' rs ->
              existsb (cells_eqb (cells b)) seen' = false) as Hin.
    { clear Hd. revert k Hb Hik. induction rs as [| r' rs IH'];
        intros k Hb Hik seen' Hd'; [done |].
      simpl in Hd'. destruct Hd' as [He Hd'].
      destruct k as [| k]; simpl in Hb.
      - by inversion Hb; subst.
      - assert (existsb (cells_eqb (cells b)) (cells r' :: seen') = false)
          as Hx by (apply (IH' k); [done | lia | done]).
        simpl in Hx. by apply orb_false_iff in Hx as [_ ?]. }
    specialize (Hin _ Hd). simpl in Hin.
    by apply orb_false_iff in Hin as [? _].
  - apply (IH (cells r :: seen) i k); [done | lia | done | done].
Qed.

(** X4.  With duplicate removal on, the drop policy and type
    conversion off, the cleaned frame holds rows of the input only,
    none of them with a missing cell and no two of them equal; and
    every input row without a missing cell is still represented by an
    equal row.  So exactly the duplicates and the incomplete rows are
    gone. *)
Theorem clean_data_drop_exact (parse : string -> option Q) (h : heap)
    (df : ref) (d : DataFrame) :
  h !! df = Some d ->
  exists l st h' r,
    clean_data parse df true "drop" false h = Ok ((l, st), h')
    /\ h' !! l = Some r
    /\ (forall x, In x (rows r) ->
          In x (rows d) /\ forall c, In c (cells x) -> c <> Missing)
    /\ (forall i k a b, (i < k)%nat ->
          rows r !! i = Some a -> rows r !! k = Some b ->
          cells_eqb (cells b) (cells a) = false)
    /\ (forall x, In x (rows d) ->
          (forall c, In c (cells x) -> c <> Missing) ->
          exists x', In x' (rows r) /\ cells_eqb (cells x) (cells x') = true).
Proof.
  intros Hd.
  destruct (clean_data_result parse h df d true "drop" false Hd)
    as (l & h' & Hrun & Hl).
  eexists l, _, h', _. split; [exact Hrun |]. split; [exact Hl |].
  rewrite cleaned_frame_drop. simpl.
  assert (forall x : row, complete_row x = true
            <-> forall c, In c (cells x) -> c <> Missing) as Hcomplete.
  { intros x. unfold complete_row. rewrite forallb_forall. split.
    - intros H c Hc ->. by specialize (H _ Hc).
    - intros H c Hc. destruct c; try done. by specialize (H _ Hc). }
  split; [| split].
  - intros x Hx. apply filter_In in Hx as [Hx Hc]. split.
    + by apply drop_duplicate_rows_In in Hx.
    + by apply Hcomplete.
  - intros i k a b. apply distinct_rows_pairwise with (seen := []).
    apply distinct_rows_filter, drop_duplicate_rows_distinct.
  - intros x Hx Hc.
    destruct (drop_duplicate_rows_covers [] (rows d) x Hx)
      as [Hs | (x' & Hx' & He)]; [done |].
    exists x'. split; [| done]. apply filter_In. split; [done |].
    unfold complete_row. rewrite <- (cells_eqb_complete _ _ He).
    by apply Hcomplete.
Qed.

Lemma clean_data_drop_exact_witness :
  exists l st h' r,
    clean_data parse_decimal 0%nat true "drop" false [survey]
    = Ok ((l, st), h')
    /\ h' !! l = Some r
    /\ (forall x, In x (rows r) ->
          In x (rows survey) /\ forall c, In c (cells x) -> c <> Missing)
    /\ (forall i k a b, (i < k)%nat ->
          rows r !! i = Some a -> rows r !! k = Some b ->
          cells_eqb (cells b) (cells a) = false)
    /\ (forall x, In x (rows survey) ->
          (forall c, In c (cells x) -> c <> Missing) ->
          exists x', In x' (rows r) /\ cells_eqb (cells x) (cells x') = true).
Proof.
  apply (clean_data_drop_exact parse_decimal [survey] 0%nat survey).
  reflexivity.
Defined.

(** ** Filling numeric columns *)

(** [fillna] on the column itself; a row too short to have the column
    is out of reach of the update. *)
Lemma fillna_same (j : nat) (v : cell) (d : DataFrame) :
  v = Missing \/ Forall (fun r => (j < length (cells r))%nat) (rows d) ->
  col_values j (fillna j v d)
  = map (fun c => if isnull c then v else c) (col_values j d).
Proof.
  intros Hv. unfold col_values, fillna. simpl. rewrite !map_map.
  apply map_ext_in. intros r Hr.
  destruct (isnull (cell_at j r)) eqn:E; [| done].
  unfold cell_at in *. simpl.
  destruct (decide (j < length (cells r))%nat) as [Hlt | Hge].
  - by rewrite list_lookup_insert_eq.
  - destruct Hv as [-> | Hall].
    + rewrite list_insert_ge by lia. by rewrite lookup_ge_None_2 by lia.
    + rewrite Forall_forall in Hall. apply list_elem_of_In in Hr.
      specialize (Hall _ Hr). lia.
Qed.

Lemma fill_without_null (v : cell) (vs : list cell) :
  existsb isnull vs = false ->
  map (fun c => if isnull c then v else c) vs = vs.
Proof.
  induction vs as [| c vs IH]; simpl; [done |].
  intros H. apply orb_false_iff in H as [Hc Hvs].
  by rewrite Hc, IH.
Qed.

Lemma fillna_in_range (j a : nat) (v : cell) (d : DataFrame) :
  Forall (fun r => (j < length (cells r))%nat) (rows d) ->
  Forall (fun r => (j < length (cells r))%nat) (rows (fillna a v d)).
Proof.
  unfold fillna. simpl. rewrite !Forall_forall. intros H r Hr.
  apply list_elem_of_In, in_map_iff in Hr as (r0 & <- & Hr0).
  apply list_elem_of_In in Hr0. specialize (H _ Hr0).
  destruct (isnull (cell_at a r0)); simpl; [| done].
  by rewrite length_insert.
Qed.

(** The loop of the mean and median policies on one of its columns:
    the missing cells take the aggregate of the column as it was before
    the loop. *)
Lemma fill_numeric_fold_same (agg : list cell -> option Q) (js : list nat)
    (d : DataFrame) (n : Z) (j : nat) :
  NoDup js -> In j js ->
  agg (col_values j d) = None
  \/ Forall (fun r => (j < length (cells r))%nat) (rows d) ->
  col_values j (fst (foldl (fill_numeric_step agg) (d, n) js))
  = map (fun c => if isnull c then float_cell (agg (col_values j d)) else c)
        (col_values j d).
Proof.
  revert d n. induction js as [| a js IH]; intros d n Hnd Hin Hr; [done |].
  apply NoDup_cons in Hnd as [Ha Hnd]. rewrite list_elem_of_In in Ha.
  cbn [foldl]. unfold fill_numeric_step at 2.
  destruct Hin as [-> | Hin].
  - destruct (any_null j d) eqn:E.
    + destruct (fill_numeric_fold_other agg js
                  (fillna j (float_cell (agg (col_values j d))) d) (n + 1) j Ha)
        as [_ ->].
      apply fillna_same. destruct Hr as [-> | Hr]; [by left | by right].
    + destruct (fill_numeric_fold_other agg js d n j Ha) as [_ ->].
      symmetry. by apply fill_without_null.
  - assert (a <> j) as Hne by congruence.
    destruct (any_null a d); [| by apply IH].
    set (d1 := fillna a (float_cell (agg (col_values a d))) d).
    assert (col_values j d1 = col_values j d) as Hv by (by apply fillna_other).
    rewrite <- Hv. apply IH; [done | done |].
    rewrite Hv. destruct Hr as [Hr | Hr]; [by left | right].
    by apply fillna_in_range.
Qed.

Lemma fill_numeric_fold_count (agg : list cell -> option Q) (js : list nat)
    (d : DataFrame) (n : Z) :
  NoDup js ->
  snd (foldl (fill_numeric_step agg) (d, n) js)
  = n + Z.of_nat (length (List.filter (fun j => any_null j d) js)).
Proof.
  revert d n. induction js as [| a js IH]; intros d n Hnd; simpl; [lia |].
  apply NoDup_cons in Hnd as [Ha Hnd]. rewrite list_elem_of_In in Ha.
  destruct (any_null a d) eqn:E.
  - rewrite IH by done. simpl.
    rewrite (filter_ext_in
               (fun j => any_null j
                           (fillna a (float_cell (agg (col_values a d))) d))
               (fun j => any_null j d)).
    + lia.
    + intros j Hj. unfold any_null. rewrite fillna_other; [done |].
      congruence.
  - rewrite IH by done. lia.
Qed.

Lemma NoDup_select_positions (include : list dtype) (d : DataFrame) :
  NoDup (select_positions include d).
Proof. apply NoDup_list_filter, NoDup_seq. Qed.

Lemma deduplicated_columns (rd : bool) (d : DataFrame) :
  columns (deduplicated rd d) = columns d.
Proof. by destruct rd. Qed.

Lemma deduplicated_rows_In (rd : bool) (d : DataFrame) (r : row) :
  In r (rows (deduplicated rd d)) -> In r (rows d).
Proof.
  destruct rd; simpl; [apply drop_duplicate_rows_In | done].
Qed.

(** The conversion stage leaves a column that is not an object column
    as it is. *)
Lemma converted_other (parse : string -> option Q) (ct : bool)
    (d : DataFrame) (j : nat) (t : dtype) :
  col_dtype j d = Some t -> t <> Object ->
  col_values j (converted parse ct d) = col_values j d
  /\ col_dtype j (converted parse ct d) = Some t.
Proof.
  intros Ht Hne. destruct ct; simpl; [| done].
  destruct (auto_convert_column parse d 0 j) as (_ & Hv & Hd).
  unfold column_converts in Hv, Hd. rewrite Ht in Hv, Hd.
  by destruct t.
Qed.



Lemma aggregates_of_nothing (vs : list cell) :
  numbers vs = [] -> series_mean vs = None /\ series_median vs = None.
Proof. intros H. unfold series_mean, series_median. by rewrite H. Qed.

(** X6.  Under [fill_mean] and [fill_median], [missing_handled] is the
    number of numeric columns that hold a missing cell after duplicate
    removal.  A numeric column without any number in it is counted
    like the others although nothing can be filled: its values are
    the same after the call. *)
Theorem fill_mean_median_count (parse : string -> option Q)
    (h : heap) (df : ref) (d : DataFrame) (rd : bool) (hm : string)
    (ct : bool) :
  h !! df = Some d ->
  hm = "fill_mean" \/ hm = "fill_median" ->
  let d1 := deduplicated rd d in
  let with_nulls :=
    List.filter (fun j => any_null j d1)
                (select_positions [Int64; Float64] d1) in
  exists l st h' r,
    clean_data parse df rd hm ct h = Ok ((l, st), h')
    /\ h' !! l = Some r
    /\ missing_handled st = Z.of_nat (length with_nulls)
    /\ (forall j, In j with_nulls -> numbers (col_values j d1) = [] ->
                  col_values j r = col_values j d1).
Proof.
  intros Hd Hhm d1 with_nulls.
  destruct (clean_data_result parse h df d rd hm ct Hd) as (l & h' & Hrun & Hl).
  eexists l, _, h', _. split; [exact Hrun |]. split; [exact Hl |].
  unfold cleaned_stats, cleaned_frame. simpl. fold d1.
  split.
  - unfold missing_count.
    destruct Hhm as [-> | ->]; simpl; unfold fill_numeric;
      by rewrite fill_numeric_fold_count by apply NoDup_select_positions.
  - intros j Hj Hnone. apply filter_In in Hj as [Hj Hnull].
    pose proof Hj as Hj'.
    apply In_select_positions in Hj' as (t & Ht & Hnum).
    assert (t <> Object) as Hno by (simpl in Hnum; intuition congruence).
    assert (col_dtype j (missing_frame hm d1) = Some t) as Ht2.
    { unfold col_dtype. by destruct (missing_frame_shape hm d1) as [-> _]. }
    destruct (converted_other parse ct _ j t Ht2 Hno) as [-> _].
    destruct (aggregates_of_nothing _ Hnone) as [Hmean Hmed].
    unfold missing_frame.
    destruct Hhm as [-> | ->]; simpl; unfold fill_numeric;
      rewrite fill_numeric_fold_same
        by (auto using NoDup_select_positions);
      rewrite ?Hmean, ?Hmed; simpl;
      clear; induction (col_values j d1) as [| c vs IH]; simpl;
      [done | by destruct c; rewrite IH | done | by destruct c; rewrite IH].
Qed.

Lemma fill_mean_median_count_witness :
  let d1 := deduplicated false empty_scores in
  let with_nulls :=
    List.filter (fun j => any_null j d1)
                (select_positions [Int64; Float64] d1) in
  exists l st h' r,
    clean_data parse_decimal 0%nat false "fill_median" false [empty_scores]
    = Ok ((l, st), h')
    /\ h' !! l = Some r
    /\ missing_handled st = Z.of_nat (length with_nulls)
    /\ (forall j, In j with_nulls -> numbers (col_values j d1) = [] ->
                  col_values j r = col_values j d1).
Proof.
  apply (fill_mean_median_count parse_decimal [empty_scores] 0%nat
           empty_scores false "fill_median" false).
  - reflexivity.
  - by right.
Defined.

(** ** The mode policy *)

Lemma In_insert_sorted {A} (leb : A -> A -> bool) (x y : A) (l : list A) :
  In y (insert_sorted leb x l) <-> y = x \/ In y l.
Proof.
  induction l as [| z l IH]; simpl; [intuition |].
  destruct (leb x z); simpl; [intuition |]. rewrite IH. intuition.
Qed.

Lemma In_sort_by {A} (leb : A -> A -> bool) (y : A) (l : list A) :
  In y (sort_by leb l) <-> In y l.
Proof.
  unfold sort_by. induction l as [| x l IH]; simpl; [done |].
  rewrite In_insert_sorted, IH. intuition.
Qed.

Lemma cell_eqb_compat (u v w : cell) :
  cell_eqb u v = true -> cell_eqb u w = cell_eqb v w.
Proof.
  destruct u, v; simpl; try done; destruct w; simpl; try done.
  - intros H. apply Qeq_bool_iff in H.
    destruct (Qeq_bool q q1) eqn:E1, (Qeq_bool q0 q1) eqn:E2; try done.
    + apply Qeq_bool_iff in E1. apply Qeq_bool_neq in E2.
      exfalso. apply E2. by rewrite <- H.
    + apply Qeq_bool_iff in E2. apply Qeq_bool_neq in E1.
      exfalso. apply E1. by rewrite H.
  - intros H. apply String.eqb_eq in H. by subst.
  - intros H. apply Bool.eqb_prop in H. by subst.
  - intros H. apply Z.eqb_eq in H. by subst.
Qed.

Lemma count_cell_compat (u v : cell) (vs : list cell) :
  cell_eqb u v = true -> count_cell u vs = count_cell v vs.
Proof.
  intros H. unfold count_cell. f_equal. apply filter_ext.
  intros w. by apply cell_eqb_compat.
Qed.

Lemma unique_cells_In (vs : list cell) (u : cell) :
  In u (unique_cells vs) -> In u vs.
Proof.
  induction vs as [| v vs IH]; simpl; [done |].
  intros [-> | H]; [by left |]. apply filter_In in H as [H _]. auto.
Qed.

(** Every value has a representative among the distinct values. *)
Lemma unique_cells_covers (vs : list cell) (x : cell) :
  In x vs -> exists u, In u (unique_cells vs) /\ cell_eqb u x = true.
Proof.
  induction vs as [| v vs IH]; simpl; [done |].
  intros [-> | Hx]; [exists x; split; [by left | apply cell_eqb_refl] |].
  destruct (IH Hx) as (u & Hu & He).
  destruct (cell_eqb v u) eqn:E.
  - exists v. split; [by left |].
    by rewrite (cell_eqb_compat v u x E).
  - exists u. split; [| done]. right. apply filter_In. by rewrite E.
Qed.

Lemma max_count_bound (f : cell -> nat) (vs : list cell) (w : cell) :
  In w vs -> (f w <= foldr Nat.max O (map f vs))%nat.
Proof.
  induction vs as [| v vs IH]; simpl; [done |].
  intros [-> | H]; [lia |]. specialize (IH H). lia.
Qed.

Lemma max_count_attained (f : cell -> nat) (vs : list cell) :
  vs <> [] -> exists v, In v vs /\ f v = foldr Nat.max O (map f vs).
Proof.
  induction vs as [| v vs IH]; [done |]. intros _. simpl.
  destruct vs as [| v' vs'].
  - exists v. split; [by left | simpl; lia].
  - destruct IH as (u & Hu & He); [done |].
    destruct (Nat.max_spec (f v) (foldr Nat.max O (map f (v' :: vs'))))
      as [[_ Hm] | [_ Hm]]; rewrite Hm.
    + exists u. split; [by right | done].
    + exists v. split; [by left | done].
Qed.

(** [Series.mode()] is empty exactly on a series without a present
    value; each of its values is a present value, and no present value
    occurs more often. *)
Lemma series_mode_spec (vs : list cell) :
  (List.filter notna vs = [] -> series_mode vs = [])
  /\ (List.filter notna vs <> [] -> series_mode vs <> [])
  /\ (forall m, In m (series_mode vs) ->
        In m (List.filter notna vs)
        /\ forall w, In w (List.filter notna vs) ->
             (count_cell w (List.filter notna vs)
              <= count_cell m (List.filter notna vs))%nat).
Proof.
  unfold series_mode. set (present := List.filter notna vs).
  set (best := foldr Nat.max O
                 (map (fun v => count_cell v present) present)).
  split; [| split].
  - intros H. by rewrite H.
  - intros Hne Hnil.
    destruct (max_count_attained (fun v => count_cell v present)
                present Hne) as (v & Hv & Hc).
    destruct (unique_cells_covers present v Hv) as (u & Hu & He).
    assert (In u (sort_by cell_leb
                    (List.filter
                       (fun v => Nat.eqb (count_cell v present) best)
                       (unique_cells present)))) as Hin.
    { apply In_sort_by, filter_In. split; [done |].
      apply Nat.eqb_eq. by rewrite (count_cell_compat u v present He). }
    by rewrite Hnil in Hin.
  - intros m Hm. apply In_sort_by, filter_In in Hm as [Hm Hc].
    apply Nat.eqb_eq in Hc. split; [by apply unique_cells_In |].
    intros w Hw. rewrite Hc.
    apply (max_count_bound (fun v => count_cell v present) present w Hw).
Qed.

Lemma fillna_missing_cell (j : nat) (r : row) :
  isnull (cell_at j r) = true ->
  Row (label r) (<[j := Missing]> (cells r)) = r.
Proof.
  unfold cell_at. intros H. destruct r as [lbl cs]. simpl in *. f_equal.
  destruct (cs !! j) as [c |] eqn:E.
  - apply list_insert_id. by destruct c.
  - apply list_insert_ge. by apply lookup_ge_None.
Qed.

Lemma fill_mode_step_other (st : mode_state) (a j : nat) :
  a <> j ->
  col_values j (mode_frame (fill_mode_step st a))
  = col_values j (mode_frame st).
Proof.
  intros Hne. unfold fill_mode_step.
  destruct (any_null a (mode_frame st)); [| done].
  destruct (series_mode _) as [| m ms]; [done |].
  destruct (col_dtype a _) as [t |]; [| done].
  destruct (dtype_in t _); simpl; by apply fillna_other.
Qed.

Lemma fill_mode_fold_other (js : list nat) (st : mode_state) (j : nat) :
  ~ In j js ->
  col_values j (mode_frame (foldl fill_mode_step st js))
  = col_values j (mode_frame st).
Proof.
  revert st. induction js as [| a js IH]; intros st Hni; simpl; [done |].
  simpl in Hni. rewrite IH by tauto. apply fill_mode_step_other. tauto.
Qed.

Lemma present_values_empty (vs : list cell) :
  List.filter notna vs = [] <-> forallb isnull vs = true.
Proof.
  induction vs as [| c vs IH]; simpl; [done |].
  destruct c; simpl; done.
Qed.

Lemma series_mode_empty (vs : list cell) :
  series_mode vs = [] <-> forallb isnull vs = true.
Proof.
  rewrite <- present_values_empty.
  destruct (series_mode_spec vs) as (H1 & H2 & _). split; [| done].
  intros H. destruct (List.filter notna vs) eqn:E; [done |].
  exfalso. by apply H2.
Qed.

Lemma mode_filled_without_null (vs : list cell) :
  existsb isnull vs = false -> mode_filled vs = vs.
Proof.
  intros H. unfold mode_filled. destruct (series_mode vs); [done |].
  by apply fill_without_null.
Qed.

Lemma fill_mode_step_same (st : mode_state) (j : nat) :
  (j < length (columns (mode_frame st)))%nat ->
  series_mode (col_values j (mode_frame st)) = []
  \/ Forall (fun r => (j < length (cells r))%nat) (rows (mode_frame st)) ->
  col_values j (mode_frame (fill_mode_step st j))
  = mode_filled (col_values j (mode_frame st)).
Proof.
  intros Hlt Hr. unfold fill_mode_step.
  destruct (any_null j (mode_frame st)) eqn:E;
    [| symmetry; by apply mode_filled_without_null].
  unfold mode_filled.
  destruct (series_mode (col_values j (mode_frame st))) as [| m ms] eqn:Em;
    [done |].
  assert (exists t, col_dtype j (fillna j m (mode_frame st)) = Some t)
    as [t ->].
  { unfold col_dtype. simpl.
    destruct (lookup_lt_is_Some_2 _ _ Hlt) as [[n t] ->]. by exists t. }
  destruct Hr as [Hr | Hr]; [done |].
  destruct (dtype_in t _); simpl; apply fillna_same; by right.
Qed.

Lemma fill_mode_step_in_range (st : mode_state) (a j : nat) :
  Forall (fun r => (j < length (cells r))%nat) (rows (mode_frame st)) ->
  Forall (fun r => (j < length (cells r))%nat)
         (rows (mode_frame (fill_mode_step st a))).
Proof.
  intros H. unfold fill_mode_step.
  destruct (any_null a (mode_frame st)); [| done].
  destruct (series_mode _) as [| m ms]; [done |].
  destruct (col_dtype a _) as [t |]; [| done].
  destruct (dtype_in t _); simpl; by apply fillna_in_range.
Qed.

Lemma fill_mode_fold_same (js : list nat) (st : mode_state) (j : nat) :
  NoDup js -> In j js ->
  (j < length (columns (mode_frame st)))%nat ->
  series_mode (col_values j (mode_frame st)) = []
  \/ Forall (fun r => (j < length (cells r))%nat) (rows (mode_frame st)) ->
  col_values j (mode_frame (foldl fill_mode_step st js))
  = mode_filled (col_values j (mode_frame st)).
Proof.
  revert st. induction js as [| a js IH]; intros st Hnd Hin Hlt Hr; [done |].
  apply NoDup_cons in Hnd as [Ha Hnd]. rewrite list_elem_of_In in Ha.
  cbn [foldl]. destruct Hin as [-> | Hin].
  - rewrite fill_mode_fold_other by done. by apply fill_mode_step_same.
  - assert (a <> j) as Hne by congruence.
    rewrite <- (fill_mode_step_other st a j Hne).
    apply IH; [done | done | |].
    + by destruct (fill_mode_step_shape st a) as [-> _].
    + rewrite (fill_mode_step_other st a j Hne).
      destruct Hr as [Hr | Hr]; [by left | right].
      by apply fill_mode_step_in_range.
Qed.

Lemma bool_count_step (b : bool) (n : Z) :
  (if b then n + 1 else n) = n + Z.of_nat (if b then 1 else 0).
Proof. destruct b; lia. Qed.

(** The three counters after one turn of the loop. *)
Lemma fill_mode_step_counts (st : mode_state) (j : nat) :
  (j < length (columns (mode_frame st)))%nat ->
  let d := mode_frame st in
  mode_handled (fill_mode_step st j)
  = mode_handled st + Z.of_nat (if mode_fills d j then 1 else 0)
  /\ numeric_filled (fill_mode_step st j)
     = numeric_filled st
       + Z.of_nat (if mode_fills d j && numeric_position d j then 1 else 0)
  /\ categorical_filled (fill_mode_step st j)
     = categorical_filled st
       + Z.of_nat (if mode_fills d j && negb (numeric_position d j)
                   then 1 else 0).
Proof.
  intros Hlt d. unfold fill_mode_step, mode_fills, numeric_position.
  fold d. destruct (any_null j d) eqn:E; simpl; [| lia].
  destruct (series_mode (col_values j d)) as [| m ms] eqn:Em.
  - apply series_mode_empty in Em. rewrite Em. simpl. lia.
  - assert (forallb isnull (col_values j d) = false) as ->.
    { destruct (forallb isnull (col_values j d)) eqn:F; [| done].
      apply series_mode_empty in F. congruence. }
    unfold col_dtype. simpl.
    destruct (lookup_lt_is_Some_2 _ _ Hlt) as [[n t] Hnt].
    fold d in Hnt. rewrite Hnt. simpl.
    destruct (dtype_eqb t Int64 || (dtype_eqb t Float64 || false));
      simpl; lia.
Qed.

Lemma fill_mode_fold_counts (js : list nat) (st : mode_state) :
  NoDup js ->
  (forall j, In j js -> (j < length (columns (mode_frame st)))%nat) ->
  let d := mode_frame st in
  let r := foldl fill_mode_step st js in
  mode_handled r
  = mode_handled st + Z.of_nat (length (List.filter (mode_fills d) js))
  /\ numeric_filled r
     = numeric_filled st
       + Z.of_nat (length (List.filter
                             (fun j => mode_fills d j && numeric_position d j)
                             js))
  /\ categorical_filled r
     = categorical_filled st
       + Z.of_nat (length (List.filter
                             (fun j => mode_fills d j
                                       && negb (numeric_position d j)) js)).
Proof.
  revert st. induction js as [| a js IH]; intros st Hnd Hlt; simpl;
    [lia |].
  apply NoDup_cons in Hnd as [Ha Hnd]. rewrite list_elem_of_In in Ha.
  destruct (fill_mode_step_counts st a) as (H1 & H2 & H3);
    [apply Hlt; by left |].
  destruct (fill_mode_step_shape st a) as [Hc _].
  destruct (IH (fill_mode_step st a) Hnd) as (I1 & I2 & I3).
  { intros j Hj. rewrite Hc. apply Hlt. by right. }
  assert (forall j, In j js ->
            mode_fills (mode_frame (fill_mode_step st a)) j
            = mode_fills (mode_frame st) j
            /\ numeric_position (mode_frame (fill_mode_step st a)) j
               = numeric_position (mode_frame st) j) as Hsame.
  { intros j Hj. assert (a <> j) as Hne by congruence.
    unfold mode_fills, any_null, numeric_position, col_dtype.
    by rewrite (fill_mode_step_other st a j Hne), Hc. }
  rewrite I1, I2, I3, H1, H2, H3.
  rewrite (filter_ext_in _ (mode_fills (mode_frame st)) js)
    by (intros j Hj; by destruct (Hsame j Hj) as [-> _]).
  rewrite (filter_ext_in
             (fun j => mode_fills (mode_frame (fill_mode_step st a)) j
                       && numeric_position
                            (mode_frame (fill_mode_step st a)) j)
             (fun j => mode_fills (mode_frame st) j
                       && numeric_position (mode_frame st) j) js)
    by (intros j Hj; by destruct (Hsame j Hj) as [-> ->]).
  rewrite (filter_ext_in
             (fun j => mode_fills (mode_frame (fill_mode_step st a)) j
                       && negb (numeric_position
                                  (mode_frame (fill_mode_step st a)) j))
             (fun j => mode_fills (mode_frame st) j
                       && negb (numeric_position (mode_frame st) j)) js)
    by (intros j Hj; by destruct (Hsame j Hj) as [-> ->]).
  destruct (mode_fills (mode_frame st) a),
    (numeric_position (mode_frame st) a); simpl; lia.
Qed.

Lemma all_missing_numeric (parse : string -> option Q) (vs : list cell) :
  forallb isnull vs = true ->
  map float_cell (map (to_numeric parse) vs) = vs.
Proof.
  induction vs as [| c vs IH]; simpl; [done |].
  destruct c; simpl; try done. intros H. by rewrite IH.
Qed.

Lemma fill_mode_column (d : DataFrame) (n : Z) (j : nat) :
  series_mode (col_values j d) = []
  \/ Forall (fun r => (j < length (cells r))%nat) (rows d) ->
  col_values j (mode_frame (fill_mode d n))
  = if decide (j < length (columns d))%nat
    then mode_filled (col_values j d) else col_values j d.
Proof.
  intros Hr. unfold fill_mode. destruct (decide _) as [Hlt | Hge].
  - apply (fill_mode_fold_same _ (ModeState d n 0 0)); simpl;
      [apply NoDup_seq | apply in_seq; lia | done | done].
  - apply (fill_mode_fold_other _ (ModeState d n 0 0)).
    rewrite in_seq. lia.
Qed.

Lemma fill_mode_counts (d : DataFrame) :
  let js := seq 0 (length (columns d)) in
  mode_handled (fill_mode d 0)
  = Z.of_nat (length (List.filter (mode_fills d) js))
  /\ numeric_filled (fill_mode d 0)
     = Z.of_nat (length (List.filter
                           (fun j => mode_fills d j && numeric_position d j)
                           js))
  /\ categorical_filled (fill_mode d 0)
     = Z.of_nat (length (List.filter
                           (fun j => mode_fills d j
                                     && negb (numeric_position d j)) js)).
Proof.
  intros js. unfold fill_mode. fold js.
  destruct (fill_mode_fold_counts js (ModeState d 0 0 0)) as (H1 & H2 & H3).
  - apply NoDup_seq.
  - intros j Hj. apply in_seq in Hj. simpl. lia.
  - split; [| split]; [rewrite H1 | rewrite H2 | rewrite H3];
      apply Z.add_0_l.
Qed.

(** X7.  Under [fill_mode], [missing_handled] is the number of columns
    that hold both a missing cell and a present value after duplicate
    removal.  A column without any present value has no mode: it is
    left as it is and is not counted. *)
Theorem fill_mode_skips_empty_columns (parse : string -> option Q)
    (h : heap) (df : ref) (d : DataFrame) (rd : bool) (ct : bool) :
  h !! df = Some d ->
  let d1 := deduplicated rd d in
  exists l st h' r,
    clean_data parse df rd "fill_mode" ct h = Ok ((l, st), h')
    /\ h' !! l = Some r
    /\ missing_handled st
       = Z.of_nat (length (List.filter (mode_fills d1)
                                       (seq 0 (length (columns d1)))))
    /\ (forall j, forallb isnull (col_values j d1) = true ->
                  mode_fills d1 j = false
                  /\ col_values j r = col_values j d1).
Proof.
  intros Hd d1.
  destruct (clean_data_result parse h df d rd "fill_mode" ct Hd)
    as (l & h' & Hrun & Hl).
  eexists l, _, h', _. split; [exact Hrun |]. split; [exact Hl |].
  split; [apply fill_mode_counts |].
  intros j Hall. split; [unfold mode_fills; by rewrite Hall, andb_false_r |].
  unfold cleaned_frame. fold d1.
  change (missing_frame "fill_mode" d1) with (mode_frame (fill_mode d1 0)).
  set (d2 := mode_frame (fill_mode d1 0)).
  assert (col_values j d2 = col_values j d1) as Hv.
  { unfold d2. rewrite fill_mode_column
      by (left; by apply series_mode_empty).
    destruct (decide _); [| done]. unfold mode_filled.
    by rewrite (proj2 (series_mode_empty _) Hall). }
  destruct ct; simpl; [| done].
  destruct (auto_convert_column parse d2 0 j) as (_ & -> & _).
  rewrite Hv. destruct (column_converts parse d2 j); [| done].
  by apply all_missing_numeric.
Qed.

Lemma fill_mode_skips_empty_columns_witness :
  let d1 := deduplicated true empty_scores in
  exists l st h' r,
    clean_data parse_decimal 0%nat true "fill_mode" true [empty_scores]
    = Ok ((l, st), h')
    /\ h' !! l = Some r
    /\ missing_handled st
       = Z.of_nat (length (List.filter (mode_fills d1)
                                       (seq 0 (length (columns d1)))))
    /\ (forall j, forallb isnull (col_values j d1) = true ->
                  mode_fills d1 j = false
                  /\ col_values j r = col_values j d1).
Proof.
  apply (fill_mode_skips_empty_columns parse_decimal [empty_scores] 0%nat
           empty_scores true true).
  reflexivity.
Defined.

(** X8.  Under [fill_mode], in a column with at least one present
    value (of a frame whose rows all have that column; with type
    conversion on, a column that is not an object column), every
    missing cell takes one and the same value [m]: a present value of
    the column after duplicate removal that no other present value
    outnumbers.  The present cells keep their values and no missing
    cell is left in the column. *)
Theorem fill_mode_fills_most_frequent (parse : string -> option Q)
    (h : heap) (df : ref) (d : DataFrame) (rd : bool) (ct : bool)
    (j : nat) (t : dtype) :
  h !! df = Some d ->
  col_dtype j d = Some t ->
  ct = false \/ t <> Object ->
  Forall (fun r => (j < length (cells r))%nat) (rows d) ->
  let before := col_values j (deduplicated rd d) in
  let present := List.filter notna before in
  present <> [] ->
  exists l st h' r m,
    clean_data parse df rd "fill_mode" ct h = Ok ((l, st), h')
    /\ h' !! l = Some r
    /\ In m present
    /\ (forall w, In w present ->
          (count_cell w present <= count_cell m present)%nat)
    /\ col_values j r = map (fun c => if isnull c then m else c) before
    /\ ~ In Missing (col_values j r).
Proof.
  intros Hd Ht Hct Hrange before present Hne.
  destruct (clean_data_result parse h df d rd "fill_mode" ct Hd)
    as (l & h' & Hrun & Hl).
  set (d1 := deduplicated rd d) in *.
  destruct (series_mode_spec before) as (_ & Hnonempty & Hmode).
  fold present in Hnonempty, Hmode.
  destruct (series_mode before) as [| m ms] eqn:Em; [by apply Hnonempty in Hne |].
  destruct (Hmode m) as [Hin Hmax]; [by left |].
  eexists l, _, h', _, m. split; [exact Hrun |]. split; [exact Hl |].
  split; [exact Hin |]. split; [exact Hmax |].
  assert (Forall (fun r => (j < length (cells r))%nat) (rows d1)) as Hr1.
  { rewrite Forall_forall in *. intros r Hr. apply Hrange.
    apply list_elem_of_In, deduplicated_rows_In in Hr.
    by apply list_elem_of_In. }
  assert (col_dtype j d1 = Some t) as Ht1
    by (unfold col_dtype, d1; by rewrite deduplicated_columns).
  assert (j < length (columns d1))%nat as Hlt.
  { unfold col_dtype in Ht1. destruct (columns d1 !! j) eqn:E; [| done].
    by apply lookup_lt_Some in E. }
  unfold cleaned_frame. fold d1.
  change (missing_frame "fill_mode" d1) with (mode_frame (fill_mode d1 0)).
  set (d2 := mode_frame (fill_mode d1 0)).
  assert (col_values j d2
          = map (fun c => if isnull c then m else c) before) as Hv.
  { unfold d2. rewrite fill_mode_column by (by right).
    destruct (decide _); [| lia]. unfold mode_filled. fold before.
    by rewrite Em. }
  assert (col_values j (converted parse ct d2) = col_values j d2) as Hc.
  { destruct Hct as [-> | Hno]; [done |].
    apply (converted_other parse ct d2 j t); [| done].
    unfold col_dtype, d2. by destruct (fill_mode_shape d1 0) as [-> _]. }
  rewrite Hc. split; [exact Hv |].
  rewrite Hv. intros HM. apply in_map_iff in HM as (c & Hc' & _).
  apply filter_In in Hin as [_ Hm].
  destruct c; simpl in Hc'; subst; done.
Qed.

Lemma fill_mode_fills_most_frequent_witness :
  let before := col_values 0 (deduplicated true survey) in
  let present := List.filter notna before in
  exists l st h' r m,
    clean_data parse_decimal 0%nat true "fill_mode" false [survey]
    = Ok ((l, st), h')
    /\ h' !! l = Some r
    /\ In m present
    /\ (forall w, In w present ->
          (count_cell w present <= count_cell m present)%nat)
    /\ col_values 0 r = map (fun c => if isnull c then m else c) before
    /\ ~ In Missing (col_values 0 r).
Proof.
  apply (fill_mode_fills_most_frequent parse_decimal [survey] 0%nat survey
           true false 0%nat Object).
  - reflexivity.
  - reflexivity.
  - by left.
  - repeat constructor.
  - discriminate.
Defined.

(** X9.  Under [fill_mode] the report carries the note exactly when at
    least one of the filled columns is not an int64 or float64 column;
    the note gives the number of such columns and the number of
    numeric columns filled, and the two add up to [missing_handled].
    When only numeric columns were filled there is no note. *)
Theorem fill_mode_note (parse : string -> option Q) (h : heap) (df : ref)
    (d : DataFrame) (rd : bool) (ct : bool) :
  h !! df = Some d ->
  let d1 := deduplicated rd d in
  let js := seq 0 (length (columns d1)) in
  let numeric_count :=
    Z.of_nat (length (List.filter
                        (fun j => mode_fills d1 j && numeric_position d1 j)
                        js)) in
  let other_count :=
    Z.of_nat (length (List.filter
                        (fun j => mode_fills d1 j
                                  && negb (numeric_position d1 j)) js)) in
  exists l st h',
    clean_data parse df rd "fill_mode" ct h = Ok ((l, st), h')
    /\ missing_handled st = numeric_count + other_count
    /\ warnings st
       = (if (0 <? other_count)%Z
          then [mode_note other_count numeric_count] else []).
Proof.
  intros Hd d1 js numeric_count other_count.
  destruct (clean_data_result parse h df d rd "fill_mode" ct Hd)
    as (l & h' & Hrun & Hl).
  eexists l, _, h'. split; [exact Hrun |].
  destruct (fill_mode_counts d1) as (H1 & H2 & H3).
  fold js in H1, H2, H3. fold numeric_count in H2. fold other_count in H3.
  unfold cleaned_stats. simpl. fold d1.
  unfold missing_count, missing_warnings. simpl.
  rewrite H1, H2, H3. split; [| done].
  subst numeric_count other_count. clear.
  induction js as [| j js IH]; simpl; [done |].
  destruct (mode_fills d1 j), (numeric_position d1 j); simpl; lia.
Qed.

Lemma fill_mode_note_witness :
  let d1 := deduplicated true survey in
  let js := seq 0 (length (columns d1)) in
  let numeric_count :=
    Z.of_nat (length (List.filter
                        (fun j => mode_fills d1 j && numeric_position d1 j)
                        js)) in
  let other_count :=
    Z.of_nat (length (List.filter
                        (fun j => mode_fills d1 j
                                  && negb (numeric_position d1 j)) js)) in
  exists l st h',
    clean_data parse_decimal 0%nat true "fill_mode" true [survey]
    = Ok ((l, st), h')
    /\ missing_handled st = numeric_count + other_count
    /\ warnings st
       = (if (0 <? other_count)%Z
          then [mode_note other_count numeric_count] else []).
Proof.
  apply (fill_mode_note parse_decimal [survey] 0%nat survey true true).
  reflexivity.
Defined.

(** * Further properties of the outlier detector *)

Lemma index_of_Some (name : string) (cs : list (string * dtype)) (j : nat) :
  index_of name cs = Some j -> exists t, cs !! j = Some (name, t).
Proof.
  revert j. induction cs as [| [n t] cs IH]; intros j; simpl; [done |].
  destruct (String.eqb name n) eqn:E.
  - intros H. inversion H; subst. apply String.eqb_eq in E. subst.
    by exists t.
  - destruct (index_of name cs) as [i |]; [| done].
    intros H. inversion H; subst. simpl. by apply IH.
Qed.

(** The outcomes of [detect_outliers], read along its branches. *)
Lemma detect_outliers_cases (df : DataFrame) (column method : string) :
  match index_of column (columns df) with
  | None => detect_outliers df column method = Ok None
  | Some j =>
      match col_dtype j df with
      | None => False
      | Some t =>
          if dtype_in t [Int64; Float64]
          then if String.eqb method "iqr"
               then match List.filter notna (col_values j df) with
                    | [] => detect_outliers df column method
                            = Raise ZeroDivisionError
                    | _ => exists out st,
                        detect_outliers df column method
                        = Ok (Some (out, st))
                    end
               else detect_outliers df column method = Ok None
          else detect_outliers df column method = Ok None
      end
  end.
Proof.
  unfold detect_outliers.
  destruct (index_of column (columns df)) as [j |] eqn:Ej; [| done].
  destruct (index_of_Some _ _ _ Ej) as [t Ht].
  unfold col_dtype. rewrite Ht. simpl.
  destruct (dtype_eqb t Int64 || (dtype_eqb t Float64 || false)); [| done].
  simpl. destruct (String.eqb method "iqr"); [| done].
  destruct (List.filter notna (col_values j df)) as [| c cs]; [done |].
  simpl. by eexists _, _.
Qed.

Lemma outcome_not_applicable
    (r : result (option (DataFrame * outlier_stats))) (method : string)
    (applicable empty : Prop) :
  r = Ok None -> ~ applicable \/ method <> "iqr" ->
  (forall e, r = Raise e
             <-> e = ZeroDivisionError /\ method = "iqr"
                 /\ applicable /\ empty)
  /\ (r = Ok None <-> ~ applicable \/ method <> "iqr")
  /\ ((exists out st, r = Ok (Some (out, st)))
      <-> method = "iqr" /\ applicable /\ ~ empty).
Proof.
  intros -> F. split; [| split].
  - intros e. split; [done | tauto].
  - tauto.
  - split; [intros (out & st & H); done | tauto].
Qed.

Lemma outcome_raise
    (r : result (option (DataFrame * outlier_stats))) (method : string)
    (applicable empty : Prop) :
  r = Raise ZeroDivisionError -> method = "iqr" -> applicable -> empty ->
  (forall e, r = Raise e
             <-> e = ZeroDivisionError /\ method = "iqr"
                 /\ applicable /\ empty)
  /\ (r = Ok None <-> ~ applicable \/ method <> "iqr")
  /\ ((exists out st, r = Ok (Some (out, st)))
      <-> method = "iqr" /\ applicable /\ ~ empty).
Proof.
  intros -> Hm Ha He. split; [| split].
  - intros e. split; [intros H; by inversion H | by intros (-> & _)].
  - split; [done | tauto].
  - split; [intros (out & st & H); done | tauto].
Qed.

Lemma outcome_statistics
    (r : result (option (DataFrame * outlier_stats))) (method : string)
    (applicable empty : Prop) :
  (exists out st, r = Ok (Some (out, st))) ->
  method = "iqr" -> applicable -> ~ empty ->
  (forall e, r = Raise e
             <-> e = ZeroDivisionError /\ method = "iqr"
                 /\ applicable /\ empty)
  /\ (r = Ok None <-> ~ applicable \/ method <> "iqr")
  /\ ((exists out st, r = Ok (Some (out, st)))
      <-> method = "iqr" /\ applicable /\ ~ empty).
Proof.
  intros (out & st & ->) Hm Ha He. split; [| split].
  - intros e. split; [done | tauto].
  - split; [done | tauto].
  - split; [tauto | intros _; by eexists _, _].
Qed.

(** X10.  [detect_outliers] raises in exactly one situation: the method
    is ['iqr'], the column exists and is int64 or float64, and it holds
    no present value; the exception is then [ZeroDivisionError].  It
    returns the not-applicable pair exactly when the column is absent
    or not numeric or the method is not ['iqr']; in every remaining
    case it returns a frame and statistics. *)
Theorem detect_outliers_outcomes (df : DataFrame) (column method : string) :
  let applicable :=
    exists j t, index_of column (columns df) = Some j
                /\ col_dtype j df = Some t /\ In t [Int64; Float64] in
  let empty :=
    exists j, index_of column (columns df) = Some j
              /\ List.filter notna (col_values j df) = [] in
  (forall e, detect_outliers df column method = Raise e
             <-> e = ZeroDivisionError /\ method = "iqr"
                 /\ applicable /\ empty)
  /\ (detect_outliers df column method = Ok None
      <-> ~ applicable \/ method <> "iqr")
  /\ ((exists out st, detect_outliers df column method = Ok (Some (out, st)))
      <-> method = "iqr" /\ applicable /\ ~ empty).
Proof.
  intros applicable empty.
  pose proof (detect_outliers_cases df column method) as Hc.
  destruct (index_of column (columns df)) as [j |] eqn:Ej.
  2:{ apply outcome_not_applicable; [done | left].
      intros (j & t & H & _). done. }
  destruct (col_dtype j df) as [t |] eqn:Et; [| done].
  destruct (dtype_in t [Int64; Float64]) eqn:En.
  2:{ apply outcome_not_applicable; [done | left].
      intros (j' & t' & H1 & H2 & H3). inversion H1; subst j'.
      rewrite Et in H2. inversion H2; subst t'.
      apply dtype_in_In in H3. congruence. }
  assert applicable as Ha.
  { exists j, t. split; [done |]. split; [done | by apply dtype_in_In]. }
  destruct (String.eqb method "iqr") eqn:Em.
  2:{ apply String.eqb_neq in Em.
      apply outcome_not_applicable; [done | by right]. }
  apply String.eqb_eq in Em.
  destruct (List.filter notna (col_values j df)) as [| c cs] eqn:Ep.
  - apply outcome_raise; [done | done | done | by exists j].
  - apply outcome_statistics; [done | done | done |].
    intros (j' & H1 & H2). inversion H1; subst j'. congruence.
Qed.

Lemma filter_length_le {A} (p q : A -> bool) (l : list A) :
  (forall x, p x = true -> q x = true) ->
  (length (List.filter p l) <= length (List.filter q l))%nat.
Proof.
  intros H. induction l as [| x l IH]; simpl; [lia |].
  destruct (p x) eqn:E.
  - rewrite (H x E). simpl. lia.
  - destruct (q x); simpl; lia.
Qed.

Lemma flagged_present (j : nat) (lo hi : option Q) (r : row) :
  flagged j lo hi r = true -> notna (cell_at j r) = true.
Proof.
  intros H. destruct (cell_at j r) eqn:E; try done.
  by rewrite (flagged_missing j lo hi r E) in H.
Qed.

Lemma percentage_bounds (k n : Z) :
  0 <= k <= n -> 0 < n ->
  (0 <= inject_Z k / inject_Z n * 100)%Q
  /\ (inject_Z k / inject_Z n * 100 <= 100)%Q.
Proof.
  intros Hk Hn. destruct n as [| p | p]; try lia.
  unfold Qle, Qdiv, Qmult, Qinv, inject_Z. simpl. split; nia.
Qed.

(** X11.  When [detect_outliers] returns statistics, they are
    consistent: at least one value was examined, the number of
    outliers is the number of returned rows and lies between 0 and
    [total_values], and the percentage lies between 0 and 100. *)
Theorem detect_outliers_counts (df : DataFrame) (column method : string)
    (out : DataFrame) (st : outlier_stats) :
  detect_outliers df column method = Ok (Some (out, st)) ->
  0 < total_values st
  /\ outliers_count st = len out
  /\ 0 <= outliers_count st <= total_values st
  /\ (0 <= outliers_percentage st)%Q
  /\ (outliers_percentage st <= 100)%Q.
Proof.
  intros Hrun.
  destruct (proj1 (proj2 (proj2 (detect_outliers_outcomes df column method))))
    as (Hm & (j & t & Hj & Ht & Hnum) & Hne); [by eexists _, _ |].
  subst method.
  assert (List.filter notna (col_values j df) <> []) as Hp.
  { intros Hnil. apply Hne. by exists j. }
  destruct (detect_outliers_run df column j t Hj Ht Hnum Hp)
    as (out' & Hrun' & Hrows).
  rewrite Hrun in Hrun'. inversion Hrun'; subst out'. clear Hrun'.
  simpl.
  set (present := List.filter notna (col_values j df)) in *.
  set (kept := List.filter _ (rows df)) in *.
  assert (length kept <= length present)%nat as Hle.
  { unfold present. rewrite present_values_rows, length_map.
    apply filter_length_le. intros r. apply flagged_present. }
  assert (0 < length present)%nat as Hpos
    by (destruct present; [done | simpl; lia]).
  split; [lia |]. split.
  { unfold len. rewrite Hrows, length_map. reflexivity. }
  split; [lia |].
  apply percentage_bounds; lia.
Qed.

Lemma detect_outliers_counts_witness :
  exists out st,
    detect_outliers six_values "v" "iqr" = Ok (Some (out, st))
    /\ 0 < total_values st
    /\ outliers_count st = len out
    /\ 0 <= outliers_count st <= total_values st
    /\ (0 <= outliers_percentage st)%Q
    /\ (outliers_percentage st <= 100)%Q.
Proof.
  destruct (detect_outliers six_values "v" "iqr") as [[[out st] |] | e] eqn:E.
  - exists out, st. split; [reflexivity |].
    exact (detect_outliers_counts six_values "v" "iqr" out st E).
  - vm_compute in E. discriminate E.
  - vm_compute in E. discriminate E.
Defined.

(** ** Quantiles of a constant column *)

Lemma length_insert_sorted {A} (leb : A -> A -> bool) (x : A) (l : list A) :
  length (insert_sorted leb x l) = S (length l).
Proof.
  induction l as [| y l IH]; simpl; [done |].
  destruct (leb x y); simpl; by rewrite ?IH.
Qed.

Lemma length_sort_by {A} (leb : A -> A -> bool) (l : list A) :
  length (sort_by leb l) = length l.
Proof.
  unfold sort_by. induction l as [| x l IH]; simpl; [done |].
  by rewrite length_insert_sorted, IH.
Qed.

Lemma In_numbers (vs : list cell) (y : Q) :
  In y (numbers vs) <-> In (Num y) vs.
Proof.
  unfold numbers. induction vs as [| c vs IH]; simpl; [done |].
  destruct c; simpl; rewrite IH; intuition congruence.
Qed.

(** The position of a quantile [q <= 1] is inside the sorted list. *)
Lemma quantile_position (n : nat) (q : Q) :
  (q <= 1)%Q ->
  (Z.to_nat (Qfloor (inject_Z (Z.of_nat (n - 1)) * q)) <= n - 1)%nat.
Proof.
  intros Hq.
  assert (inject_Z (Z.of_nat (n - 1)) * q <= inject_Z (Z.of_nat (n - 1)))%Q
    as Hle.
  { unfold Qle, Qmult, inject_Z in *. simpl in *. nia. }
  apply Qfloor_resp_le in Hle. rewrite Qfloor_Z in Hle. lia.
Qed.

Lemma quantile_constant (xs : list Q) (q x : Q) :
  xs <> [] -> (forall y, In y xs -> (y == x)%Q) -> (q <= 1)%Q ->
  float_is (quantile xs q) x.
Proof.
  intros Hne Hall Hq. unfold quantile.
  pose proof (length_sort_by Qle_bool xs) as Hlen.
  assert (forall y, In y (sort_by Qle_bool xs) -> (y == x)%Q) as Hs
    by (intros y Hy; apply Hall; by apply In_sort_by in Hy).
  destruct (sort_by Qle_bool xs) as [| z s] eqn:Es.
  { destruct xs; [done | discriminate Hlen]. }
  set (n := length (z :: s)).
  set (lo := Z.to_nat (Qfloor (inject_Z (Z.of_nat (n - 1)) * q))).
  assert (lo <= n - 1)%nat as Hlo by (by apply quantile_position).
  assert (0 < n)%nat as Hn by (unfold n; simpl; lia).
  assert (nth lo (z :: s) 0 == x)%Q as Ha by (apply Hs, nth_In; lia).
  assert (nth (Nat.min (S lo) (n - 1)) (z :: s) 0 == x)%Q as Hb
    by (apply Hs, nth_In; lia).
  unfold float_is. rewrite Ha, Hb. ring.
Qed.

Lemma filter_none {A} (p : A -> bool) (l : list A) :
  (forall x, In x l -> p x = false) -> List.filter p l = [].
Proof.
  induction l as [| x l IH]; simpl; [done |]. intros H.
  rewrite (H x) by (by left). apply IH. intros y Hy. apply H. by right.
Qed.

(** X12.  On a numeric column whose present values are all equal to
    one number [x], the quartiles and both bounds are [x], the IQR is
    0, and no row is flagged: the comparisons with the bounds are
    strict. *)
Theorem detect_outliers_constant_column (df : DataFrame) (column : string)
    (j : nat) (t : dtype) (x : Q) :
  index_of column (columns df) = Some j ->
  col_dtype j df = Some t ->
  In t [Int64; Float64] ->
  (forall r, In r (rows df) ->
     cell_at j r = Missing \/ exists y, cell_at j r = Num y /\ (y == x)%Q) ->
  (exists r, In r (rows df) /\ cell_at j r <> Missing) ->
  exists out st,
    detect_outliers df column "iqr" = Ok (Some (out, st))
    /\ rows out = []
    /\ outliers_count st = 0
    /\ float_is (Q1 st) x /\ float_is (Q3 st) x
    /\ float_is (IQR st) 0
    /\ float_is (lower_bound st) x /\ float_is (upper_bound st) x.
Proof.
  intros Hj Ht Hnum Hall (r0 & Hr0 & Hp0).
  set (present := List.filter notna (col_values j df)).
  assert (forall y, In y (numbers present) -> (y == x)%Q) as Hnums.
  { intros y Hy. apply In_numbers, filter_In in Hy as [Hy _].
    apply in_map_iff in Hy as (r & Hr & Hin).
    destruct (Hall r Hin) as [Hm | (y' & Hy' & He)]; [congruence |].
    rewrite Hy' in Hr. by inversion Hr; subst. }
  assert (numbers present <> []) as Hne.
  { destruct (Hall r0 Hr0) as [Hm | (y & Hy & _)]; [done |].
    assert (In y (numbers present)) as Hin.
    { apply In_numbers, filter_In. split; [| done].
      rewrite <- Hy. by apply in_map. }
    intros Hnil. by rewrite Hnil in Hin. }
  assert (present <> []) as Hpne.
  { intros Hnil. apply Hne. by rewrite Hnil. }
  destruct (detect_outliers_run df column j t Hj Ht Hnum Hpne)
    as (out & Hrun & Hrows).
  fold present in Hrun, Hrows.
  pose proof (quantile_constant (numbers present) (1 # 4) x Hne Hnums) as H1.
  pose proof (quantile_constant (numbers present) (3 # 4) x Hne Hnums) as H3.
  destruct (quantile (numbers present) (1 # 4)) as [a |] eqn:Ea;
    [| by destruct H1].
  destruct (quantile (numbers present) (3 # 4)) as [b |] eqn:Eb;
    [| by destruct H3].
  simpl in H1, H3. specialize (H1 ltac:(done)). specialize (H3 ltac:(done)).
  simpl in Hrun, Hrows.
  set (lo := (a - (3 # 2) * (b - a))%Q) in *.
  set (hi := (b + (3 # 2) * (b - a))%Q) in *.
  assert (lo == x)%Q as Hlo by (unfold lo; rewrite H1, H3; ring).
  assert (hi == x)%Q as Hhi by (unfold hi; rewrite H1, H3; ring).
  assert (List.filter (flagged j (Some lo) (Some hi)) (rows df) = [])
    as Hkept.
  { apply filter_none. intros r Hr.
    destruct (flagged j (Some lo) (Some hi) r) eqn:F; [| done].
    apply flagged_iff in F as (y & Hy & Hb).
    destruct (Hall r Hr) as [Hm | (y' & Hy' & He)]; [congruence |].
    rewrite Hy in Hy'. inversion Hy'; subst y'.
    destruct Hb as [(c & Hc & Hlt) | (c & Hc & Hlt)];
      inversion Hc; subst c; exfalso.
    - rewrite He, Hlo in Hlt. by apply Qlt_irrefl in Hlt.
    - rewrite He, Hhi in Hlt. by apply Qlt_irrefl in Hlt. }
  rewrite Hkept in Hrun, Hrows.
  eexists out, _. split; [exact Hrun |]. simpl.
  split; [exact Hrows |]. split; [done |].
  split; [exact H1 |]. split; [exact H3 |].
  split; [rewrite H1, H3; ring |]. split; [exact Hlo | exact Hhi].
Qed.

Lemma detect_outliers_constant_column_witness :
  exists out st,
    detect_outliers
      (Frame [("k", Float64)] (mk_rows [[Num 7]; [Missing]; [Num (14 # 2)]]))
      "k" "iqr"
    = Ok (Some (out, st))
    /\ rows out = []
    /\ outliers_count st = 0
    /\ float_is (Q1 st) 7 /\ float_is (Q3 st) 7
    /\ float_is (IQR st) 0
    /\ float_is (lower_bound st) 7 /\ float_is (upper_bound st) 7.
Proof.
  apply (detect_outliers_constant_column _ "k" 0%nat Float64 7).
  - reflexivity.
  - reflexivity.
  - simpl. tauto.
  - simpl. intros r [<- | [<- | [<- | []]]].
    + right. by exists 7%Q.
    + by left.
    + right. by exists (14 # 2)%Q.
  - exists (Row 0 [Num 7]). split; [simpl; tauto | done].
Defined.

(** ** The order of the quartiles and the bounds *)

Lemma quantile_interpolate (xs : list Q) (q : Q) :
  quantile xs q
  = match sort_by Qle_bool xs with
    | [] => None
    | s => Some (interpolate s
                   (inject_Z (Z.of_nat (length s - 1)) * q))
    end.
Proof. unfold quantile. by destruct (sort_by Qle_bool xs). Qed.

Lemma insert_sorted_sorted (x : Q) (l : list Q) :
  StronglySorted Qle l -> StronglySorted Qle (insert_sorted Qle_bool x l).
Proof.
  induction 1 as [| y l Hs IH Hy]; simpl.
  { constructor; constructor. }
  destruct (Qle_bool x y) eqn:E.
  - apply Qle_bool_iff in E. constructor; [by constructor |].
    constructor; [done |].
    eapply Forall_impl; [exact Hy |]. intros z Hz. simpl in Hz.
    by apply Qle_trans with y.
  - assert (y <= x)%Q as Hyx.
    { apply Qlt_le_weak, Qnot_le_lt. intros Hle.
      apply Qle_bool_iff in Hle. congruence. }
    constructor; [exact IH |].
    apply Forall_forall. intros z Hz.
    apply list_elem_of_In, In_insert_sorted in Hz as [-> | Hz]; [done |].
    rewrite Forall_forall in Hy. by apply Hy, list_elem_of_In.
Qed.

Lemma sort_by_sorted (l : list Q) : StronglySorted Qle (sort_by Qle_bool l).
Proof.
  unfold sort_by. induction l as [| x l IH]; simpl; [constructor |].
  by apply insert_sorted_sorted.
Qed.

Lemma sorted_nth_le (s : list Q) (i k : nat) :
  StronglySorted Qle s -> (i <= k)%nat -> (k < length s)%nat ->
  (nth i s 0 <= nth k s 0)%Q.
Proof.
  intros Hs. revert i k. induction Hs as [| y l Hs IH Hy]; intros i k Hik Hk;
    [simpl in Hk; lia |].
  destruct k as [| k].
  - assert (i = O) as -> by lia. apply Qle_refl.
  - destruct i as [| i]; simpl.
    + rewrite Forall_forall in Hy. apply Hy, list_elem_of_In, nth_In.
      simpl in Hk. lia.
    + apply IH; simpl in Hk; lia.
Qed.

Lemma lerp_bounds (a b f : Q) :
  (a <= b)%Q -> (0 <= f)%Q -> (f <= 1)%Q ->
  (a <= a + (b - a) * f)%Q /\ (a + (b - a) * f <= b)%Q.
Proof. intros Hab Hf0 Hf1. split; nra. Qed.

Lemma lerp_monotone (a b f g : Q) :
  (a <= b)%Q -> (f <= g)%Q ->
  (a + (b - a) * f <= a + (b - a) * g)%Q.
Proof. intros Hab Hfg. nra. Qed.

(** The integer and fractional parts of a position inside the list. *)
Lemma position_parts (n : nat) (pos : Q) :
  (0 <= pos)%Q -> (pos <= inject_Z (Z.of_nat (n - 1)))%Q ->
  let lo := Z.to_nat (Qfloor pos) in
  (lo <= n - 1)%nat
  /\ inject_Z (Z.of_nat lo) = inject_Z (Qfloor pos)
  /\ (0 <= pos - inject_Z (Z.of_nat lo))%Q
  /\ (pos - inject_Z (Z.of_nat lo) <= 1)%Q.
Proof.
  intros H0 Hn lo.
  assert (0 <= Qfloor pos)%Z as Hf0.
  { apply Qfloor_resp_le in H0. exact H0. }
  assert (Qfloor pos <= Z.of_nat (n - 1))%Z as Hfn.
  { apply Qfloor_resp_le in Hn. by rewrite Qfloor_Z in Hn. }
  assert (Z.of_nat lo = Qfloor pos) as Hlo by (unfold lo; lia).
  split; [lia |]. split; [by rewrite Hlo |]. rewrite Hlo.
  pose proof (Qfloor_le pos) as H1. pose proof (Qlt_floor pos) as H2.
  rewrite inject_Z_plus in H2. change (inject_Z 1) with 1%Q in H2.
  split; lra.
Qed.

Lemma interpolate_between (s : list Q) (pos : Q) :
  StronglySorted Qle s -> (0 < length s)%nat ->
  (0 <= pos)%Q -> (pos <= inject_Z (Z.of_nat (length s - 1)))%Q ->
  let lo := Z.to_nat (Qfloor pos) in
  (nth lo s 0 <= interpolate s pos)%Q
  /\ (interpolate s pos <= nth (Nat.min (S lo) (length s - 1)) s 0)%Q.
Proof.
  intros Hs Hn H0 Hpos lo.
  destruct (position_parts (length s) pos H0 Hpos) as (Hlo & _ & Hf0 & Hf1).
  fold lo in Hlo, Hf0, Hf1. unfold interpolate. fold lo.
  apply lerp_bounds; [| done | done].
  apply sorted_nth_le; [done | lia | lia].
Qed.

Lemma interpolate_monotone (s : list Q) (p p' : Q) :
  StronglySorted Qle s -> (0 < length s)%nat ->
  (0 <= p)%Q -> (p <= p')%Q ->
  (p' <= inject_Z (Z.of_nat (length s - 1)))%Q ->
  (interpolate s p <= interpolate s p')%Q.
Proof.
  intros Hs Hn H0 Hpp Hp'.
  assert (0 <= p')%Q as H0' by lra.
  assert (p <= inject_Z (Z.of_nat (length s - 1)))%Q as Hp by lra.
  destruct (position_parts (length s) p H0 Hp) as (Hlo & Hi & Hf0 & Hf1).
  destruct (position_parts (length s) p' H0' Hp') as (Hlo' & Hi' & Hf0' & Hf1').
  pose proof (Qfloor_resp_le p p' Hpp) as Hfl.
  set (lo := Z.to_nat (Qfloor p)) in *.
  set (lo' := Z.to_nat (Qfloor p')) in *.
  assert (lo <= lo')%nat as Hll by (unfold lo, lo'; lia).
  destruct (decide (lo = lo')) as [Heq | Hne].
  - unfold interpolate. fold lo lo'. rewrite <- Heq.
    apply lerp_monotone.
    + apply sorted_nth_le; [done | lia | lia].
    + rewrite <- Heq in Hf0'. lra.
  - destruct (interpolate_between s p Hs Hn H0 Hp) as [_ Hb].
    destruct (interpolate_between s p' Hs Hn H0' Hp') as [Ha' _].
    fold lo in Hb. fold lo' in Ha'.
    apply Qle_trans with (nth (Nat.min (S lo) (length s - 1)) s 0%Q);
      [done |].
    apply Qle_trans with (nth lo' s 0%Q); [| done].
    apply sorted_nth_le; [done | lia | lia].
Qed.

Lemma quantile_monotone (xs : list Q) (q q' : Q) (a b : Q) :
  (0 <= q)%Q -> (q <= q')%Q -> (q' <= 1)%Q ->
  quantile xs q = Some a -> quantile xs q' = Some b -> (a <= b)%Q.
Proof.
  intros H0 Hqq H1. rewrite !quantile_interpolate.
  pose proof (sort_by_sorted xs) as Hs.
  destruct (sort_by Qle_bool xs) as [| z s] eqn:Es; [done |].
  intros Ha Hb. inversion Ha; subst a. inversion Hb; subst b.
  set (c := inject_Z (Z.of_nat (length (z :: s) - 1))).
  assert (0 <= c)%Q as Hc.
  { unfold c. change 0%Q with (inject_Z 0). rewrite <- Zle_Qle. lia. }
  assert (0 <= c * q)%Q by (clearbody c; nra).
  assert (c * q <= c * q')%Q by (clearbody c; nra).
  assert (c * q' <= c)%Q by (clearbody c; nra).
  apply interpolate_monotone; [done | simpl; lia | done | done | done].
Qed.

(** X13.  Whenever [detect_outliers] returns statistics with numeric
    quartiles, they are in order: Q1 <= Q3, the IQR is not negative,
    the lower bound is at most Q1 and the upper bound at least Q3. *)
Theorem detect_outliers_bounds_ordered (df : DataFrame)
    (column method : string) (out : DataFrame) (st : outlier_stats)
    (a b : Q) :
  detect_outliers df column method = Ok (Some (out, st)) ->
  Q1 st = Some a ->
  Q3 st = Some b ->
  exists i lo hi,
    IQR st = Some i /\ lower_bound st = Some lo /\ upper_bound st = Some hi
    /\ (0 <= i)%Q /\ (lo <= a)%Q /\ (a <= b)%Q /\ (b <= hi)%Q.
Proof.
  intros Hrun.
  destruct (proj1 (proj2 (proj2 (detect_outliers_outcomes df column method))))
    as (Hm & (j & t & Hj & Ht & Hnum) & Hne); [by eexists _, _ |].
  subst method.
  assert (List.filter notna (col_values j df) <> []) as Hp.
  { intros Hnil. apply Hne. by exists j. }
  destruct (detect_outliers_run df column j t Hj Ht Hnum Hp)
    as (out' & Hrun' & _).
  rewrite Hrun in Hrun'. inversion Hrun'; subst. clear Hrun'. simpl.
  intros Ha Hb. rewrite Ha, Hb. simpl.
  assert (a <= b)%Q as Hab.
  { apply (quantile_monotone _ (1 # 4) (3 # 4) a b) in Ha; done. }
  eexists _, _, _. repeat split; try reflexivity; nra.
Qed.

Lemma detect_outliers_bounds_ordered_witness :
  exists out st a b,
    detect_outliers gauge "level" "iqr" = Ok (Some (out, st))
    /\ Q1 st = Some a
    /\ Q3 st = Some b
    /\ exists i lo hi,
         IQR st = Some i /\ lower_bound st = Some lo
         /\ upper_bound st = Some hi
         /\ (0 <= i)%Q /\ (lo <= a)%Q /\ (a <= b)%Q /\ (b <= hi)%Q.
Proof.
  destruct (detect_outliers gauge "level" "iqr") as [[[out st] |] | e] eqn:E;
    [| vm_compute in E; discriminate E | vm_compute in E; discriminate E].
  destruct (Q1 st) as [a |] eqn:Ea;
    [| vm_compute in E; inversion E; subst; discriminate Ea].
  destruct (Q3 st) as [b |] eqn:Eb;
    [| vm_compute in E; inversion E; subst; discriminate Eb].
  exists out, st, a, b. split; [reflexivity |].
  split; [exact Ea |]. split; [exact Eb |].
  exact (detect_outliers_bounds_ordered gauge "level" "iqr" out st a b
           E Ea Eb).
Defined.

(** * Further properties of type conversion, classification and advice *)

Lemma convert_fold_count (parse : string -> option Q) (js : list nat)
    (d : DataFrame) (n : Z) :
  NoDup js ->
  snd (foldl (convert_step parse) (d, n) js)
  = n + Z.of_nat (length (List.filter (above_threshold parse d) js)).
Proof.
  revert d n. induction js as [| a js IH]; intros d n Hnd; [simpl; lia |].
  apply NoDup_cons in Hnd as [Ha Hnd]. rewrite list_elem_of_In in Ha.
  cbn [foldl]. rewrite convert_step_unfold. simpl List.filter.
  destruct (above_threshold parse d a) eqn:E.
  - rewrite IH by done. simpl length.
    rewrite (filter_ext_in
               (above_threshold parse
                  (set_column a
                     (converted_dtype
                        (map (to_numeric parse) (col_values a d)))
                     (map (numeric_cell parse) (col_values a d)) d))
               (above_threshold parse d)); [lia |].
    intros j Hj. assert (a <> j) as Hne by congruence.
    unfold above_threshold.
    by rewrite set_column_len, set_column_values_other.
  - rewrite IH by done. lia.
Qed.

Lemma filter_select_positions (parse : string -> option Q) (d : DataFrame)
    (l : list nat) :
  List.filter (above_threshold parse d)
    (List.filter (fun j => match col_dtype j d with
                           | Some t => dtype_in t [Object]
                           | None => false
                           end) l)
  = List.filter (column_converts parse d) l.
Proof.
  induction l as [| j l IH]; [done |]. cbn [List.filter].
  assert (column_converts parse d j
          = match col_dtype j d with
            | Some t => dtype_in t [Object] && above_threshold parse d j
            | None => false
            end) as ->.
  { unfold column_converts. by destruct (col_dtype j d) as [[] |]. }
  destruct (col_dtype j d) as [t |]; [| done].
  destruct (dtype_in t [Object]); cbn [List.filter andb]; by rewrite IH.
Qed.

(** X14.  With type conversion on, [types_converted] is the number of
    object columns whose parsed values are more than 80% of the rows
    at that stage, and every column that is not an object column keeps
    its values and its storage type.  With type conversion off,
    nothing is converted, [types_converted] is 0 and the result is the
    frame as the missing-value stage left it. *)
Theorem convert_types_count (parse : string -> option Q) (h : heap)
    (df : ref) (d : DataFrame) (rd : bool) (hm : string) (ct : bool) :
  h !! df = Some d ->
  let d2 := missing_frame hm (deduplicated rd d) in
  exists l st h' r,
    clean_data parse df rd hm ct h = Ok ((l, st), h')
    /\ h' !! l = Some r
    /\ types_converted st
       = (if ct
          then Z.of_nat (length (List.filter (column_converts parse d2)
                                             (seq 0 (length (columns d2)))))
          else 0)
    /\ (ct = false -> r = d2)
    /\ (forall j t, col_dtype j d2 = Some t -> t <> Object ->
          col_values j r = col_values j d2 /\ col_dtype j r = Some t).
Proof.
  intros Hd d2.
  destruct (clean_data_result parse h df d rd hm ct Hd) as (l & h' & Hrun & Hl).
  eexists l, _, h', _. split; [exact Hrun |]. split; [exact Hl |].
  unfold cleaned_stats, cleaned_frame. simpl. fold d2.
  split; [| split].
  - destruct ct; simpl; [| done]. unfold auto_convert.
    rewrite convert_fold_count by apply NoDup_select_positions.
    unfold select_positions. by rewrite filter_select_positions.
  - by intros ->.
  - intros j t Ht Hno. by apply converted_other.
Qed.

Lemma convert_types_count_witness :
  let d2 := missing_frame "drop" (deduplicated true readings) in
  exists l st h' r,
    clean_data parse_decimal 0%nat true "drop" true [readings]
    = Ok ((l, st), h')
    /\ h' !! l = Some r
    /\ types_converted st
       = (if true
          then Z.of_nat (length (List.filter
                                   (column_converts parse_decimal d2)
                                   (seq 0 (length (columns d2)))))
          else 0)
    /\ (true = false -> r = d2)
    /\ (forall j t, col_dtype j d2 = Some t -> t <> Object ->
          col_values j r = col_values j d2 /\ col_dtype j r = Some t).
Proof.
  apply (convert_types_count parse_decimal [readings] 0%nat readings
           true "drop" true).
  reflexivity.
Defined.

Lemma filter_partition4 {A} (p1 p2 p3 p4 : A -> bool) (l : list A) :
  (forall x, (Nat.b2n (p1 x) + Nat.b2n (p2 x) + Nat.b2n (p3 x)
              + Nat.b2n (p4 x) = 1)%nat) ->
  (length (List.filter p1 l) + length (List.filter p2 l)
   + length (List.filter p3 l) + length (List.filter p4 l)
   = length l)%nat.
Proof.
  intros H. induction l as [| x l IH]; [done |].
  specialize (H x). cbn [List.filter].
  destruct (p1 x), (p2 x), (p3 x), (p4 x); simpl in *; lia.
Qed.

Lemma sublist_map_fst_filter {A B} (p : A * B -> bool) (l : list (A * B)) :
  sublist (map fst (List.filter p l)) (map fst l).
Proof.
  induction l as [| x l IH]; simpl; [constructor |].
  destruct (p x); simpl; by constructor.
Qed.

(** X15.  The three lists of the classification keep the order of the
    columns, and together with the columns of other storage types they
    account for every column: the three counts add up to the number of
    columns exactly when no column has a storage type other than
    int64, float64, object, category and datetime64. *)
Theorem analyze_column_types_counts (df : DataFrame) :
  let ct := analyze_column_types df in
  let others :=
    List.filter
      (fun c => negb (dtype_in (snd c)
                        [Int64; Float64; Object; Category; Datetime64]))
      (columns df) in
  (length (numeric ct) + length (categorical ct) + length (datetime ct)
   + length others = length (columns df))%nat
  /\ sublist (numeric ct) (map fst (columns df))
  /\ sublist (categorical ct) (map fst (columns df))
  /\ sublist (datetime ct) (map fst (columns df)).
Proof.
  intros ct others. subst ct others. unfold analyze_column_types.
  cbn [numeric categorical datetime]. unfold select_dtypes.
  rewrite !length_map. split.
  - apply filter_partition4. intros [n t]. by destruct t.
  - repeat split; apply sublist_map_fst_filter.
Qed.

(** X16.  The advice for two columns does not depend on their order:
    for non-empty labels, swapping the x and y columns gives the same
    chart kind. *)
Theorem suggest_chart_type_symmetric (x y : string) (df : DataFrame) :
  x <> "" -> y <> "" ->
  suggest_chart_type x (Some y) df = suggest_chart_type y (Some x) df.
Proof.
  intros Hx Hy.
  rewrite (suggest_chart_type_table x (Some y) df) by congruence.
  rewrite (suggest_chart_type_table y (Some x) df) by congruence.
  simpl.
  by destruct (str_in x _), (str_in y _).
Qed.

Lemma suggest_chart_type_symmetric_witness :
  suggest_chart_type "city" (Some "income") survey
  = suggest_chart_type "income" (Some "city") survey.
Proof.
  apply (suggest_chart_type_symmetric "city" "income" survey);
    discriminate.
Defined.

(** * Loading and the session *)

Section LoaderProperties.
Variable read_csv_utf8 : upload -> DataFrame + py_error.
Variable read_csv_latin1 : upload -> DataFrame + py_error.
Variable read_excel : upload -> DataFrame + py_error.

(** X17.  [load_data] never lets an exception of a reader escape: it
    returns either a frame and no message, or no frame and exactly one
    error message.  A frame is returned only for a name ending in
    [.csv], [.xlsx] or [.xls].  For a CSV name the result is the frame
    of the UTF-8 read, or, only when that read fails with a
    [UnicodeDecodeError], the frame of the Latin-1 read; any other
    failure of the first read is reported without a second attempt. *)
Theorem load_data_outcomes (file : upload) :
  (match load_data read_csv_utf8 read_csv_latin1 read_excel file with
   | (Some _, messages) => messages = []
   | (None, messages) => length messages = 1%nat
   end)
  /\ (forall d, fst (load_data read_csv_utf8 read_csv_latin1 read_excel file) = Some d ->
        endswith (file_name file) ".csv" = true
        \/ endswith (file_name file) ".xlsx" = true
        \/ endswith (file_name file) ".xls" = true)
  /\ (endswith (file_name file) ".csv" = true ->
      forall d,
        fst (load_data read_csv_utf8 read_csv_latin1 read_excel file) = Some d
        <-> read_csv_utf8 file = inl d
            \/ (exists e, read_csv_utf8 file = inr e
                          /\ is_unicode_decode_error e = true
                          /\ read_csv_latin1 file = inl d))
  /\ (endswith (file_name file) ".csv" = true ->
      forall e, read_csv_utf8 file = inr e ->
                is_unicode_decode_error e = false ->
                load_data read_csv_utf8 read_csv_latin1 read_excel file = (None, [read_error_message e])).
Proof.
  unfold load_data.
  destruct (endswith (file_name file) ".csv") eqn:Ecsv.
  - destruct (read_csv_utf8 file) as [d0 | e0] eqn:E1.
    + split; [done |]. split; [auto |]. split.
      * intros _ d. simpl. split.
        -- intros H. left. by inversion H.
        -- intros [H | (e & H & _)]; by inversion H.
      * intros _ e H. done.
    + destruct (is_unicode_decode_error e0) eqn:Eu.
      * destruct (read_csv_latin1 file) as [d1 | e1] eqn:E2;
          (split; [done |]; split; [auto |]; split;
           [| intros _ e H; inversion H; subst; congruence]).
        -- intros _ d. simpl. split.
           ++ intros H. inversion H; subst. right. by exists e0.
           ++ intros [H | (e & H & _ & H2)]; [done | by inversion H2].
        -- intros _ d. simpl. split; [done |].
           intros [H | (e & H & _ & H2)]; done.
      * split; [done |]. split; [done |]. split.
        -- intros _ d. simpl. split; [done |].
           intros [H | (e & H & Hu & _)]; [done |].
           inversion H; subst. congruence.
        -- intros _ e H _. by inversion H.
  - destruct (endswith (file_name file) ".xlsx"
              || endswith (file_name file) ".xls") eqn:Ex.
    + apply orb_true_iff in Ex.
      destruct (read_excel file) as [d | e]; simpl;
        (split; [done |]; split; [intros d' _; tauto |]); split; done.
    + simpl. repeat split; done.
Qed.
End LoaderProperties.

Section SessionProperties.
Variable read_csv_utf8 : upload -> DataFrame + py_error.
Variable read_csv_latin1 : upload -> DataFrame + py_error.
Variable read_excel : upload -> DataFrame + py_error.
Variable parse : string -> option Q.

Lemma consistent_extend (h k : heap) (s : session) :
  consistent h s -> consistent (h ++ k) s.
Proof.
  intros (Ho & Hc & Hs). split; [| split; [| done]].
  - intros o Eo. destruct (Ho o Eo) as [d Hd].
    exists d. by apply lookup_app_l_Some.
  - intros c Ec. destruct (Hc c Ec) as ([d Hd] & H1 & H2).
    split; [| done]. exists d. by apply lookup_app_l_Some.
Qed.

(** A session without cleaned data is consistent as soon as its
    original, if any, is in the store. *)
Lemma consistent_uncleaned (h : heap) (o : option ref) (n : option string) :
  (forall l, o = Some l -> is_Some (h !! l)) ->
  consistent h (Session o None None n).
Proof. intros H. split; [exact H |]. split; [done | done]. Qed.

Lemma load_into_run (file : upload) (s : session) (h : heap) :
  load_into read_csv_utf8 read_csv_latin1 read_excel file s h
  = match fst (load_data read_csv_utf8 read_csv_latin1 read_excel file) with
    | Some d =>
        Ok (Session (Some (length h)) (df_cleaned s)
                    (session_cleaning_stats s) (last_uploaded_file s),
            h ++ [d])
    | None => Ok (s, h)
    end.
Proof.
  unfold load_into. by destruct (fst (load_data _ _ _ file)).
Qed.

(** The upload block: the session it leaves, and the store, which
    grows by the frame read, if any. *)
Lemma upload_block_run (s : session) (uploaded : option upload) (h : heap) :
  consistent h s ->
  exists s1 k,
    upload_block read_csv_utf8 read_csv_latin1 read_excel s uploaded h
    = Ok (s1, h ++ k)
    /\ consistent (h ++ k) s1.
Proof.
  intros Hs. pose proof Hs as (Ho & Hc & Hst).
  unfold upload_block. destruct uploaded as [file |].
  2:{ exists s, []. rewrite app_nil_r. by split. }
  destruct (negb (same_name (last_uploaded_file s) (file_name file))).
  - rewrite load_into_run.
    destruct (fst (load_data _ _ _ file)) as [d |]; simpl.
    + eexists _, [d]. split; [done |].
      apply consistent_uncleaned. intros l Hl. inversion Hl; subst.
      exists d. apply lookup_snoc.
    + eexists _, []. rewrite app_nil_r. split; [done |].
      by apply consistent_uncleaned.
  - destruct (df_original s) as [o |] eqn:Eo.
    + exists s, []. rewrite app_nil_r. by split.
    + rewrite load_into_run.
      destruct (fst (load_data _ _ _ file)) as [d |]; simpl.
      * assert (df_cleaned s = None) as Ecl.
        { destruct (df_cleaned s) as [c |] eqn:Ec; [| done].
          by destruct (Hc c eq_refl) as (_ & H & _). }
        eexists _, [d]. split; [done |]. rewrite Ecl.
        rewrite (proj1 Hst Ecl).
        apply consistent_uncleaned. intros l Hl. inversion Hl; subst.
        exists d. apply lookup_snoc.
      * exists s, []. rewrite app_nil_r. by split.
Qed.

Lemma cleaning_block_run (s : session) (w : widgets) (h : heap) :
  consistent h s ->
  exists s2 k,
    cleaning_block parse s w h = Ok (s2, h ++ k)
    /\ consistent (h ++ k) s2.
Proof.
  intros Hs. pose proof Hs as (Ho & Hc & Hst).
  unfold cleaning_block. destruct (df_original s) as [o |] eqn:Eo.
  2:{ exists s, []. rewrite app_nil_r. by split. }
  destruct (Ho o eq_refl) as [d Hd].
  destruct (clean_btn w).
  - destruct (clean_data_run parse h o d (remove_dupes w)
                (policy_name (missing_method w)) (auto_convert_box w) Hd)
      as [k Hrun].
    unfold bind at 1. unfold bind at 1. rewrite Hrun. unfold ret at 1.
    set (frame := cleaned_frame _ _ _ _ d) in *.
    assert (is_Some (((h ++ k) ++ [frame]) !! o)) as Hov.
    { exists d. rewrite <- app_assoc. by apply lookup_app_l_Some. }
    destruct (reset_btn w); unfold ret; simpl; rewrite ?Eo;
      eexists _, (k ++ [frame]); rewrite app_assoc;
      (split; [done |]).
    + apply consistent_uncleaned. intros l Hl. by inversion Hl; subst.
    + split; [| split; [| done]].
      * intros l Hl. simpl in Hl. by inversion Hl; subst.
      * intros c Hcl. simpl in Hcl. inversion Hcl; subst c. simpl.
        split; [exists frame; apply lookup_snoc |]. split; [done |].
        apply lookup_lt_Some in Hd. rewrite length_app. intros H.
        inversion H. lia.
  - unfold bind, ret. rewrite Eo. destruct (reset_btn w).
    + exists (Session (Some o) None None (last_uploaded_file s)), [].
      rewrite app_nil_r. split; [done |].
      apply consistent_uncleaned. intros l Hl. inversion Hl; subst.
      by exists d.
    + exists s, []. rewrite app_nil_r. by split.
Qed.

(** X18.  The session stays consistent with the store over every run
    of the sidebar that completes, whatever the readers do and
    whichever widgets are set: the references of the session name
    frames of the store, cleaned data are present exactly when their
    report is and only together with an original, of which they are
    not an alias; and the run changes no frame that was in the store
    before it (the store only grows).  The exceptions of the readers
    are caught in [load_data], so that the one call of the sidebar that
    can raise is [clean_data]: without a click on the clean button
    the run completes. *)
Theorem sidebar_keeps_consistency (s : session) (w : widgets) (h : heap) :
  consistent h s ->
  (forall s' h',
     sidebar read_csv_utf8 read_csv_latin1 read_excel parse s w h
     = Ok (s', h') ->
     consistent h' s'
     /\ (exists k, h' = h ++ k)
     /\ (forall i, (i < length h)%nat -> h' !! i = h !! i))
  /\ (clean_btn w = false ->
      exists s' h',
        sidebar read_csv_utf8 read_csv_latin1 read_excel parse s w h
        = Ok (s', h')).
Proof.
  intros Hs.
  assert (exists s2 k,
            sidebar read_csv_utf8 read_csv_latin1 read_excel parse s w h
            = Ok (s2, h ++ k)
            /\ consistent (h ++ k) s2) as (s2 & k & E & Hc).
  { unfold sidebar, bind.
    destruct (upload_block_run s (uploaded_file w) h Hs)
      as (s1 & k1 & -> & H1).
    destruct (cleaning_block_run s1 w (h ++ k1) H1) as (s2 & k2 & -> & H2).
    exists s2, (k1 ++ k2). rewrite app_assoc. by split. }
  split.
  - intros s' h' E'. rewrite E in E'. inversion E'; subst s' h'.
    split; [exact Hc |]. split; [by exists k |].
    intros i Hi. by apply lookup_app_l.
  - intros _. by exists s2, (h ++ k).
Qed.

End SessionProperties.

Lemma sidebar_keeps_consistency_witness :
  consistent [] initial_session
  /\ exists s' h',
       sidebar (read_as survey) (read_fails true) (read_fails false)
               parse_decimal initial_session (press_clean FillMean) []
       = Ok (s', h')
       /\ consistent h' s'
       /\ (exists k, h' = [] ++ k)
       /\ (forall i, (i < length (@nil DataFrame))%nat ->
                     h' !! i = (@nil DataFrame) !! i).
Proof.
  assert (consistent [] initial_session) as H.
  { apply consistent_uncleaned. intros l Hl. discriminate Hl. }
  split; [exact H |].
  destruct (sidebar (read_as survey) (read_fails true) (read_fails false)
              parse_decimal initial_session (press_clean FillMean) [])
    as [[s' h'] | e] eqn:E.
  - exists s', h'. split; [reflexivity |].
    exact (proj1 (sidebar_keeps_consistency (read_as survey)
                    (read_fails true) (read_fails false) parse_decimal
                    initial_session (press_clean FillMean) [] H) s' h' E).
  - vm_compute in E. discriminate E.
Defined.

Section SessionRuns.
Variable read_csv_utf8 : upload -> DataFrame + py_error.
Variable read_csv_latin1 : upload -> DataFrame + py_error.
Variable read_excel : upload -> DataFrame + py_error.
Variable parse : string -> option Q.

Lemma upload_block_idle (s : session) (w : widgets) (h : heap) (o : ref) :
  same_file s w = true -> df_original s = Some o ->
  upload_block read_csv_utf8 read_csv_latin1 read_excel s (uploaded_file w) h
  = Ok (s, h).
Proof.
  unfold same_file, upload_block. intros Hsame Ho.
  destruct (uploaded_file w) as [file |]; [| done].
  by rewrite Hsame, Ho.
Qed.

(** A run with a click on the clean button and no new file. *)
Lemma sidebar_clean_run (s : session) (w : widgets) (h : heap) (o : ref)
    (d : DataFrame) :
  df_original s = Some o -> h !! o = Some d ->
  same_file s w = true -> clean_btn w = true -> reset_btn w = false ->
  exists k,
    sidebar read_csv_utf8 read_csv_latin1 read_excel parse s w h
    = Ok (Session (Some o) (Some (length (h ++ k)))
                  (Some (cleaned_stats parse (remove_dupes w)
                           (policy_name (missing_method w))
                           (auto_convert_box w) d))
                  (last_uploaded_file s),
          (h ++ k) ++ [cleaned_frame parse (remove_dupes w)
                         (policy_name (missing_method w))
                         (auto_convert_box w) d]).
Proof.
  intros Ho Hd Hsame Hclean Hreset.
  unfold sidebar, bind at 1. rewrite (upload_block_idle s w h o Hsame Ho).
  unfold cleaning_block. rewrite Ho, Hclean, Hreset.
  destruct (clean_data_run parse h o d (remove_dupes w)
              (policy_name (missing_method w)) (auto_convert_box w) Hd)
    as [k Hrun].
  exists k. unfold bind at 1. unfold bind at 1. rewrite Hrun.
  unfold ret, bind. simpl. by rewrite ?Ho.
Qed.

(** X19.  Cleaning always starts from the original: after two runs
    with a click on the clean button (and no new file), the working
    frame is the original cleaned with the settings of the second run
    only, and the session holds the report of that cleaning; the
    original frame is still in the store with its value. *)
Theorem sidebar_clean_twice (s : session) (w1 w2 : widgets) (h : heap)
    (o : ref) (d : DataFrame) :
  df_original s = Some o -> h !! o = Some d ->
  same_file s w1 = true -> clean_btn w1 = true -> reset_btn w1 = false ->
  same_file s w2 = true -> clean_btn w2 = true -> reset_btn w2 = false ->
  exists s1 h1 s2 h2 c,
    sidebar read_csv_utf8 read_csv_latin1 read_excel parse s w1 h
    = Ok (s1, h1)
    /\ sidebar read_csv_utf8 read_csv_latin1 read_excel parse s1 w2 h1
       = Ok (s2, h2)
    /\ df_work s2 = Some c
    /\ h2 !! c
       = Some (cleaned_frame parse (remove_dupes w2)
                 (policy_name (missing_method w2)) (auto_convert_box w2) d)
    /\ session_cleaning_stats s2
       = Some (cleaned_stats parse (remove_dupes w2)
                 (policy_name (missing_method w2)) (auto_convert_box w2) d)
    /\ df_original s2 = Some o
    /\ h2 !! o = Some d.
Proof.
  intros Ho Hd Hs1 Hc1 Hr1 Hs2 Hc2 Hr2.
  destruct (sidebar_clean_run s w1 h o d Ho Hd Hs1 Hc1 Hr1) as [k1 Hrun1].
  set (s1 := Session (Some o) (Some (length (h ++ k1))) _ _) in Hrun1.
  set (h1 := (h ++ k1) ++ _) in Hrun1.
  assert (h1 !! o = Some d) as Hd1.
  { unfold h1. rewrite <- app_assoc. by apply lookup_app_l_Some. }
  destruct (sidebar_clean_run s1 w2 h1 o d eq_refl Hd1 Hs2 Hc2 Hr2)
    as [k2 Hrun2].
  eexists s1, h1, _, _, (length (h1 ++ k2)).
  split; [exact Hrun1 |]. split; [exact Hrun2 |]. simpl.
  split; [done |]. split; [apply lookup_snoc |]. split; [done |].
  split; [done |].
  rewrite <- app_assoc. by apply lookup_app_l_Some.
Qed.

(** X20.  A file with another name than the last one discards the
    cleaned data and their report, whether or not it can be read, and
    becomes the last file.  When it is read, the frame is a new object
    and becomes the original; when it cannot be read, the session keeps
    the original of the previous file and the store is unchanged. *)
Theorem sidebar_new_file (s : session) (w : widgets) (h : heap)
    (file : upload) :
  uploaded_file w = Some file ->
  same_name (last_uploaded_file s) (file_name file) = false ->
  clean_btn w = false ->
  exists s' h',
    sidebar read_csv_utf8 read_csv_latin1 read_excel parse s w h
    = Ok (s', h')
    /\ last_uploaded_file s' = Some (file_name file)
    /\ df_cleaned s' = None
    /\ session_cleaning_stats s' = None
    /\ match fst (load_data read_csv_utf8 read_csv_latin1 read_excel file)
       with
       | Some d => df_original s' = Some (length h) /\ h' = h ++ [d]
       | None => df_original s' = df_original s /\ h' = h
       end.
Proof.
  intros Hup Hname Hclean.
  unfold sidebar, bind at 1, upload_block. rewrite Hup, Hname.
  change (negb false) with true. cbv iota. rewrite load_into_run.
  destruct (fst (load_data _ _ _ file)) as [d |]; simpl.
  - unfold cleaning_block. simpl. rewrite Hclean. unfold bind, ret.
    destruct (reset_btn w); by eexists _, _.
  - unfold cleaning_block. simpl.
    destruct (df_original s) as [o |] eqn:Eo; [| by eexists _, _].
    rewrite Hclean. unfold bind, ret.
    destruct (reset_btn w); simpl; by eexists _, _.
Qed.

(** X21.  A run of the script that brings no new file and no click
    leaves the session and the store as they are.  A click on the
    reset button alone discards the cleaned data and their report and
    nothing else: the working frame is the original again. *)
Theorem sidebar_idle_and_reset (s : session) (w : widgets) (h : heap)
    (o : ref) :
  df_original s = Some o ->
  same_file s w = true ->
  clean_btn w = false ->
  exists s',
    sidebar read_csv_utf8 read_csv_latin1 read_excel parse s w h
    = Ok (s', h)
    /\ (reset_btn w = false -> s' = s)
    /\ (reset_btn w = true ->
        s' = Session (Some o) None None (last_uploaded_file s)
        /\ df_work s' = Some o).
Proof.
  intros Ho Hsame Hclean.
  unfold sidebar, bind at 1. rewrite (upload_block_idle s w h o Hsame Ho).
  unfold cleaning_block. rewrite Ho, Hclean. unfold bind, ret.
  rewrite Ho. destruct (reset_btn w); eexists; split; try done;
    split; done.
Qed.

End SessionRuns.

Lemma sidebar_clean_twice_witness :
  exists s1 h1 s2 h2 c,
    sidebar (read_as survey) (read_fails true) (read_fails false)
            parse_decimal loaded_session (press_clean FillMode) [survey]
    = Ok (s1, h1)
    /\ sidebar (read_as survey) (read_fails true) (read_fails false)
               parse_decimal s1 (press_clean Drop) h1
       = Ok (s2, h2)
    /\ df_work s2 = Some c
    /\ h2 !! c = Some (cleaned_frame parse_decimal true "drop" true survey)
    /\ session_cleaning_stats s2
       = Some (cleaned_stats parse_decimal true "drop" true survey)
    /\ df_original s2 = Some 0%nat
    /\ h2 !! 0%nat = Some survey.
Proof.
  apply (sidebar_clean_twice (read_as survey) (read_fails true)
           (read_fails false) parse_decimal loaded_session
           (press_clean FillMode) (press_clean Drop) [survey] 0%nat survey);
    reflexivity.
Defined.

Lemma sidebar_new_file_witness :
  exists s' h',
    sidebar (read_as survey) (read_fails true) (read_fails false)
            parse_decimal cleaned_session
            (Widgets (Some other_upload) true Drop true false false)
            [survey; survey]
    = Ok (s', h')
    /\ last_uploaded_file s' = Some (file_name other_upload)
    /\ df_cleaned s' = None
    /\ session_cleaning_stats s' = None
    /\ match fst (load_data (read_as survey) (read_fails true)
                    (read_fails false) other_upload)
       with
       | Some d => df_original s' = Some (length [survey; survey])
                   /\ h' = [survey; survey] ++ [d]
       | None => df_original s' = df_original cleaned_session
                 /\ h' = [survey; survey]
       end.
Proof.
  apply (sidebar_new_file (read_as survey) (read_fails true)
           (read_fails false) parse_decimal cleaned_session
           (Widgets (Some other_upload) true Drop true false false)
           [survey; survey] other_upload);
    reflexivity.
Defined.

Lemma sidebar_idle_and_reset_witness :
  exists s',
    sidebar (read_as survey) (read_fails true) (read_fails false)
            parse_decimal cleaned_session
            (Widgets (Some survey_upload) true Drop true false true)
            [survey; survey]
    = Ok (s', [survey; survey])
    /\ (true = false -> s' = cleaned_session)
    /\ (true = true ->
        s' = Session (Some 0%nat) None None
                     (last_uploaded_file cleaned_session)
        /\ df_work s' = Some 0%nat).
Proof.
  apply (sidebar_idle_and_reset (read_as survey) (read_fails true)
           (read_fails false) parse_decimal cleaned_session
           (Widgets (Some survey_upload) true Drop true false true)
           [survey; survey] 0%nat);
    reflexivity.
Defined.

(** * The correlation table *)

Lemma In_corr_pairs (cols : list string) (corr : nat -> nat -> option Q)
    (p : corr_pair) :
  In p (corr_pairs cols corr)
  <-> exists i j, (i < j < length cols)%nat
                  /\ p = CorrPair (nth i cols "") (nth j cols "") (corr i j).
Proof.
  unfold corr_pairs. rewrite in_flat_map. split.
  - intros (i & Hi & Hp). apply in_map_iff in Hp as (j & <- & Hj).
    apply in_seq in Hi, Hj. exists i, j. split; [lia | done].
  - intros (i & j & Hij & ->). exists i. split; [apply in_seq; lia |].
    apply in_map_iff. exists j. split; [done | apply in_seq; lia].
Qed.

Lemma length_corr_pairs_from (n : nat) (f : nat -> nat -> corr_pair)
    (m a : nat) :
  (a + m = n)%nat ->
  (2 * length (flat_map (fun i => map (f i) (seq (S i) (n - S i)))
                        (seq a m))
   = m * (m - 1))%nat.
Proof.
  revert a. induction m as [| m IH]; intros a Ha; simpl; [done |].
  rewrite length_app, length_map, length_seq.
  specialize (IH (S a) ltac:(lia)). nia.
Qed.

(** X22.  The table of correlation pairs has one row for every pair of
    positions [i < j] of the numeric columns and no other row: n
    columns give n (n - 1) / 2 rows, with the coefficient of the two
    columns named; with distinct column labels no row pairs a column
    with itself. *)
Theorem corr_pairs_complete (cols : list string)
    (corr : nat -> nat -> option Q) :
  (2 * length (corr_pairs cols corr)
   = length cols * (length cols - 1))%nat
  /\ (forall p, In p (corr_pairs cols corr)
        <-> exists i j, (i < j < length cols)%nat
                        /\ p = CorrPair (nth i cols "") (nth j cols "")
                                        (corr i j))
  /\ (NoDup cols ->
      forall p, In p (corr_pairs cols corr) -> column_1 p <> column_2 p).
Proof.
  split; [| split].
  - apply (length_corr_pairs_from (length cols)
             (fun i j => CorrPair (nth i cols "") (nth j cols "") (corr i j))
             (length cols) 0). lia.
  - apply In_corr_pairs.
  - intros Hnd p Hp. apply In_corr_pairs in Hp as (i & j & Hij & ->).
    simpl. intros Heq.
    destruct (lookup_lt_is_Some_2 cols i) as [a Ha]; [lia |].
    destruct (lookup_lt_is_Some_2 cols j) as [b Hb]; [lia |].
    rewrite (nth_lookup_Some _ _ "" _ Ha), (nth_lookup_Some _ _ "" _ Hb)
      in Heq. subst b.
    assert (i = j) by apply (NoDup_lookup cols i j a Hnd Ha Hb). lia.
Qed.

Lemma corr_pairs_complete_witness :
  (2 * length (corr_pairs ["a"; "b"; "c"] sample_corr)
   = length ["a"; "b"; "c"] * (length ["a"; "b"; "c"] - 1))%nat
  /\ (forall p, In p (corr_pairs ["a"; "b"; "c"] sample_corr)
        <-> exists i j, (i < j < length ["a"; "b"; "c"])%nat
                        /\ p = CorrPair (nth i ["a"; "b"; "c"] "")
                                        (nth j ["a"; "b"; "c"] "")
                                        (sample_corr i j))
  /\ (NoDup ["a"; "b"; "c"] ->
      forall p, In p (corr_pairs ["a"; "b"; "c"] sample_corr) ->
                column_1 p <> column_2 p).
Proof. exact (corr_pairs_complete ["a"; "b"; "c"] sample_corr). Defined.

Section GenericSorting.
Context {A : Type} (leb : A -> A -> bool).
Hypothesis leb_total : forall a b, leb a b = false -> leb b a = true.
Hypothesis leb_trans :
  forall a b c, leb a b = true -> leb b c = true -> leb a c = true.

Lemma insert_sorted_strongly (x : A) (l : list A) :
  StronglySorted (fun a b => leb a b = true) l ->
  StronglySorted (fun a b => leb a b = true) (insert_sorted leb x l).
Proof.
  induction 1 as [| y l Hs IH Hy]; simpl.
  { constructor; constructor. }
  destruct (leb x y) eqn:E.
  - constructor; [by constructor |]. constructor; [done |].
    eapply Forall_impl; [exact Hy |]. intros z Hz. simpl in Hz.
    by apply leb_trans with y.
  - constructor; [exact IH |].
    apply Forall_forall. intros z Hz.
    apply list_elem_of_In, In_insert_sorted in Hz as [-> | Hz].
    + by apply leb_total.
    + rewrite Forall_forall in Hy. by apply Hy, list_elem_of_In.
Qed.

Lemma sort_by_strongly (l : list A) :
  StronglySorted (fun a b => leb a b = true) (sort_by leb l).
Proof.
  unfold sort_by. induction l as [| x l IH]; simpl; [constructor |].
  by apply insert_sorted_strongly.
Qed.
End GenericSorting.

Lemma In_skipn_In {A} (l : list A) (n : nat) (q : A) :
  In q (skipn n l) -> In q l.
Proof.
  revert n. induction l as [| x l IH]; intros n; [by destruct n |].
  destruct n as [| n]; simpl; [done |]. intros H. right. by apply (IH n).
Qed.

(** In a sorted list every element of a prefix is before every element
    of the rest. *)
Lemma sorted_split {A} (R : A -> A -> Prop) (l : list A) (n : nat)
    (p q : A) :
  StronglySorted R l -> In p (firstn n l) -> In q (skipn n l) -> R p q.
Proof.
  intros Hs. revert n. induction Hs as [| x l Hs IH Hx]; intros n.
  { by destruct n. }
  destruct n as [| n]; simpl; [done |].
  intros [-> | Hp] Hq.
  - rewrite Forall_forall in Hx. apply Hx, list_elem_of_In.
    by apply (In_skipn_In l n).
  - by apply (IH n).
Qed.

Lemma abs_desc_total (p q : corr_pair) :
  abs_desc p q = false -> abs_desc q p = true.
Proof.
  unfold abs_desc. destruct (correlation p), (correlation q); try done.
  intros H. apply Qle_bool_iff.
  destruct (Qle_bool (Qabs q1) (Qabs q0)) eqn:E; [done |].
  apply Qlt_le_weak, Qnot_le_lt. intros Hle.
  apply Qle_bool_iff in Hle. congruence.
Qed.

Lemma abs_desc_trans (p q r : corr_pair) :
  abs_desc p q = true -> abs_desc q r = true -> abs_desc p r = true.
Proof.
  unfold abs_desc.
  destruct (correlation p), (correlation q), (correlation r); try done.
  rewrite !Qle_bool_iff. intros H1 H2. by apply Qle_trans with (Qabs q1).
Qed.

Lemma abs_desc_spec (p q : corr_pair) :
  abs_desc p q = true
  <-> match correlation q with
      | Some y => exists x, correlation p = Some x /\ (Qabs y <= Qabs x)%Q
      | None => True
      end.
Proof.
  unfold abs_desc. destruct (correlation p), (correlation q); split;
    try done.
  - intros H. eexists. split; [done | by apply Qle_bool_iff].
  - intros (x & Hx & Hle). inversion Hx; subst. by apply Qle_bool_iff.
  - by intros (x & Hx & _).
Qed.

(** X23.  The sorted table holds the same pairs, ordered by the
    absolute value of the coefficient, largest first and NaN last,
    whatever the signs.  So the five rows shown as top positive
    correlations are the strongest in absolute value, positive or
    negative, and the five rows shown as top negative correlations are
    the weakest in absolute value (or NaN): no row before them has a
    smaller absolute coefficient. *)
Theorem corr_df_ranking (cols : list string)
    (corr : nat -> nat -> option Q) :
  let t := corr_df cols corr in
  let stronger p q :=
    match correlation q with
    | Some y => exists x, correlation p = Some x /\ (Qabs y <= Qabs x)%Q
    | None => True
    end in
  (forall p, In p t <-> In p (corr_pairs cols corr))
  /\ length t = length (corr_pairs cols corr)
  /\ (forall p q, In p (head5 t) -> In q (skipn 5 t) -> stronger p q)
  /\ (forall p q, In p (firstn (length t - 5) t) -> In q (tail5 t) ->
                  stronger p q).
Proof.
  intros t stronger.
  assert (StronglySorted (fun a b => abs_desc a b = true) t) as Hs
    by (apply sort_by_strongly; [apply abs_desc_total | apply abs_desc_trans]).
  split; [intros p; apply In_sort_by |].
  split; [apply length_sort_by |].
  split; intros p q Hp Hq; apply abs_desc_spec.
  - by apply (sorted_split _ t 5 p q Hs).
  - by apply (sorted_split _ t (length t - 5) p q Hs).
Qed.

(** * Cleaning followed by outlier detection *)

Lemma complete_row_cell (j : nat) (r : row) :
  complete_row r = true -> (j < length (cells r))%nat ->
  notna (cell_at j r) = true.
Proof.
  unfold complete_row, cell_at. intros Hc Hlt.
  destruct (lookup_lt_is_Some_2 (cells r) j Hlt) as [c Hcj].
  rewrite Hcj. simpl. rewrite forallb_forall in Hc.
  apply Hc, list_elem_of_In, list_elem_of_lookup. by exists j.
Qed.

Lemma filter_all {A} (p : A -> bool) (l : list A) :
  (forall x, In x l -> p x = true) -> List.filter p l = l.
Proof.
  induction l as [| x l IH]; simpl; [done |]. intros H.
  rewrite (H x) by (by left). f_equal. apply IH. intros y Hy.
  apply H. by right.
Qed.

(** X25.  After cleaning under the drop policy with type conversion
    off, outlier detection cannot fail on data: if a row is left, then
    on every int64 or float64 column (of a frame whose rows all have
    that column) [detect_outliers] returns statistics, computed over
    all rows of the cleaned frame. *)
Theorem detect_outliers_after_drop (parse : string -> option Q) (h : heap)
    (df : ref) (d : DataFrame) (rd : bool) (column : string) (j : nat)
    (t : dtype) :
  h !! df = Some d ->
  index_of column (columns d) = Some j ->
  col_dtype j d = Some t ->
  In t [Int64; Float64] ->
  Forall (fun r => (j < length (cells r))%nat) (rows d) ->
  exists l st h' r,
    clean_data parse df rd "drop" false h = Ok ((l, st), h')
    /\ h' !! l = Some r
    /\ (rows r <> [] ->
        exists out ost,
          detect_outliers r column "iqr" = Ok (Some (out, ost))
          /\ total_values ost = len r).
Proof.
  intros Hd Hj Ht Hnum Hrange.
  destruct (clean_data_result parse h df d rd "drop" false Hd)
    as (l & h' & Hrun & Hl).
  eexists l, _, h', _. split; [exact Hrun |]. split; [exact Hl |].
  rewrite cleaned_frame_drop.
  set (r := dropna_frame (deduplicated rd d)).
  assert (columns r = columns d) as Hcols
    by (unfold r; simpl; apply deduplicated_columns).
  assert (List.filter notna (col_values j r) = col_values j r) as Hall.
  { apply filter_all. intros c Hc.
    apply in_map_iff in Hc as (x & <- & Hx).
    unfold r in Hx. simpl in Hx. apply filter_In in Hx as [Hx Hcomp].
    apply complete_row_cell; [done |].
    rewrite Forall_forall in Hrange. apply Hrange, list_elem_of_In.
    by apply deduplicated_rows_In in Hx. }
  intros Hne.
  assert (List.filter notna (col_values j r) <> []) as Hp.
  { rewrite Hall. unfold col_values. destruct (rows r); [done | simpl].
    discriminate. }
  destruct (detect_outliers_run r column j t) as (out & Hdet & _);
    [by rewrite Hcols | by unfold col_dtype; rewrite Hcols | done | done |].
  eexists out, _. split; [exact Hdet |]. simpl.
  rewrite Hall. unfold col_values, len. by rewrite length_map.
Qed.

Lemma detect_outliers_after_drop_witness :
  exists l st h' r,
    clean_data parse_decimal 0%nat true "drop" false [gauge]
    = Ok ((l, st), h')
    /\ h' !! l = Some r
    /\ (rows r <> [] ->
        exists out ost,
          detect_outliers r "level" "iqr" = Ok (Some (out, ost))
          /\ total_values ost = len r).
Proof.
  apply (detect_outliers_after_drop parse_decimal [gauge] 0%nat gauge true
           "level" 1%nat Float64).
  - reflexivity.
  - reflexivity.
  - reflexivity.
  - simpl. tauto.
  - repeat constructor.
Defined.

(** * The IQR method on whole numbers *)

Lemma eighths_binary64 (x : Q) (m : Z) :
  (x == m # 8)%Q -> Z.abs m < 2 ^ 53 -> binary64 x.
Proof.
  intros Hx Hm. exists m, (-3). split; [| split; [done | lia]].
  rewrite Hx. change (2 ^ (-3))%Q with (1 # 8)%Q.
  unfold Qeq, Qmult, inject_Z. simpl. lia.
Qed.

(** Read off a list of whole numbers at a position that is a multiple
    of a quarter, the interpolated value is a multiple of a quarter. *)
Lemma interpolate_quarters (s : list Q) (p : Z) :
  0 <= p ->
  (forall x, In x s -> exists m : Z, (x == inject_Z m)%Q) ->
  exists m : Z,
    (interpolate s (inject_Z (Z.of_nat (length s - 1)) * (p # 4)) == m # 4)%Q.
Proof.
  intros Hp Hall.
  set (N := Z.of_nat (length s - 1)).
  assert (0 <= N) as HN by (unfold N; lia).
  unfold interpolate.
  assert (Qfloor (inject_Z N * (p # 4)) = N * p / 4) as Hfl by reflexivity.
  assert (0 <= N * p / 4) as Hd by (apply Z.div_pos; lia).
  rewrite Hfl. rewrite Z2Nat.id by exact Hd.
  assert (forall i, exists m : Z, (nth i s 0 == inject_Z m)%Q) as Hnth.
  { intros i. destruct (nth_in_or_default i s 0%Q) as [Hin | ->];
      [by apply Hall | by exists 0]. }
  destruct (Hnth (Z.to_nat (N * p / 4))) as [a Ha].
  destruct (Hnth (Nat.min (S (Z.to_nat (N * p / 4))) (length s - 1)))
    as [b Hb].
  exists (4 * a + (b - a) * ((N * p) mod 4)).
  rewrite Ha, Hb.
  pose proof (Z.div_mod (N * p) 4 ltac:(lia)) as Hdm.
  unfold Qeq, Qplus, Qminus, Qmult, Qopp, inject_Z. simpl.
  rewrite ?Pos.mul_1_l, ?Pos.mul_1_r.
  set (d := N * p / 4) in *. set (k := (N * p) mod 4) in *.
  clearbody d k. rewrite Hdm. ring.
Qed.

Lemma quantile_quarter (xs : list Q) (p bound : Z) :
  xs <> [] -> 0 <= p <= 4 ->
  (forall x, In x xs ->
     exists m : Z, (x == inject_Z m)%Q /\ Z.abs m <= bound) ->
  exists v m,
    quantile xs (p # 4) = Some v /\ (v == m # 4)%Q /\ Z.abs m <= 4 * bound.
Proof.
  intros Hne Hp Hall. rewrite quantile_interpolate.
  pose proof (sort_by_sorted xs) as Hs.
  pose proof (length_sort_by Qle_bool xs) as Hlen.
  assert (forall x, In x (sort_by Qle_bool xs) ->
            exists m : Z, (x == inject_Z m)%Q /\ Z.abs m <= bound) as Hin
    by (intros x Hx; apply Hall; by apply In_sort_by in Hx).
  destruct (sort_by Qle_bool xs) as [| z s] eqn:Es.
  { destruct xs; [done | discriminate Hlen]. }
  set (l := z :: s) in *.
  assert (0 < length l)%nat as Hpos by (unfold l; simpl; lia).
  destruct (interpolate_quarters l p) as [m Hm]; [lia | |].
  { intros x Hx. destruct (Hin x Hx) as (k & Hk & _). by exists k. }
  eexists _, m. split; [reflexivity |]. split; [exact Hm |].
  set (c := inject_Z (Z.of_nat (length l - 1))) in *.
  assert (0 <= c)%Q as Hc.
  { unfold c. change 0%Q with (inject_Z 0). rewrite <- Zle_Qle. lia. }
  assert (0 <= p # 4)%Q as Hq0 by (unfold Qle; simpl; lia).
  assert (p # 4 <= 1)%Q as Hq1 by (unfold Qle; simpl; lia).
  assert (0 <= c * (p # 4))%Q as H0 by (clearbody c; nra).
  assert (c * (p # 4) <= c)%Q as H1 by (clearbody c; nra).
  destruct (interpolate_between l (c * (p # 4)) Hs Hpos H0 H1) as [Hlo Hhi].
  destruct (position_parts (length l) (c * (p # 4)) H0 H1) as (Hi & _).
  set (i := Z.to_nat (Qfloor (c * (p # 4)))) in *.
  destruct (Hin (nth i l 0%Q)) as (a & Ha & Hab); [apply nth_In; lia |].
  destruct (Hin (nth (Nat.min (S i) (length l - 1)) l 0%Q))
    as (b & Hb & Hbb); [apply nth_In; lia |].
  rewrite Ha in Hlo. rewrite Hb in Hhi. rewrite Hm in Hlo, Hhi.
  unfold Qle, inject_Z in Hlo, Hhi. simpl in Hlo, Hhi. lia.
Qed.

(** The quartiles of a column of small whole numbers are multiples of
    a quarter, of magnitude at most [2^47]. *)
Lemma whole_column_quartiles (df : DataFrame) (j : nat) :
  List.filter notna (col_values j df) <> [] ->
  (forall r, In r (rows df) ->
     cell_at j r = Missing
     \/ exists x, cell_at j r = Num x /\ small_whole x) ->
  let present := List.filter notna (col_values j df) in
  exists v1 m1 v3 m3,
    quantile (numbers present) (1 # 4) = Some v1
    /\ (v1 == m1 # 4)%Q /\ Z.abs m1 <= 2 ^ 49
    /\ quantile (numbers present) (3 # 4) = Some v3
    /\ (v3 == m3 # 4)%Q /\ Z.abs m3 <= 2 ^ 49.
Proof.
  intros Hne Hwhole present.
  assert (forall c, In c present -> exists x, c = Num x /\ small_whole x)
    as Hcells.
  { intros c Hc. unfold present in Hc. apply filter_In in Hc as [Hc Hna].
    apply in_map_iff in Hc as (r & <- & Hr).
    destruct (Hwhole r Hr) as [Hm | Hx]; [| exact Hx].
    rewrite Hm in Hna. discriminate Hna. }
  assert (numbers present <> []) as Hnn.
  { fold present in Hne. destruct present as [| c cs] eqn:Ep; [done |].
    destruct (Hcells c) as (x & -> & _); [by left |].
    intros Hnil.
    assert (In x (numbers (Num x :: cs))) as Hx
      by (apply In_numbers; by left).
    rewrite Hnil in Hx. destruct Hx. }
  assert (forall x, In x (numbers present) ->
            exists m : Z, (x == inject_Z m)%Q /\ Z.abs m <= 2 ^ 47) as Hall.
  { intros x Hx. apply In_numbers in Hx.
    destruct (Hcells _ Hx) as (y & Hy & Hs). by inversion Hy; subst y. }
  destruct (quantile_quarter (numbers present) 1 (2 ^ 47) Hnn ltac:(lia) Hall)
    as (v1 & m1 & E1 & Hv1 & Hm1).
  destruct (quantile_quarter (numbers present) 3 (2 ^ 47) Hnn ltac:(lia) Hall)
    as (v3 & m3 & E3 & Hv3 & Hm3).
  exists v1, m1, v3, m3.
  change (4 * 2 ^ 47) with (2 ^ 49) in Hm1, Hm3. done.
Qed.

(** C6, as the code has it.  On a numeric column with at least one
    present value, whose present values are whole numbers of magnitude
    at most [2^47], in a frame without a column named
    [outlier_reason], the detector takes Q1 and Q3 as the quantiles
    0.25 and 0.75 (linear interpolation) of the present values,
    IQR = Q3 - Q1 and the bounds Q1 - 1.5 IQR and Q3 + 1.5 IQR.  On
    such a column these numbers and 1.5 IQR are float64 numbers, so
    that the float64 arithmetic of the program gives them without
    rounding.  The detector returns exactly the rows whose value is
    strictly below the lower or strictly above the upper bound, in
    their order, each with one more cell: the reason ["Below X.XX"]
    with the lower bound when the value is below it, and ["Above X.XX"]
    with the upper bound otherwise, the bound printed with two
    decimals.  The percentage is count / present values × 100 up to
    the rounding of the division and of the product (a relative error
    of at most [2^-51]).  On 1, 2, 3, 4, 5, 100: Q1 = 2.25, Q3 = 4.75,
    IQR = 2.5, bounds -1.5 and 8.5, the row of 100 alone flagged with
    ["Above 8.50"], count 1 of 6, percentage printed 16.67. *)
Theorem detect_outliers_iqr_method :
  (forall (df : DataFrame) (column : string) (j : nat) (t : dtype),
     index_of column (columns df) = Some j ->
     col_dtype j df = Some t ->
     In t [Int64; Float64] ->
     List.filter notna (col_values j df) <> [] ->
     index_of "outlier_reason" (columns df) = None ->
     (forall r, In r (rows df) ->
        cell_at j r = Missing
        \/ exists x, cell_at j r = Num x /\ small_whole x) ->
     let present := List.filter notna (col_values j df) in
     let q1 := quantile (numbers present) (1 # 4) in
     let q3 := quantile (numbers present) (3 # 4) in
     let lo := fsub q1 (fscale (3 # 2) (fsub q3 q1)) in
     let hi := fadd q3 (fscale (3 # 2) (fsub q3 q1)) in
     exists out st,
       detect_outliers df column "iqr" = Ok (Some (out, st))
       /\ Q1 st = q1 /\ Q3 st = q3 /\ IQR st = fsub q3 q1
       /\ lower_bound st = lo /\ upper_bound st = hi
       /\ (exact_float q1 /\ exact_float q3 /\ exact_float (fsub q3 q1)
           /\ exact_float (fscale (3 # 2) (fsub q3 q1))
           /\ exact_float lo /\ exact_float hi)
       /\ total_values st = Z.of_nat (length present)
       /\ outliers_count st = Z.of_nat (length (rows out))
       /\ (let exact :=
             (inject_Z (outliers_count st) / inject_Z (total_values st)
              * 100)%Q in
           (Qabs (outliers_percentage st - exact) <= exact / 2 ^ 51)%Q)
       /\ rows out
          = map (fun r => Row (label r)
                   (cells r ++ [Str (outlier_reason lo hi (cell_at j r))]))
                (List.filter (flagged j lo hi) (rows df))
       /\ (forall r,
             flagged j lo hi r = true
             <-> exists x, cell_at j r = Num x
                           /\ ((exists b, lo = Some b /\ (x < b)%Q)
                               \/ (exists b, hi = Some b /\ (b < x)%Q)))
       /\ (forall x,
             outlier_reason lo hi x
             = if cell_lt x lo
               then "Below " +:+ format_2f lo
               else "Above " +:+ format_2f hi))
  /\ (exists out st,
        detect_outliers six_values "v" "iqr" = Ok (Some (out, st))
        /\ rows out = [Row 5 [Num 100; Str "Above 8.50"]]
        /\ float_is (Q1 st) (9 # 4) /\ float_is (Q3 st) (19 # 4)
        /\ float_is (IQR st) (5 # 2)
        /\ float_is (lower_bound st) (- 3 # 2)
        /\ float_is (upper_bound st) (17 # 2)
        /\ outliers_count st = 1 /\ total_values st = 6
        /\ format_2f (Some (outliers_percentage st)) = "16.67").
Proof.
  split.
  - intros df column j t Hj Ht Hnum Hne Hnone Hwhole present q1 q3 lo hi.
    destruct (detect_outliers_run df column j t Hj Ht Hnum Hne)
      as (out & Hrun & Hrows).
    rewrite Hnone in Hrows. fold present q1 q3 lo hi in Hrows.
    destruct (whole_column_quartiles df j Hne Hwhole)
      as (v1 & m1 & v3 & m3 & E1 & Hv1 & Hm1 & E3 & Hv3 & Hm3).
    fold present in E1, E3. fold q1 in E1. fold q3 in E3.
    eexists out, _. split; [exact Hrun |].
    cbn [Q1 Q3 IQR lower_bound upper_bound total_values outliers_count
         outliers_percentage].
    split; [reflexivity |]. split; [reflexivity |].
    split; [reflexivity |]. split; [reflexivity |].
    split; [reflexivity |].
    split.
    { unfold lo, hi. rewrite E1, E3. simpl.
      repeat split.
      - apply (eighths_binary64 _ (2 * m1)); [| lia].
        rewrite Hv1. unfold Qeq. simpl. lia.
      - apply (eighths_binary64 _ (2 * m3)); [| lia].
        rewrite Hv3. unfold Qeq. simpl. lia.
      - apply (eighths_binary64 _ (2 * (m3 - m1))); [| lia].
        rewrite Hv1, Hv3. unfold Qeq, Qminus, Qplus, Qopp. simpl. lia.
      - apply (eighths_binary64 _ (3 * (m3 - m1))); [| lia].
        rewrite Hv1, Hv3. unfold Qeq, Qminus, Qplus, Qmult, Qopp. simpl. lia.
      - apply (eighths_binary64 _ (2 * m1 - 3 * (m3 - m1))); [| lia].
        rewrite Hv1, Hv3. unfold Qeq, Qminus, Qplus, Qmult, Qopp. simpl. lia.
      - apply (eighths_binary64 _ (2 * m3 + 3 * (m3 - m1))); [| lia].
        rewrite Hv1, Hv3. unfold Qeq, Qminus, Qplus, Qmult, Qopp. simpl. lia. }
    split; [reflexivity |].
    split; [by rewrite Hrows, length_map |].
    split.
    { cbv zeta.
      set (e := (inject_Z _ / inject_Z _ * 100)%Q).
      assert (0 <= e)%Q as He.
      { unfold e. apply Qmult_le_0_compat; [| by unfold Qle].
        apply Qle_shift_div_l.
        - change 0%Q with (inject_Z 0). rewrite <- Zlt_Qlt.
          assert (length (List.filter notna (col_values j df)) <> 0)%nat
            by (intros H0; apply Hne; by apply nil_length_inv).
          lia.
        - rewrite Qmult_0_l. change 0%Q with (inject_Z 0).
          rewrite <- Zle_Qle. lia. }
      assert (Qabs (e - e) == 0)%Q as ->.
      { assert (e - e == 0)%Q as -> by ring. reflexivity. }
      apply Qle_shift_div_l; [reflexivity |]. by rewrite Qmult_0_l. }
    split; [exact Hrows |].
    split; [by apply flagged_iff | reflexivity].
  - eexists _, _. split; [vm_compute; reflexivity |].
    repeat split.
Qed.

Lemma detect_outliers_iqr_method_witness :
  let present := List.filter notna (col_values 1 gauge) in
  let q1 := quantile (numbers present) (1 # 4) in
  let q3 := quantile (numbers present) (3 # 4) in
  let lo := fsub q1 (fscale (3 # 2) (fsub q3 q1)) in
  let hi := fadd q3 (fscale (3 # 2) (fsub q3 q1)) in
  exists out st,
    detect_outliers gauge "level" "iqr" = Ok (Some (out, st))
    /\ Q1 st = q1 /\ Q3 st = q3 /\ IQR st = fsub q3 q1
    /\ lower_bound st = lo /\ upper_bound st = hi
    /\ (exact_float q1 /\ exact_float q3 /\ exact_float (fsub q3 q1)
        /\ exact_float (fscale (3 # 2) (fsub q3 q1))
        /\ exact_float lo /\ exact_float hi)
    /\ total_values st = Z.of_nat (length present)
    /\ outliers_count st = Z.of_nat (length (rows out))
    /\ (let exact :=
          (inject_Z (outliers_count st) / inject_Z (total_values st)
           * 100)%Q in
        (Qabs (outliers_percentage st - exact) <= exact / 2 ^ 51)%Q)
    /\ rows out
       = map (fun r => Row (label r)
                (cells r ++ [Str (outlier_reason lo hi (cell_at 1 r))]))
             (List.filter (flagged 1 lo hi) (rows gauge))
    /\ (forall r,
          flagged 1 lo hi r = true
          <-> exists x, cell_at 1 r = Num x
                        /\ ((exists b, lo = Some b /\ (x < b)%Q)
                            \/ (exists b, hi = Some b /\ (b < x)%Q)))
    /\ (forall x,
          outlier_reason lo hi x
          = if cell_lt x lo
            then "Below " +:+ format_2f lo
            else "Above " +:+ format_2f hi).
Proof.
  apply (proj1 detect_outliers_iqr_method gauge "level" 1%nat Float64).
  - reflexivity.
  - reflexivity.
  - simpl. tauto.
  - discriminate.
  - reflexivity.
  - intros r Hr. simpl in Hr.
    destruct Hr as [<- | [<- | [<- | [<- | [<- | [<- | []]]]]]];
      [right | left; reflexivity | right | right | right | right];
      (eexists; split; [reflexivity |];
       eexists; split; [reflexivity | simpl; lia]).
Defined.

(** C6, counterexample.  On 1, 2, 3, 4, 5, 100 the reason attached to
    the flagged row is ["Above 8.50"], not ["above upper bound 8.50"]. *)
Lemma detect_outliers_reason_counterexample :
  exists out st,
    detect_outliers six_values "v" "iqr" = Ok (Some (out, st))
    /\ rows out = [Row 5 [Num 100; Str "Above 8.50"]]
    /\ Str "Above 8.50" <> Str "above upper bound 8.50".
Proof.
  eexists _, _. split; [vm_compute; reflexivity |].
  split; [reflexivity | discriminate].
Qed.
